(** * studio-agents: the LangGraph workflow engine and its web bridge

    A shallow embedding of [langgraph_agent_system.py] (agent state, the
    completion gateway, the graph nodes, the graph driver and
    [process_request]) and of [web_interface/main.py] (the session manager
    and the streaming bridge), with the properties the specification states
    about them; then more of the same files (execution modes, the memory
    display, the test harness of [main], the websocket endpoint), the
    environment check of [web_interface/run_server.py] and the result
    report of [demo_claude_code.py], with properties read off the code.

    Conventions.
    - A Python [str] is a [string]; its characters are the bytes of the
      UTF-8 text.  [in], [startswith], [replace] and [+] are byte
      transparent; [strip], [upper], [lower] and slicing are exact on ASCII
      text (non-ASCII bytes are left alone).
    - Every value that comes from outside the program (a completion-service
      reply, a line typed by the user, a line printed by the worker) is an
      explicit argument of the function that consumes it.
    - In the first model of the engine every call of [input()] returns a
      line.  [Module Raising] is the engine with an [input()] that can
      raise: the exception leaves the graph, [process_request] runs the
      graph again, and the second run finds what the first appended to the
      lists of the state.  The statements about a whole request that depend
      on this are made there.
    - The progress notifications sent through [get_stream_writer] are wrapped
      in [try/except: pass] in the source and never touch the agent state;
      they are left out of the node functions. *)

From Stdlib Require Import ZArith Lia Bool Ascii String List DecimalString.
From stdpp Require Import base gmap strings list fin_maps.
Import ListNotations.
Local Open Scope string_scope.
Local Open Scope list_scope.

(** stdpp keeps [simpl] from unfolding string concatenation; the proofs
    below compute with string literals. *)
#[local] Arguments String.append !_ _ / : simpl nomatch.

(* ===================================================================== *)
(** ** Python string operations                                          *)
(* ===================================================================== *)

Module PyStr.

(** Truthiness of a [str]: non-empty. *)
Definition truthy (s : string) : bool :=
  match s with EmptyString => false | String _ _ => true end.

(** [s.startswith(p)] *)
Fixpoint startswith (p s : string) : bool :=
  match p, s with
  | EmptyString, _ => true
  | String _ _, EmptyString => false
  | String a p', String b s' =>
      if Ascii.eqb a b then startswith p' s' else false
  end.

(** [needle in s] *)
Fixpoint contains (needle s : string) : bool :=
  startswith needle s ||
  match s with
  | EmptyString => false
  | String _ s' => contains needle s'
  end.

(** [s[n:]] and [s[:n]] *)
Fixpoint drop (n : nat) (s : string) : string :=
  match n, s with
  | O, _ => s
  | S _, EmptyString => EmptyString
  | S n', String _ s' => drop n' s'
  end.

Fixpoint take (n : nat) (s : string) : string :=
  match n, s with
  | O, _ => EmptyString
  | S _, EmptyString => EmptyString
  | S n', String c s' => String c (take n' s')
  end.

(** [str.isspace] on the ASCII range: TAB..CR, FS..US and the blank. *)
Definition isspace (c : ascii) : bool :=
  let n := nat_of_ascii c in
  (((9 <=? n) && (n <=? 13)) || ((28 <=? n) && (n <=? 32)))%nat.

Fixpoint lstrip (s : string) : string :=
  match s with
  | EmptyString => EmptyString
  | String c s' => if isspace c then lstrip s' else s
  end.

Fixpoint rstrip (s : string) : string :=
  match s with
  | EmptyString => EmptyString
  | String c s' =>
      match rstrip s' with
      | EmptyString => if isspace c then EmptyString else String c EmptyString
      | r => String c r
      end
  end.

(** [s.strip()] *)
Definition strip (s : string) : string := rstrip (lstrip s).

Definition upper_char (c : ascii) : ascii :=
  let n := nat_of_ascii c in
  if ((97 <=? n) && (n <=? 122))%nat then ascii_of_nat (n - 32) else c.

Definition lower_char (c : ascii) : ascii :=
  let n := nat_of_ascii c in
  if ((65 <=? n) && (n <=? 90))%nat then ascii_of_nat (n + 32) else c.

(** [s.upper()] and [s.lower()] *)
Fixpoint upper (s : string) : string :=
  match s with
  | EmptyString => EmptyString
  | String c s' => String (upper_char c) (upper s')
  end.

Fixpoint lower (s : string) : string :=
  match s with
  | EmptyString => EmptyString
  | String c s' => String (lower_char c) (lower s')
  end.

(** [s.replace(old, new)] for a non-empty [old]: leftmost occurrences,
    never overlapping.  [skip] counts the characters of a match that are
    still to be passed over. *)
Fixpoint replace_from (old new : string) (skip : nat) (s : string) : string :=
  match s with
  | EmptyString => EmptyString
  | String c s' =>
      match skip with
      | S k => replace_from old new k s'
      | O =>
          if startswith old s
          then new +:+ replace_from old new (String.length old - 1) s'
          else String c (replace_from old new 0 s')
      end
  end.

Definition replace (old new s : string) : string := replace_from old new 0 s.

(** [s.split(sep)[-1]] for a non-empty [sep]: what follows the last
    occurrence of [sep] found by the left-to-right scan, or all of [s]. *)
Fixpoint after_last_from (sep : string) (skip : nat) (s : string) : option string :=
  match s with
  | EmptyString => None
  | String _ s' =>
      match skip with
      | S k => after_last_from sep k s'
      | O =>
          if startswith sep s
          then match after_last_from sep (String.length sep - 1) s' with
               | Some r => Some r
               | None => Some (drop (String.length sep) s)
               end
          else after_last_from sep 0 s'
      end
  end.

Definition split_last (sep s : string) : string :=
  match after_last_from sep 0 s with Some r => r | None => s end.

End PyStr.

Import PyStr.

(* ===================================================================== *)
(** ** Exceptions                                                        *)
(* ===================================================================== *)

(** A raised Python exception: the text [str(e)] and whether its class
    derives from [Exception] (what [except Exception] catches; a
    [KeyboardInterrupt] or [SystemExit] does not). *)
Record PyExn := { exn_text : string; is_Exception : bool }.

Inductive Exc (A : Type) : Type :=
| Returned (a : A)
| Raised (e : PyExn).
Arguments Returned {A} a.
Arguments Raised {A} e.

Definition exc_bind {A B} (m : Exc A) (k : A -> Exc B) : Exc B :=
  match m with
  | Returned a => k a
  | Raised e => Raised e
  end.

(** [try: body  except Exception as e: handler(e)] *)
Definition try_except_Exception {A} (body : Exc A) (handler : PyExn -> Exc A) : Exc A :=
  match body with
  | Returned a => Returned a
  | Raised e => if is_Exception e then handler e else Raised e
  end.

Definition IndexError (msg : string) : PyExn := {| exn_text := msg; is_Exception := true |}.
Definition AttributeError (msg : string) : PyExn := {| exn_text := msg; is_Exception := true |}.
Definition GraphRecursionError (msg : string) : PyExn := {| exn_text := msg; is_Exception := true |}.

(* ===================================================================== *)
(** ** STEP 1: state management                                          *)
(* ===================================================================== *)

Inductive RouteType := CLARIFY | CODE | ANSWER.

(** [RouteType.value] *)
Definition route_value (r : RouteType) : string :=
  match r with
  | CLARIFY => "clarify"
  | CODE => "code"
  | ANSWER => "answer"
  end.

(** One entry of [conversation_history]: [{"role": .., "message": ..}]. *)
Record Turn := { role : string; message : string }.

Record AgentState := {
  user_input : string;
  conversation_history : list Turn;
  clarified : bool;
  clarification_questions : list string;
  clarification_responses : list string;
  route : option RouteType;
  refined_prompt : string;
  final_result : string;
  error_message : string;
  processing_steps : list string
}.

Definition create_agent_state (input : string) : AgentState :=
  {| user_input := input;
     conversation_history := [];
     clarified := false;
     clarification_questions := [];
     clarification_responses := [];
     route := None;
     refined_prompt := "";
     final_result := "";
     error_message := "";
     processing_steps := [] |}.

(** Item assignments [state[key] = v]. *)
Definition set_user_input (v : string) (s : AgentState) : AgentState :=
  {| user_input := v; conversation_history := conversation_history s;
     clarified := clarified s; clarification_questions := clarification_questions s;
     clarification_responses := clarification_responses s; route := route s;
     refined_prompt := refined_prompt s; final_result := final_result s;
     error_message := error_message s; processing_steps := processing_steps s |}.

Definition set_conversation_history (v : list Turn) (s : AgentState) : AgentState :=
  {| user_input := user_input s; conversation_history := v;
     clarified := clarified s; clarification_questions := clarification_questions s;
     clarification_responses := clarification_responses s; route := route s;
     refined_prompt := refined_prompt s; final_result := final_result s;
     error_message := error_message s; processing_steps := processing_steps s |}.

Definition set_clarified (v : bool) (s : AgentState) : AgentState :=
  {| user_input := user_input s; conversation_history := conversation_history s;
     clarified := v; clarification_questions := clarification_questions s;
     clarification_responses := clarification_responses s; route := route s;
     refined_prompt := refined_prompt s; final_result := final_result s;
     error_message := error_message s; processing_steps := processing_steps s |}.

Definition set_clarification_questions (v : list string) (s : AgentState) : AgentState :=
  {| user_input := user_input s; conversation_history := conversation_history s;
     clarified := clarified s; clarification_questions := v;
     clarification_responses := clarification_responses s; route := route s;
     refined_prompt := refined_prompt s; final_result := final_result s;
     error_message := error_message s; processing_steps := processing_steps s |}.

Definition set_clarification_responses (v : list string) (s : AgentState) : AgentState :=
  {| user_input := user_input s; conversation_history := conversation_history s;
     clarified := clarified s; clarification_questions := clarification_questions s;
     clarification_responses := v; route := route s;
     refined_prompt := refined_prompt s; final_result := final_result s;
     error_message := error_message s; processing_steps := processing_steps s |}.

Definition set_route (v : option RouteType) (s : AgentState) : AgentState :=
  {| user_input := user_input s; conversation_history := conversation_history s;
     clarified := clarified s; clarification_questions := clarification_questions s;
     clarification_responses := clarification_responses s; route := v;
     refined_prompt := refined_prompt s; final_result := final_result s;
     error_message := error_message s; processing_steps := processing_steps s |}.

Definition set_refined_prompt (v : string) (s : AgentState) : AgentState :=
  {| user_input := user_input s; conversation_history := conversation_history s;
     clarified := clarified s; clarification_questions := clarification_questions s;
     clarification_responses := clarification_responses s; route := route s;
     refined_prompt := v; final_result := final_result s;
     error_message := error_message s; processing_steps := processing_steps s |}.

Definition set_final_result (v : string) (s : AgentState) : AgentState :=
  {| user_input := user_input s; conversation_history := conversation_history s;
     clarified := clarified s; clarification_questions := clarification_questions s;
     clarification_responses := clarification_responses s; route := route s;
     refined_prompt := refined_prompt s; final_result := v;
     error_message := error_message s; processing_steps := processing_steps s |}.

Definition set_processing_steps (v : list string) (s : AgentState) : AgentState :=
  {| user_input := user_input s; conversation_history := conversation_history s;
     clarified := clarified s; clarification_questions := clarification_questions s;
     clarification_responses := clarification_responses s; route := route s;
     refined_prompt := refined_prompt s; final_result := final_result s;
     error_message := error_message s; processing_steps := v |}.

Definition add_conversation (state : AgentState) (r msg : string) : AgentState :=
  set_conversation_history
    (conversation_history state ++ [{| role := r; message := msg |}]) state.

Definition add_step (state : AgentState) (step : string) : AgentState :=
  set_processing_steps (processing_steps state ++ [step]) state.

(* ===================================================================== *)
(** ** STEP 2: the completion gateway                                    *)
(* ===================================================================== *)

(** What the external service does when [call_gpt4o] reaches it: building
    the client or [client.chat.completions.create] raises, or a response
    comes back whose [choices] carry a [message.content] each ([None] when
    the service sent no text). *)
Definition ServiceOutcome := Exc (list (option string)).

(** [response.choices[0].message.content.strip()] *)
Definition first_content (choices : list (option string)) : Exc string :=
  match choices with
  | [] => Raised (IndexError "list index out of range")
  | None :: _ => Raised (AttributeError "'NoneType' object has no attribute 'strip'")
  | Some content :: _ => Returned (strip content)
  end.

(** [LLMManager.call_gpt4o]: the whole body sits in
    [try: ... except Exception as e: return f"Error calling GPT-4o: {str(e)}"]. *)
Definition call_gpt4o (service : ServiceOutcome) : Exc string :=
  try_except_Exception
    (exc_bind service first_content)
    (fun e => Returned ("Error calling GPT-4o: " +:+ exn_text e)).

(* ===================================================================== *)
(** ** The outside world of a graph run                                   *)
(* ===================================================================== *)

(** [completions n] is the string the [n]-th call of [call_gpt4o] returns
    during the run (a reply, or the gateway's error text); [typed_lines n]
    is the [n]-th line read by [input()]. *)
Record World := {
  TESTING_MODE : bool;
  completions : nat -> string;
  typed_lines : nat -> string
}.

(** How many gateway calls and [input()] reads the run has made so far. *)
Record Cursor := { llm_calls : nat; lines_read : nat }.

Definition IO (A : Type) : Type := Cursor -> A * Cursor.

Definition io_ret {A} (a : A) : IO A := fun c => (a, c).

Definition io_bind {A B} (m : IO A) (k : A -> IO B) : IO B :=
  fun c => let (a, c') := m c in k a c'.

#[global] Instance io_mret : MRet IO := @io_ret.
#[global] Instance io_mbind : MBind IO := fun A B k m => io_bind m k.

(** [llm.call_gpt4o(prompt, system_prompt)] as a node sees it. *)
Definition ask_gpt4o (w : World) : IO string :=
  fun c => (completions w (llm_calls c),
            {| llm_calls := S (llm_calls c); lines_read := lines_read c |}).

(** [input(...)] when it returns a line; [Raising.input] below is the call
    that can raise. *)
Definition input (w : World) : IO string :=
  fun c => (typed_lines w (lines_read c),
            {| llm_calls := llm_calls c; lines_read := S (lines_read c) |}).

(* ===================================================================== *)
(** ** STEP 3: clarification node                                        *)
(* ===================================================================== *)

Definition simulated_response : string :=
  "I want to build a web application for managing inventory".

Definition clarify_loop (w : World) (state : AgentState) : IO AgentState :=
  let state := add_step state "Starting clarification process" in
  response ← ask_gpt4o w;
  let state := add_step state ("Clarification analysis: " +:+ take 100 response +:+ "...") in
  if startswith "CLARIFIED:" response then
    let state := set_clarified true state in
    let state := set_refined_prompt (strip (drop 10 response)) state in
    io_ret (add_step state "Clarification completed")
  else if startswith "QUESTION:" response then
    let question := strip (drop 9 response) in
    let state := set_clarification_questions (clarification_questions state ++ [question]) state in
    let state := add_conversation state "assistant" question in
    let state := add_step state ("Asked clarification question: " +:+ question) in
    user_response ← (if TESTING_MODE w then io_ret simulated_response
                      else (line ← input w; io_ret (strip line)));
    if truthy user_response then
      let state := set_clarification_responses (clarification_responses state ++ [user_response]) state in
      let state := add_conversation state "user" user_response in
      let state := add_step state ("Received clarification response: " +:+ user_response) in
      let state := set_user_input (user_input state +:+ " - " +:+ user_response) state in
      follow_up_response ← ask_gpt4o w;
      if startswith "CLARIFIED:" follow_up_response then
        let state := set_clarified true state in
        let state := set_refined_prompt (strip (drop 10 follow_up_response)) state in
        io_ret (add_step state "Clarification completed after user response")
      else if (2 <=? List.length (clarification_questions state))%nat then
        let state := set_clarified true state in
        let state := set_refined_prompt (user_input state +:+ " - " +:+ user_response) state in
        io_ret (add_step state "Maximum clarification rounds reached - proceeding")
      else io_ret state
    else
      let state := set_clarified true state in
      let state := set_refined_prompt (user_input state) state in
      io_ret (add_step state "No clarification response - proceeding with original")
  else
    let state := set_clarified true state in
    let state := set_refined_prompt (user_input state) state in
    io_ret (add_step state "Clarification fallback - proceeding with original input").

(* ===================================================================== *)
(** ** STEP 4: routing node                                              *)
(* ===================================================================== *)

(** The [if "CLARIFY" in response: ... elif ... else ...] chain on the
    stripped, upper-cased reply: the route and whether the fallback branch
    was the one taken. *)
Definition classify (response : string) : RouteType * bool :=
  if contains "CLARIFY" response then (CLARIFY, false)
  else if contains "CODE" response then (CODE, false)
  else if contains "ANSWER" response then (ANSWER, false)
  else (CLARIFY, true).

Definition route_prompt (w : World) (state : AgentState) : IO AgentState :=
  let state := add_step state "Starting prompt routing analysis" in
  reply ← ask_gpt4o w;
  let response := upper (strip reply) in
  let state := add_step state ("Routing analysis result: " +:+ response) in
  let (r, fallback) := classify response in
  let state := set_route (Some r) state in
  let state := if fallback
               then add_step state "Routing fallback - defaulting to CLARIFY"
               else state in
  io_ret (add_step state ("Route decision: " +:+ route_value r)).

(* ===================================================================== *)
(** ** STEPS 5-7: refinement, execution placeholder, direct answer       *)
(* ===================================================================== *)

Definition refine_prompt (w : World) (state : AgentState) : IO AgentState :=
  let state := add_step state "Starting prompt refinement" in
  refined ← ask_gpt4o w;
  let state := set_refined_prompt (strip refined) state in
  io_ret (add_step state "Prompt refinement completed").

Module Placeholder.

Definition dq : string := String (ascii_of_nat 34) EmptyString.

Definition placeholder_head : string :=
    "
    PLACEHOLDER CLAUDE CODE EXECUTION
    
    Refined Prompt:
    ".

Definition placeholder_tail : string :=
    "
    
    This would normally execute the Claude Code CLI with the above prompt
    and return the generated code, file changes, or execution results.
    
    Expected implementation:
    ```python
    import tempfile
    import subprocess
    import json
    
    # Write prompt to temporary file
    with tempfile.NamedTemporaryFile(mode='w', suffix='.txt', delete=False) as f:
        f.write(state.refined_prompt)
        prompt_file = f.name
    
    try:
        # Execute Claude Code CLI
        result = subprocess.run([
            " +:+ dq +:+
    "claude" +:+ dq +:+
    ", " +:+ dq +:+
    "code" +:+ dq +:+
    ", 
            " +:+ dq +:+
    "--prompt-file" +:+ dq +:+
    ", prompt_file,
            " +:+ dq +:+
    "--output-format" +:+ dq +:+
    ", " +:+ dq +:+
    "json" +:+ dq +:+
    "
        ], capture_output=True, text=True, timeout=300)
        
        if result.returncode == 0:
            # Parse JSON result
            claude_output = json.loads(result.stdout)
            state.final_result = claude_output.get(" +:+ dq +:+
    "result" +:+ dq +:+
    ", " +:+ dq +:+
    "" +:+ dq +:+
    ")
        else:
            state.error_message = f" +:+ dq +:+
    "Claude Code error: result.stderr" +:+ dq +:+
    "
            
    except subprocess.TimeoutExpired:
        state.error_message = " +:+ dq +:+
    "Claude Code execution timed out" +:+ dq +:+
    "
    except json.JSONDecodeError:
        state.error_message = " +:+ dq +:+
    "Failed to parse Claude Code output" +:+ dq +:+
    "
    except Exception as e:
        state.error_message = f" +:+ dq +:+
    "Unexpected error: str(e)" +:+ dq +:+
    "
    finally:
        # Cleanup
        os.unlink(prompt_file)
    ```
    ".

(** The f-string [placeholder_result] of [run_claude_code]. *)
Definition placeholder_result (prompt : string) : string :=
  placeholder_head +:+ prompt +:+ placeholder_tail.

End Placeholder.

Definition run_claude_code (state : AgentState) : AgentState :=
  let state := add_step state "Starting Claude Code execution (PLACEHOLDER)" in
  let state := set_final_result (Placeholder.placeholder_result (refined_prompt state)) state in
  add_step state "Claude Code execution completed (placeholder)".

Definition answer_with_llm (w : World) (state : AgentState) : IO AgentState :=
  let state := add_step state "Starting direct LLM answer generation" in
  answer ← ask_gpt4o w;
  let state := set_final_result (strip answer) state in
  io_ret (add_step state "Direct answer generation completed").

(* ===================================================================== *)
(** ** STEP 8: the graph                                                  *)
(* ===================================================================== *)

Inductive Node :=
| route_prompt_node
| clarify_loop_node
| refine_prompt_node
| run_claude_code_node
| answer_with_llm_node.

Definition run_node (w : World) (n : Node) (state : AgentState) : IO AgentState :=
  match n with
  | route_prompt_node => route_prompt w state
  | clarify_loop_node => clarify_loop w state
  | refine_prompt_node => refine_prompt w state
  | run_claude_code_node => io_ret (run_claude_code state)
  | answer_with_llm_node => answer_with_llm w state
  end.

(** The edges of [build_agent_graph]; [None] is [END]. *)
Definition next_node (n : Node) (state : AgentState) : option Node :=
  match n with
  | route_prompt_node =>
      match route state with
      | Some CLARIFY => Some clarify_loop_node
      | Some CODE => Some refine_prompt_node
      | Some ANSWER => Some answer_with_llm_node
      | None => Some clarify_loop_node
      end
  | clarify_loop_node =>
      if clarified state then Some refine_prompt_node else Some clarify_loop_node
  | refine_prompt_node => Some run_claude_code_node
  | run_claude_code_node => None
  | answer_with_llm_node => None
  end.

(** langgraph stops a run that has not reached [END] after this many
    node executions (its default limit) with a [GraphRecursionError]. *)
Definition recursion_limit : nat := 25.

Fixpoint graph_steps (w : World) (fuel : nat) (n : Node) (state : AgentState)
    (c : Cursor) : Exc (list (Node * AgentState)) :=
  match fuel with
  | O => Raised (GraphRecursionError "Recursion limit of 25 reached without hitting a stop condition.")
  | S fuel' =>
      let (state', c') := run_node w n state c in
      match next_node n state' with
      | None => Returned [(n, state')]
      | Some n' =>
          exc_bind (graph_steps w fuel' n' state' c')
                   (fun rest => Returned ((n, state') :: rest))
      end
  end.

(** [graph.stream(initial_state, stream_mode=["updates", "custom"])]: the
    ["updates"] chunks, one per executed node, each carrying the state that
    node returned. *)
Definition graph_stream (w : World) (initial_state : AgentState)
  : Exc (list (Node * AgentState)) :=
  graph_steps w recursion_limit route_prompt_node initial_state
              {| llm_calls := 0; lines_read := 0 |}.

(** [graph.invoke(initial_state)]: the state after the last node. *)
Definition graph_invoke (w : World) (initial_state : AgentState) : Exc AgentState :=
  exc_bind (graph_stream w initial_state)
           (fun chunks => Returned (List.last (List.map snd chunks) initial_state)).

(* ===================================================================== *)
(** ** STEP 9: process_request                                            *)
(* ===================================================================== *)

(** The dictionary [process_request] returns.  The success shape has no
    ["error"] key and the failure shape lacks the keys that are [None]
    below. *)
Record ResultDict := {
  success : bool;
  res_final_result : string;
  res_route_taken : string;
  res_processing_steps : list string;
  res_error : option string;
  res_clarified : option bool;
  res_refined_prompt : option string;
  res_conversation_history : option (list Turn);
  res_error_message : option string
}.

(** [last_update.update(node_update)] over the chunks, then
    [if last_update: final_state.update(last_update)]: every node returns
    the whole state, so the last chunk wins on every key. *)
Definition merge_updates (initial_state : AgentState)
    (chunks : list (Node * AgentState)) : AgentState :=
  List.last (List.map snd chunks) initial_state.

Definition success_result (final_state : AgentState) : ResultDict :=
  {| success := true;
     res_final_result := final_result final_state;
     res_route_taken := match route final_state with
                        | Some r => route_value r
                        | None => "unknown"
                        end;
     res_processing_steps := processing_steps final_state;
     res_error := None;
     res_clarified := Some (clarified final_state);
     res_refined_prompt := Some (refined_prompt final_state);
     res_conversation_history := Some (conversation_history final_state);
     res_error_message := Some (error_message final_state) |}.

Definition failure_result (e : PyExn) : ResultDict :=
  {| success := false;
     res_final_result := "";
     res_route_taken := "error";
     res_processing_steps := ["Error occurred during processing"];
     res_error := Some (exn_text e);
     res_clarified := None;
     res_refined_prompt := None;
     res_conversation_history := None;
     res_error_message := None |}.

(** The state [process_request] hands to the graph. *)
Definition initial_state_of (conversation_memory : list Turn) (input : string) : AgentState :=
  let initial_state := create_agent_state input in
  let initial_state := set_conversation_history conversation_memory initial_state in
  let initial_state := add_conversation initial_state "user" input in
  add_step initial_state "Request received and processing started".

(** [LangGraphAgentSystem.process_request], over the two ways it can run
    the graph: [stream] is the [for chunk in self.graph.stream(...)] loop,
    [invoke] the fallback [self.graph.invoke(initial_state)].  The result
    comes with the new value of [self.conversation_memory].  [invoke] is
    handed the state as it was built here; what a failed [stream] has
    appended to its lists by then is for the instance of [invoke] to
    account for, as [Raising.retry] does. *)
Definition process_request
    (stream : AgentState -> Exc (list (Node * AgentState)))
    (invoke : AgentState -> Exc AgentState)
    (conversation_memory : list Turn) (input : string)
  : Exc ResultDict * list Turn :=
  let initial_state := initial_state_of conversation_memory input in
  let run : Exc AgentState :=
    try_except_Exception
      (exc_bind (stream initial_state)
                (fun chunks => Returned (merge_updates initial_state chunks)))
      (fun _streaming_error => invoke initial_state) in
  match run with
  | Returned final_state =>
      (Returned (success_result final_state), conversation_history final_state)
  | Raised e =>
      if is_Exception e
      then (Returned (failure_result e), conversation_memory)
      else (Raised e, conversation_memory)
  end.

(** [process_request] of an agent whose graph is the one built above, with
    an [input()] that returns; [Raising.agent_process_request] is the
    general case. *)
Definition agent_process_request (w : World) (conversation_memory : list Turn)
    (input : string) : Exc ResultDict * list Turn :=
  process_request (graph_stream w) (graph_invoke w) conversation_memory input.

(* ===================================================================== *)
(** ** Shapes of needles used in the proofs                               *)
(* ===================================================================== *)



(* ===================================================================== *)
(** ** The specification's reading of the routing step                   *)
(* ===================================================================== *)










(* ===================================================================== *)
(** ** web_interface/main.py: the session manager                         *)
(* ===================================================================== *)

Module SessionManager.

(** A connection handle; only its identity matters. *)
Definition WebSocket := nat.

(** The value stored under a session id: the agent (its conversation
    memory is its only state), the creation time and the message counter. *)
Record Session := {
  agent_memory : list Turn;
  created_at : Z;
  message_count : nat
}.

Record t := {
  sessions : gmap string Session;
  active_connections : gmap string WebSocket
}.

Definition init : t := {| sessions := ∅; active_connections := ∅ |}.

(** [d.pop(key, None)]: the value or [None], and the dictionary without
    the key.  With a default, [pop] raises nothing when the key is
    missing. *)
Definition pop_or_None {V} (key : string) (d : gmap string V)
  : option V * gmap string V :=
  (d !! key, delete key d).

(** [session_id] is the fresh [str(uuid.uuid4())], [now] the clock. *)
Definition create_session (session_id : string) (now : Z) (websocket : WebSocket)
    (m : t) : string * t :=
  (session_id,
   {| sessions :=
        <[session_id := {| agent_memory := []; created_at := now; message_count := 0 |}]>
          (sessions m);
      active_connections := <[session_id := websocket]> (active_connections m) |}).

Definition get_session (session_id : string) (m : t) : option Session :=
  sessions m !! session_id.

Definition remove_session (session_id : string) (m : t) : t :=
  let (_, sessions') := pop_or_None session_id (sessions m) in
  let (_, connections') := pop_or_None session_id (active_connections m) in
  {| sessions := sessions'; active_connections := connections' |}.

Definition get_connection (session_id : string) (m : t) : option WebSocket :=
  active_connections m !! session_id.

End SessionManager.

(* ===================================================================== *)
(** ** web_interface/main.py: the streaming bridge                        *)
(* ===================================================================== *)

Module Bridge.

(** An outbound message [{"type": .., "data": .., "timestamp": ..}]; the
    time stamp is left out.  [data] is a string or a one-key object. *)
Inductive Data :=
| Text (s : string)
| Field (key value : string).

Record Message := { msg_type : string; msg_data : Data }.

(** Which statement sent a message: the relay of a captured line, the
    keep-alive, the two fixed notices of the bridge, or
    [websocket_endpoint]. *)
Inductive Site := relayed | keepalive | notice | endpoint.

Record Sent := { site : Site; wire : Message }.

Definition step_at (s : Site) (text : string) : Sent :=
  {| site := s; wire := {| msg_type := "processing_step"; msg_data := Text text |} |}.

(** The literals the relay looks for, as they stand in main.py. *)
Definition mark_thinking : string := "üß† Claude thinking:".
Definition mark_thinking_sp : string := "üß† Claude thinking: ".
Definition short_thinking : string := "üß† ".
Definition mark_claude : string := "ü§ñ Claude:".
Definition mark_claude_sp : string := "ü§ñ Claude: ".
Definition short_claude : string := "ü§ñ ".
Definition mark_writing : string := "üìÑ Writing file:".
Definition text_creating : string := "üìÑ Creating file...".
Definition mark_created : string := "‚úÖ File created successfully".
Definition mark_todo : string := "üìã Updating todo list".
Definition text_progress : string := "üìã Updating progress...".
Definition mark_action : string := "‚ö° ACTION:".
Definition mark_action_sp : string := "‚ö° ACTION: ".
Definition mark_thought : string := "üí≠".
Definition mark_thought_sp : string := "üí≠ ".
Definition mark_result : string := "‚úÖ RESULT:".
Definition mark_result_sp : string := "‚úÖ RESULT: ".

Definition keywords : list string := ["Starting"; "Executing"; "Processing"; "Completed"].

(** The [if/elif] chain applied to one captured line: what is sent for it
    and the new value of [route_sent]. *)
Definition relay (message : string) (route_sent : bool) : list Sent * bool :=
  if contains mark_thinking message then
    ([step_at relayed (replace mark_thinking_sp short_thinking message)], route_sent)
  else if contains mark_claude message then
    ([step_at relayed (replace mark_claude_sp short_claude message)], route_sent)
  else if contains mark_writing message then
    ([step_at relayed text_creating], route_sent)
  else if contains mark_created message then
    ([step_at relayed mark_created], route_sent)
  else if contains mark_todo message then
    ([step_at relayed text_progress], route_sent)
  else if contains mark_action message then
    ([step_at relayed (replace mark_action_sp "" message)], route_sent)
  else if contains mark_thought message
          && existsb (fun keyword => contains keyword message) keywords then
    let clean_msg := strip (replace mark_thought_sp "" message) in
    (if truthy clean_msg then [step_at relayed clean_msg] else [], route_sent)
  else if contains "Route decision:" message then
    let r := strip (split_last "Route decision:" message) in
    if negb route_sent
    then ([{| site := relayed;
              wire := {| msg_type := "route_decision"; msg_data := Text r |} |}], true)
    else ([], route_sent)
  else if contains mark_result message then
    ([step_at relayed (replace mark_result_sp "" message)], route_sent)
  else ([], route_sent).

(** The state of [process_request_with_streaming] while the worker thread
    runs: the lines waiting in [step_queue], what has been sent, the flag
    [route_sent], and how many lines have been taken off the queue. *)
Record Loop := {
  step_queue : list string;
  sent : list Sent;
  route_sent : bool;
  taken : nat
}.

Definition start : Loop :=
  {| step_queue := []; sent := []; route_sent := false; taken := 0 |}.

(** [while not step_queue.empty() and messages_sent < 5:] *)
Fixpoint drain (budget : nat) (l : Loop) : Loop :=
  match budget, step_queue l with
  | S budget', message :: rest =>
      let (out, route_sent') := relay message (route_sent l) in
      drain budget' {| step_queue := rest; sent := sent l ++ out;
                       route_sent := route_sent'; taken := S (taken l) |}
  | _, _ => l
  end.

(** What happens while the worker thread is alive, in the order it
    happens: the worker prints a line ([streaming_print] puts it on
    [step_queue]), or the bridge goes once round its
    [while thread.is_alive()] loop; [heartbeat_due] says whether more than
    5 seconds have passed since the last keep-alive.  A line that arrives
    while a round is draining is taken in that round exactly when it would
    have been had it arrived just before, and left exactly when it would
    have been had it arrived just after, so rounds are atomic here. *)
Inductive Event :=
| Printed (line : string)
| Round (heartbeat_due : bool).

Definition on_event (l : Loop) (e : Event) : Loop :=
  match e with
  | Printed line =>
      {| step_queue := step_queue l ++ [line]; sent := sent l;
         route_sent := route_sent l; taken := taken l |}
  | Round heartbeat_due =>
      let l := drain 5 l in
      if heartbeat_due
      then {| step_queue := step_queue l;
              sent := sent l ++ [step_at keepalive "Processing..."];
              route_sent := route_sent l; taken := taken l |}
      else l
  end.

Definition monitor (events : list Event) : Loop := fold_left on_event events start.

(** The keys of the returned dictionary that [websocket_endpoint] reads. *)
Record Outcome := {
  out_success : bool;
  out_final_result : string;
  out_route_taken : string;
  out_error : option string;
  out_clarification_question : option string
}.

Definition outcome_of (d : ResultDict) : Outcome :=
  {| out_success := success d;
     out_final_result := res_final_result d;
     out_route_taken := res_route_taken d;
     out_error := res_error d;
     out_clarification_question := None |}.

Definition failure_outcome (text : string) : Outcome :=
  {| out_success := false; out_final_result := ""; out_route_taken := "error";
     out_error := Some text; out_clarification_question := None |}.

Definition qmark : string := "?".

(** [any(clarification_indicators)] and the update of
    [result["clarification_question"]]. *)
Definition detect_clarification (o : Outcome) : Outcome :=
  let final_result := out_final_result o in
  let indicators :=
    [ startswith "I need more information:" final_result;
      match out_clarification_question o with Some _ => true | None => false end;
      contains "Could you please" final_result && contains qmark final_result;
      contains "What kind of" final_result && contains qmark final_result;
      contains "more details" (lower final_result) && contains qmark final_result;
      contains "please provide" (lower final_result) && contains qmark final_result ] in
  if existsb (fun b => b) indicators then
    match out_clarification_question o with
    | Some (String _ _) => o
    | _ =>
        {| out_success := out_success o; out_final_result := final_result;
           out_route_taken := out_route_taken o; out_error := out_error o;
           out_clarification_question :=
             Some (if startswith "I need more information:" final_result
                   then replace "I need more information: " "" final_result
                   else final_result) |}
    end
  else o.

(** [process_request_with_streaming]: [events] is what happened while the
    worker thread was alive, [worker] how [agent.process_request] ended in
    it.  A line still on [step_queue] when the thread is found dead stays
    there. *)
Definition process_request_with_streaming
    (events : list Event) (worker : Exc ResultDict) : list Sent * Outcome :=
  let l := monitor events in
  let body : Exc (list Sent * Outcome) :=
    match worker with
    | Raised e =>
        if is_Exception e
        then Raised e
        else Raised {| exn_text := "No result received from processing thread";
                       is_Exception := true |}
    | Returned result =>
        Returned (sent l ++ [step_at notice "Processing completed!"],
                  detect_clarification (outcome_of result))
    end in
  match body with
  | Returned r => r
  | Raised e =>
      (sent l ++ [step_at notice ("Error: " +:+ exn_text e)],
       failure_outcome (exn_text e))
  end.

Definition endpoint_msg (type : string) (d : Data) : Sent :=
  {| site := endpoint; wire := {| msg_type := type; msg_data := d |} |}.

(** What [websocket_endpoint] sends for a message once the bridge has
    returned: the route, twice on success, and then one of
    clarification_needed, final_result and error. *)
Definition send_outcome (result : Outcome) : list Sent :=
  let route_msg :=
    if truthy (out_route_taken result)
    then [endpoint_msg "route_decision" (Field "route" (out_route_taken result))]
    else [] in
  route_msg ++
  (if out_success result then
     route_msg ++
     (let final_result := out_final_result result in
      let asked :=
        match out_clarification_question result with
        | Some (String _ _) => true
        | _ => false
        end in
      let is_clarification :=
        asked
        || startswith "I need more information:" final_result
        || (contains "Could you please" final_result && contains qmark final_result)
        || (contains "What kind of" final_result && contains qmark final_result)
        || (contains "more details" (lower final_result) && contains qmark final_result) in
      if is_clarification then
        let clarification_text :=
          match out_clarification_question result with
          | Some (String c q) => String c q
          | _ =>
              if startswith "I need more information:" final_result
              then replace "I need more information: " "" final_result
              else final_result
          end in
        [endpoint_msg "clarification_needed" (Field "question" clarification_text)]
      else [endpoint_msg "final_result" (Field "result" final_result)])
   else
     [endpoint_msg "error"
        (Field "error" (match out_error result with
                        | Some text => text
                        | None => "Unknown error"
                        end))]).

(** The part of [websocket_endpoint]'s receive loop that serves one
    message of a live session: everything it puts on the socket from the
    start notice to the outcome (the echo of the user's message goes
    before).  Sends are taken to succeed. *)
Definition serve_request (events : list Event) (worker : Exc ResultDict) : list Sent :=
  let (streamed, result) := process_request_with_streaming events worker in
  [{| site := endpoint;
      wire := {| msg_type := "processing_update";
                 msg_data := Text "Starting to process your request..." |} |}]
  ++ streamed ++ send_outcome result.

(** The three kinds of outcome message. *)
Definition is_outcome (m : Message) : bool :=
  String.eqb (msg_type m) "final_result"
  || String.eqb (msg_type m) "error"
  || String.eqb (msg_type m) "clarification_needed".

(** The relay of a whole sequence of lines, in order. *)
Fixpoint relay_all (lines : list string) (route_sent : bool) : list Sent :=
  match lines with
  | [] => []
  | message :: rest =>
      let (out, route_sent') := relay message route_sent in
      out ++ relay_all rest route_sent'
  end.

(** The value of [route_sent] after those lines. *)
Fixpoint flag_after (lines : list string) (route_sent : bool) : bool :=
  match lines with
  | [] => route_sent
  | message :: rest => flag_after rest (snd (relay message route_sent))
  end.

(** The lines the worker printed, in order. *)
Definition printed (events : list Event) : list string :=
  flat_map (fun e => match e with Printed line => [line] | Round _ => [] end) events.

(** Was a message sent by the relay of a captured line? *)
Definition from_queue (s : Sent) : bool :=
  match site s with relayed => true | _ => false end.

End Bridge.

(* ===================================================================== *)
(** ** Vocabulary for the statements about [clarify_loop]                 *)
(* ===================================================================== *)

(** The replies a node received: those of the gateway calls made between
    two cursors. *)
Definition replies_between (w : World) (c c' : Cursor) : list string :=
  List.map (completions w) (seq (llm_calls c) (llm_calls c' - llm_calls c)).

(** The user's answer to a clarification question asked at cursor [c]. *)
Definition user_response_at (w : World) (c : Cursor) : string :=
  if TESTING_MODE w then simulated_response
  else strip (typed_lines w (lines_read c)).

(** The cursor after that answer has been obtained. *)
Definition cursor_after_response (w : World) (c : Cursor) : Cursor :=
  if TESTING_MODE w then c
  else {| llm_calls := llm_calls c; lines_read := S (lines_read c) |}.

(** The state once the analysis reply [response] has been logged. *)
Definition analysed (state : AgentState) (response : string) : AgentState :=
  add_step (add_step state "Starting clarification process")
           ("Clarification analysis: " +:+ take 100 response +:+ "...").

(** ... once the question carried by [response] has been recorded, *)
Definition asked (state : AgentState) (response : string) : AgentState :=
  let question := strip (drop 9 response) in
  add_step
    (add_conversation
       (set_clarification_questions
          (clarification_questions (analysed state response) ++ [question])
          (analysed state response))
       "assistant" question)
    ("Asked clarification question: " +:+ question).

(** ... and once the user's answer has been recorded and appended to
    [user_input]. *)
Definition answered (state : AgentState) (user_response : string) : AgentState :=
  let state' :=
    add_step
      (add_conversation
         (set_clarification_responses
            (clarification_responses state ++ [user_response]) state)
         "user" user_response)
      ("Received clarification response: " +:+ user_response) in
  set_user_input (user_input state' +:+ " - " +:+ user_response) state'.

Definition next_call (c : Cursor) : Cursor :=
  {| llm_calls := S (llm_calls c); lines_read := lines_read c |}.

(* ===================================================================== *)
(** ** The closed form of a graph run                                     *)
(* ===================================================================== *)

(** Refinement followed by the execution placeholder. *)
Definition refine_and_run (w : World) (state : AgentState) (c : Cursor)
  : list (Node * AgentState) :=
  let (state1, _) := refine_prompt w state c in
  [(refine_prompt_node, state1); (run_claude_code_node, run_claude_code state1)].

(** One or two rounds of clarification, then refinement and execution. *)
Definition clarify_and_run (w : World) (state : AgentState) (c : Cursor)
  : list (Node * AgentState) :=
  let (state1, c1) := clarify_loop w state c in
  if clarified state1
  then (clarify_loop_node, state1) :: refine_and_run w state1 c1
  else
    let (state2, c2) := clarify_loop w state1 c1 in
    (clarify_loop_node, state1) :: (clarify_loop_node, state2)
      :: refine_and_run w state2 c2.

Definition run_chunks (w : World) (initial_state : AgentState)
  : list (Node * AgentState) :=
  let (state1, c1) := route_prompt w initial_state {| llm_calls := 0; lines_read := 0 |} in
  (route_prompt_node, state1) ::
  match route state1 with
  | Some ANSWER => [(answer_with_llm_node, fst (answer_with_llm w state1 c1))]
  | Some CODE => refine_and_run w state1 c1
  | _ => clarify_and_run w state1 c1
  end.

(** The state a run ends in. *)
Definition final_state_of (initial_state : AgentState)
    (chunks : list (Node * AgentState)) : AgentState :=
  List.last (List.map snd chunks) initial_state.

(* ===================================================================== *)
(** ** The specification's outcome and delivery conditions                *)
(* ===================================================================== *)


(** "Loss of a step message is not acceptable": everything the relay
    makes of the printed lines is on the socket. *)
Definition every_step_delivered (events : list Bridge.Event)
    (worker : Exc ResultDict) : Prop :=
  List.filter Bridge.from_queue (Bridge.serve_request events worker)
  = Bridge.relay_all (Bridge.printed events) false.

(** The loop invariant of the bridge: the lines taken off the queue and
    the lines still on it make up, in order, the lines printed so far;
    what the relay has sent is the relay of the lines taken; nothing sent
    is an outcome message. *)
Definition bridge_inv (lines : list string) (l : Bridge.Loop) : Prop :=
  exists done : list string,
    lines = done ++ Bridge.step_queue l /\
    List.length done = Bridge.taken l /\
    List.filter Bridge.from_queue (Bridge.sent l) = Bridge.relay_all done false /\
    Bridge.route_sent l = Bridge.flag_after done false /\
    Forall (fun s => Bridge.is_outcome (Bridge.wire s) = false) (Bridge.sent l).


(* ===================================================================== *)
(** ** More of the engine: cost of a run, growth of the logs              *)
(* ===================================================================== *)

(** Each log of [logs] is the one before it with something appended,
    starting from [prev]. *)
Fixpoint strictly_grows {A : Type} (prev : list A) (logs : list (list A)) : Prop :=
  match logs with
  | [] => True
  | l :: rest =>
      (exists added, added <> [] /\ l = prev ++ added) /\ strictly_grows l rest
  end.

(** The same without the demand that something is appended. *)
Fixpoint grows {A : Type} (prev : list A) (logs : list (list A)) : Prop :=
  match logs with
  | [] => True
  | l :: rest => (exists added, l = prev ++ added) /\ grows l rest
  end.

(** [LangGraphAgentSystem.clear_memory] *)
Definition clear_memory (conversation_memory : list Turn) : list Turn := [].

(* ===================================================================== *)
(** ** Execution modes and construction of the engine                     *)
(* ===================================================================== *)

Definition TypeError (msg : string) : PyExn := {| exn_text := msg; is_Exception := true |}.
Definition ValueError (msg : string) : PyExn := {| exn_text := msg; is_Exception := true |}.

(** [def set_execution_modes(testing=False, thinking=False, steps=False)],
    called with the keyword arguments [kwargs] (a call names each keyword
    once).  A keyword that is not a parameter raises [TypeError];
    otherwise the global [TESTING_MODE] becomes the value of [testing],
    which is what the result carries. *)
Definition set_execution_modes (kwargs : list (string * bool)) : Exc bool :=
  match List.find (fun kv : string * bool =>
                     negb (existsb (String.eqb (fst kv)) ["testing"; "thinking"; "steps"]))
                  kwargs with
  | Some (name, _) =>
      Raised (TypeError ("set_execution_modes() got an unexpected keyword argument '"
                           +:+ name +:+ "'"))
  | None =>
      Returned (match List.find (fun kv : string * bool => String.eqb (fst kv) "testing")
                                kwargs with
                | Some (_, testing) => testing
                | None => false
                end)
  end.

(** [os.getenv]: the value of a variable, or [None]. *)
Definition Environ := string -> option string.

Record LLMManager := {
  openai_api_key : string;
  anthropic_api_key : option string
}.

(** [LLMManager.__init__]; [chat_model] is how the construction of the
    [ChatOpenAI] client ends. *)
Definition LLMManager_init (getenv : Environ) (chat_model : Exc unit) : Exc LLMManager :=
  match getenv "OPENAI_API_KEY" with
  | Some (String c key) =>
      exc_bind chat_model
        (fun _ => Returned {| openai_api_key := String c key;
                              anthropic_api_key := getenv "ANTHROPIC_API_KEY" |})
  | _ => Raised (ValueError "OPENAI_API_KEY environment variable not set")
  end.

(* ===================================================================== *)
(** ** web_interface/run_server.py: the environment check                 *)
(* ===================================================================== *)

Module RunServer.

Fixpoint stars (n : nat) : string :=
  match n with
  | O => EmptyString
  | S n' => String "*" (stars n')
  end.

(** ['*' * (len(value) - 4) + value[-4:]]: a negative count gives the
    empty string, and [value[-4:]] is all of a value shorter than four
    characters. *)
Definition masked (value : string) : string :=
  stars (String.length value - 4) +:+ drop (String.length value - 4) value.

Definition required_env_vars : list string := ["OPENAI_API_KEY"].
Definition optional_env_vars : list string := ["ANTHROPIC_API_KEY"; "LANGCHAIN_API_KEY"].

Definition is_set (getenv : Environ) (var : string) : bool :=
  match getenv var with
  | Some value => truthy value
  | None => false
  end.

Definition status_line (getenv : Environ) (var : string) : string :=
  match getenv var with
  | Some (String c value) => "   ✓ " +:+ var +:+ ": " +:+ masked (String c value)
  | _ =>
      if existsb (String.eqb var) optional_env_vars
      then "   ○ " +:+ var +:+ ": Not set (optional)"
      else "   ✗ " +:+ var +:+ ": Not set"
  end.

(** [check_environment]: the lines it prints and the value it returns. *)
Definition check_environment (getenv : Environ) : list string * bool :=
  let missing_required :=
    List.filter (fun var => negb (is_set getenv var)) required_env_vars in
  match missing_required with
  | _ :: _ =>
      (["❌ Missing required environment variables:"]
         ++ List.map (fun var => "   - " +:+ var) missing_required
         ++ ["
🔑 Set them with:"]
         ++ List.map (fun var => "   export " +:+ var +:+ "=your_key_here") missing_required,
       false)
  | [] =>
      ("✅ Environment Variables:"
         :: List.map (status_line getenv) (required_env_vars ++ optional_env_vars),
       true)
  end.

End RunServer.

(* ===================================================================== *)
(** ** More of web_interface/main.py                                      *)
(* ===================================================================== *)

(** [health_check]'s ["active_sessions"]: [len(session_manager.sessions)]. *)
Definition health_check (m : SessionManager.t) : nat :=
  size (SessionManager.sessions m).

(** The session managers the server can be in: the empty one, and what
    [create_session] and [remove_session] make of one. *)
Inductive reachable : SessionManager.t -> Prop :=
| reachable_init : reachable SessionManager.init
| reachable_create (session_id : string) (now : Z)
    (websocket : SessionManager.WebSocket) (m : SessionManager.t) :
    reachable m ->
    reachable (snd (SessionManager.create_session session_id now websocket m))
| reachable_remove (session_id : string) (m : SessionManager.t) :
    reachable m ->
    reachable (SessionManager.remove_session session_id m).

(** [websocket_endpoint]: [agent] is how the construction of the session's
    [LangGraphAgentSystem] ends inside [create_session], [receive_loop]
    is the [while True:] loop, which handles or swallows every exception
    raised inside it.  The result is what was sent, how the coroutine
    ended and the session manager it leaves; the [finally] clause removes
    the session on every way out of the [try]. *)
Definition websocket_endpoint (agent : Exc unit) (session_id : string) (now : Z)
    (websocket : SessionManager.WebSocket)
    (receive_loop : SessionManager.t -> list Bridge.Message * SessionManager.t)
    (m : SessionManager.t)
  : list Bridge.Message * Exc unit * SessionManager.t :=
  match agent with
  | Raised e => ([], Raised e, m)
  | Returned _ =>
      let (session_id, m1) := SessionManager.create_session session_id now websocket m in
      let created :=
        {| Bridge.msg_type := "session_created";
           Bridge.msg_data := Bridge.Field "session_id" session_id |} in
      match set_execution_modes [("http", true)] with
      | Raised e =>
          ([created], Raised e, SessionManager.remove_session session_id m1)
      | Returned _ =>
          let (sent, m2) := receive_loop m1 in
          (created :: sent, Returned tt, SessionManager.remove_session session_id m2)
      end
  end.

(** How many times round its loop the bridge went. *)
Definition rounds (events : list Bridge.Event) : nat :=
  List.length (List.filter (fun e => match e with
                                     | Bridge.Round _ => true
                                     | Bridge.Printed _ => false
                                     end) events).

Definition is_route_decision (s : Bridge.Sent) : bool :=
  String.eqb (Bridge.msg_type (Bridge.wire s)) "route_decision".

(** The five tests on the text of [final_result] among
    [clarification_indicators]. *)
Definition reads_as_question (final_result : string) : bool :=
  startswith "I need more information:" final_result
  || (contains "Could you please" final_result && contains Bridge.qmark final_result)
  || (contains "What kind of" final_result && contains Bridge.qmark final_result)
  || (contains "more details" (lower final_result) && contains Bridge.qmark final_result)
  || (contains "please provide" (lower final_result) && contains Bridge.qmark final_result).

(* ===================================================================== *)
(** ** The memory display, the demo report and the test harness           *)
(* ===================================================================== *)

(** [str(n)] of a non-negative integer, as an f-string formats it. *)
Definition decimal (n : nat) : string := NilEmpty.string_of_uint (Nat.to_uint n).

(** [l[-k:]] for [k > 0] *)
Definition last_entries {A : Type} (k : nat) (l : list A) : list A :=
  skipn (List.length l - k) l.

(** [enumerate(l, i)] *)
Fixpoint enumerate {A : Type} (i : nat) (l : list A) : list (nat * A) :=
  match l with
  | [] => []
  | x :: rest => (i, x) :: enumerate (S i) rest
  end.

(** The [message] expression of [show_memory]: the conditional binds
    weaker than [+], so the dots are added to the cut text only. *)
Definition shown_message (message : string) : string :=
  if (100 <? String.length message)%nat
  then take 100 message +:+ "..."
  else message.

Definition memory_line (numbered : nat * Turn) : string :=
  let (i, entry) := numbered in
  "  " +:+ decimal i +:+ ". " +:+ role entry +:+ ": " +:+ shown_message (message entry).

(** [LangGraphAgentSystem.show_memory]: the lines it prints. *)
Definition show_memory (conversation_memory : list Turn) : list string :=
  match conversation_memory with
  | [] => ["🧠 Conversation memory is empty."]
  | _ :: _ =>
      ("🧠 Conversation memory (" +:+ decimal (List.length conversation_memory)
         +:+ " entries):")
      :: List.map memory_line (enumerate 1 (last_entries 5 conversation_memory))
      ++ (if (5 <? List.length conversation_memory)%nat
          then ["  ... and " +:+ decimal (List.length conversation_memory - 5)
                  +:+ " more entries"]
          else [])
  end.

(** What [demo_claude_code.py] prints about the result of a request, after
    the route and the number of steps: the error line, or the success line
    with the number of characters and, for a non-empty result, a preview
    cut at 300 characters.  [result.get('error_message')] is [None] when
    the dictionary has no such key. *)
Inductive DemoReport :=
| demo_error (error_message : string)
| demo_success (characters : nat) (preview : option string).

Definition demo_report (result : ResultDict) : DemoReport :=
  let error_message :=
    match res_error_message result with Some m => truthy m | None => false end in
  if error_message
  then demo_error (match res_error_message result with Some m => m | None => "" end)
  else
    let final_result := res_final_result result in
    demo_success (String.length final_result)
      (if truthy final_result
       then Some (if (300 <? String.length final_result)%nat
                  then take 300 final_result +:+ "..."
                  else final_result)
       else None).

(** The test cases of [main] under [--testing]. *)
Record TestCase := {
  tc_name : string;
  tc_input : string;
  expected_route : string;
  tc_description : string
}.

Definition test_cases : list TestCase :=
  [ {| tc_name := "Clear Informational Request";
       tc_input := "What is the difference between REST and GraphQL APIs?";
       expected_route := "answer";
       tc_description := "Should route directly to answer without clarification" |};
    {| tc_name := "Clear Code Request";
       tc_input := "Build a Python web scraper for news articles using BeautifulSoup";
       expected_route := "code";
       tc_description := "Should route to code generation after minimal processing" |};
    {| tc_name := "Vague Request Needing Clarification";
       tc_input := "I want to create something cool";
       expected_route := "clarify";
       tc_description := "Should trigger clarification loop" |};
    {| tc_name := "Moderately Vague Request";
       tc_input := "Help me build an app";
       expected_route := "clarify";
       tc_description := "Should ask for clarification about app type and purpose" |};
    {| tc_name := "Technical Explanation Request";
       tc_input := "Explain how JWT authentication works in web applications";
       expected_route := "answer";
       tc_description := "Should provide detailed explanation" |};
    {| tc_name := "Complex Code Request";
       tc_input := "Create a full-stack web application with user authentication, database integration, and real-time chat functionality";
       expected_route := "code";
       tc_description := "Should route to code generation with detailed requirements" |} ].

Record TestResult := {
  test_case : string;
  tr_success : bool;
  route_match : bool;
  tr_expected_route : string;
  actual_route : string;
  has_result : bool;
  tr_error : option string
}.

(** The body of the harness loop for one test case, given what
    [agent.process_request] did: the analysis of a returned dictionary, or
    the record of the [except Exception] branch. *)
Definition analyse (tc : TestCase) (outcome : Exc ResultDict) : Exc TestResult :=
  match outcome with
  | Returned result =>
      Returned {| test_case := tc_name tc;
                  tr_success := success result;
                  route_match := String.eqb (res_route_taken result) (expected_route tc);
                  tr_expected_route := expected_route tc;
                  actual_route := res_route_taken result;
                  has_result := truthy (res_final_result result);
                  tr_error := res_error result |}
  | Raised e =>
      if is_Exception e
      then Returned {| test_case := tc_name tc;
                       tr_success := false;
                       route_match := false;
                       tr_expected_route := expected_route tc;
                       actual_route := "error";
                       has_result := false;
                       tr_error := Some (exn_text e) |}
      else Raised e
  end.

(** The loop over the test cases.  [process i] is the [i]-th call of
    [agent.process_request]; the agent's conversation memory is carried
    from one test case to the next. *)
Fixpoint run_test_cases
    (process : nat -> list Turn -> string -> Exc ResultDict * list Turn)
    (i : nat) (cases : list TestCase) (conversation_memory : list Turn)
  : Exc (list TestResult) :=
  match cases with
  | [] => Returned []
  | tc :: rest =>
      let (outcome, conversation_memory) :=
        process i conversation_memory (tc_input tc) in
      exc_bind (analyse tc outcome) (fun test_result =>
      exc_bind (run_test_cases process (S i) rest conversation_memory) (fun results =>
      Returned (test_result :: results)))
  end.

(** The counts of the test summary. *)
Record Summary := {
  total_tests : Z;
  passed_tests : Z;
  partial_tests : Z;
  failed_tests : Z
}.

Definition count (p : TestResult -> bool) (results : list TestResult) : Z :=
  Z.of_nat (List.length (List.filter p results)).

Definition summary (results : list TestResult) : Summary :=
  let total_tests := Z.of_nat (List.length results) in
  let passed_tests := count (fun r => tr_success r && route_match r) results in
  let partial_tests := count (fun r => tr_success r && negb (route_match r)) results in
  {| total_tests := total_tests;
     passed_tests := passed_tests;
     partial_tests := partial_tests;
     failed_tests := (total_tests - passed_tests - partial_tests)%Z |}.

(** The tests listed under "Failed Tests", a block printed only when
    [failed_tests > 0]. *)
Definition listed_as_failed (results : list TestResult) : list TestResult :=
  if (0 <? failed_tests (summary results))%Z
  then List.filter (fun r => negb (tr_success r) || negb (route_match r)) results
  else [].

(* ===================================================================== *)
(** ** The engine when [input()] raises, and the retry                    *)
(* ===================================================================== *)

(** So far every call of [input()] returned a line.  Here it may raise
    ([EOFError] at the end of the input, [KeyboardInterrupt]), the
    exception leaves [clarify_loop] and the graph, and [process_request]
    runs the graph a second time.  The nodes append to the lists of the
    state in place ([add_step], [add_conversation],
    [state["clarification_questions"].append]), and langgraph hands every
    node a dictionary holding the list objects of the dictionary
    [process_request] passed in: what a failed run appended is in
    [initial_state] when the second run starts.  The keys assigned to
    ([user_input], [clarified], [refined_prompt], [route], [final_result])
    are as [process_request] set them.  The gateway is taken to be
    constructed in every node as it was when the agent was built. *)
Module Raising.

(** [keyboard n] is the exception the [n]-th call of [input()] ends with,
    if it does; otherwise the call returns [typed_lines w n]. *)
Definition Keyboard := nat -> option PyExn.

Definition EOFError : PyExn :=
  {| exn_text := "EOF when reading a line"; is_Exception := true |}.
Definition KeyboardInterrupt : PyExn :=
  {| exn_text := ""; is_Exception := false |}.

(** How the execution of a node ends: it returns the state, or an
    exception leaves it; [dirty] is then the state dictionary as the node
    had it, of which the lists live on. *)
Inductive Ran :=
| Done (state : AgentState)
| Failed (e : PyExn) (dirty : AgentState).

(** [input(...)] *)
Definition input (w : World) (keyboard : Keyboard) (c : Cursor) : Exc string * Cursor :=
  (match keyboard (lines_read c) with
   | Some e => Raised e
   | None => Returned (typed_lines w (lines_read c))
   end,
   {| llm_calls := llm_calls c; lines_read := S (lines_read c) |}).

Definition clarify_loop (w : World) (keyboard : Keyboard) (state : AgentState)
    (c : Cursor) : Ran * Cursor :=
  let state := add_step state "Starting clarification process" in
  let (response, c) := ask_gpt4o w c in
  let state := add_step state ("Clarification analysis: " +:+ take 100 response +:+ "...") in
  if startswith "CLARIFIED:" response then
    let state := set_clarified true state in
    let state := set_refined_prompt (strip (drop 10 response)) state in
    (Done (add_step state "Clarification completed"), c)
  else if startswith "QUESTION:" response then
    let question := strip (drop 9 response) in
    let state := set_clarification_questions (clarification_questions state ++ [question]) state in
    let state := add_conversation state "assistant" question in
    let state := add_step state ("Asked clarification question: " +:+ question) in
    let answered_with (user_response : string) (c : Cursor) : Ran * Cursor :=
      if truthy user_response then
        let state := set_clarification_responses (clarification_responses state ++ [user_response]) state in
        let state := add_conversation state "user" user_response in
        let state := add_step state ("Received clarification response: " +:+ user_response) in
        let state := set_user_input (user_input state +:+ " - " +:+ user_response) state in
        let (follow_up_response, c) := ask_gpt4o w c in
        if startswith "CLARIFIED:" follow_up_response then
          let state := set_clarified true state in
          let state := set_refined_prompt (strip (drop 10 follow_up_response)) state in
          (Done (add_step state "Clarification completed after user response"), c)
        else if (2 <=? List.length (clarification_questions state))%nat then
          let state := set_clarified true state in
          let state := set_refined_prompt (user_input state +:+ " - " +:+ user_response) state in
          (Done (add_step state "Maximum clarification rounds reached - proceeding"), c)
        else (Done state, c)
      else
        let state := set_clarified true state in
        let state := set_refined_prompt (user_input state) state in
        (Done (add_step state "No clarification response - proceeding with original"), c) in
    if TESTING_MODE w then answered_with simulated_response c
    else
      match input w keyboard c with
      | (Raised e, c) => (Failed e state, c)
      | (Returned line, c) => answered_with (strip line) c
      end
  else
    let state := set_clarified true state in
    let state := set_refined_prompt (user_input state) state in
    (Done (add_step state "Clarification fallback - proceeding with original input"), c).

(** The other nodes read nothing from the user. *)
Definition run_node (w : World) (keyboard : Keyboard) (n : Node)
    (state : AgentState) (c : Cursor) : Ran * Cursor :=
  match n with
  | clarify_loop_node => clarify_loop w keyboard state c
  | route_prompt_node => let (state, c) := route_prompt w state c in (Done state, c)
  | refine_prompt_node => let (state, c) := refine_prompt w state c in (Done state, c)
  | run_claude_code_node => (Done (run_claude_code state), c)
  | answer_with_llm_node => let (state, c) := answer_with_llm w state c in (Done state, c)
  end.

(** How a run of the graph ends: at [END], with the chunks of the nodes
    executed, or with the exception [e] raised in [failed_node] after the
    chunks of the nodes that had finished. *)
Inductive Run :=
| Ended (chunks : list (Node * AgentState))
| Aborted (chunks : list (Node * AgentState)) (failed_node : Node)
          (e : PyExn) (dirty : AgentState).

Definition with_chunk (chunk : Node * AgentState) (r : Run) : Run :=
  match r with
  | Ended rest => Ended (chunk :: rest)
  | Aborted rest failed_node e dirty => Aborted (chunk :: rest) failed_node e dirty
  end.

Fixpoint graph_steps (w : World) (keyboard : Keyboard) (fuel : nat) (n : Node)
    (state : AgentState) (c : Cursor) : Run * Cursor :=
  match fuel with
  | O => (Aborted [] n
            (GraphRecursionError "Recursion limit of 25 reached without hitting a stop condition.")
            state, c)
  | S fuel' =>
      match run_node w keyboard n state c with
      | (Failed e dirty, c') => (Aborted [] n e dirty, c')
      | (Done state', c') =>
          match next_node n state' with
          | None => (Ended [(n, state')], c')
          | Some n' =>
              let (rest, c'') := graph_steps w keyboard fuel' n' state' c' in
              (with_chunk (n, state') rest, c'')
          end
      end
  end.

(** The nodes a run started, in order. *)
Definition executed (r : Run) : list Node :=
  match r with
  | Ended chunks => List.map fst chunks
  | Aborted chunks failed_node _ _ => List.map fst chunks ++ [failed_node]
  end.

(** Every state dictionary a run held at the end of a node or when the
    exception left it. *)
Definition states (r : Run) : list AgentState :=
  match r with
  | Ended chunks => List.map snd chunks
  | Aborted chunks _ _ dirty => List.map snd chunks ++ [dirty]
  end.

(** [initial_state] after a failed run: the keys as [process_request] set
    them, the lists as the run left them. *)
Definition left_behind (initial_state dirty : AgentState) : AgentState :=
  set_processing_steps (processing_steps dirty)
    (set_clarification_responses (clarification_responses dirty)
       (set_clarification_questions (clarification_questions dirty)
          (set_conversation_history (conversation_history dirty) initial_state))).

(** [self.graph.stream(initial_state, ...)], consumed to its end. *)
Definition stream (w : World) (keyboard : Keyboard) (initial_state : AgentState)
  : Run * Cursor :=
  graph_steps w keyboard recursion_limit route_prompt_node initial_state
              {| llm_calls := 0; lines_read := 0 |}.

(** [self.graph.invoke(initial_state)] in the [except] branch, that is
    after [stream] has failed: the run starts from what the failed run
    left behind and the gateway and the keyboard go on from where they
    were.  [process_request] does not get here after a [stream] that
    ended; the second case is there for totality. *)
Definition retry (w : World) (keyboard : Keyboard) (initial_state : AgentState)
  : Run * Cursor :=
  match stream w keyboard initial_state with
  | (Aborted _ _ _ dirty, c) =>
      graph_steps w keyboard recursion_limit route_prompt_node
                  (left_behind initial_state dirty) c
  | (Ended chunks, c) => (Ended chunks, c)
  end.

Definition chunks_of (r : Run) : Exc (list (Node * AgentState)) :=
  match r with
  | Ended chunks => Returned chunks
  | Aborted _ _ e _ => Raised e
  end.

Definition final_of (initial_state : AgentState) (r : Run) : Exc AgentState :=
  exc_bind (chunks_of r)
           (fun chunks => Returned (List.last (List.map snd chunks) initial_state)).

(** [process_request] of the agent, with a keyboard that can fail. *)
Definition agent_process_request (w : World) (keyboard : Keyboard)
    (conversation_memory : list Turn) (request : string)
  : Exc ResultDict * list Turn :=
  process_request (fun initial_state => chunks_of (fst (stream w keyboard initial_state)))
                  (fun initial_state =>
                     final_of initial_state (fst (retry w keyboard initial_state)))
                  conversation_memory request.

(** Did [process_request] run the graph a second time? *)
Definition retried (w : World) (keyboard : Keyboard) (initial_state : AgentState) : bool :=
  match fst (stream w keyboard initial_state) with
  | Aborted _ _ e _ => is_Exception e
  | Ended _ => false
  end.

(** The runs of the graph one request makes. *)
Definition attempts (w : World) (keyboard : Keyboard) (initial_state : AgentState)
  : list Run :=
  fst (stream w keyboard initial_state)
  :: (if retried w keyboard initial_state
      then [fst (retry w keyboard initial_state)]
      else []).

(** The gateway calls and [input()] calls made when [process_request]
    returns. *)
Definition request_cursor (w : World) (keyboard : Keyboard) (initial_state : AgentState)
  : Cursor :=
  if retried w keyboard initial_state
  then snd (retry w keyboard initial_state)
  else snd (stream w keyboard initial_state).

End Raising.

(** Does this execution of [clarify_loop] call [input()]? *)
Definition reaches_input (w : World) (c : Cursor) : bool :=
  negb (TESTING_MODE w)
  && negb (startswith "CLARIFIED:" (completions w (llm_calls c)))
  && startswith "QUESTION:" (completions w (llm_calls c)).

(** The closed form of a run that can be interrupted. *)
Definition clarify_and_run_or_abort (w : World) (keyboard : Raising.Keyboard)
    (state : AgentState) (c : Cursor) : Raising.Run * Cursor :=
  match Raising.clarify_loop w keyboard state c with
  | (Raising.Failed e dirty, c1) => (Raising.Aborted [] clarify_loop_node e dirty, c1)
  | (Raising.Done state1, c1) =>
      if clarified state1
      then (Raising.Ended ((clarify_loop_node, state1) :: refine_and_run w state1 c1),
            next_call c1)
      else
        match Raising.clarify_loop w keyboard state1 c1 with
        | (Raising.Failed e dirty, c2) =>
            (Raising.Aborted [(clarify_loop_node, state1)] clarify_loop_node e dirty, c2)
        | (Raising.Done state2, c2) =>
            (Raising.Ended ((clarify_loop_node, state1) :: (clarify_loop_node, state2)
                              :: refine_and_run w state2 c2),
             next_call c2)
        end
  end.

Definition run_or_abort (w : World) (keyboard : Raising.Keyboard)
    (state : AgentState) (c : Cursor) : Raising.Run * Cursor :=
  let (state1, c1) := route_prompt w state c in
  match route state1 with
  | Some ANSWER =>
      (Raising.Ended [(route_prompt_node, state1);
                      (answer_with_llm_node, fst (answer_with_llm w state1 c1))],
       next_call c1)
  | Some CODE =>
      (Raising.Ended ((route_prompt_node, state1) :: refine_and_run w state1 c1),
       next_call c1)
  | _ =>
      let (rest, c2) := clarify_and_run_or_abort w keyboard state1 c1 in
      (Raising.with_chunk (route_prompt_node, state1) rest, c2)
  end.

(** How many more times [clarify_loop] can run before it must resolve:
    a state that holds a question already forces the exit at once. *)
Definition rounds_allowed (state : AgentState) : nat :=
  match clarification_questions state with [] => 2 | _ :: _ => 1 end.

(** The node sequences of a run that reaches [END], and of one that an
    exception leaves. *)
Definition complete_runs : list (list Node) :=
  [ [route_prompt_node; answer_with_llm_node];
    [route_prompt_node; refine_prompt_node; run_claude_code_node];
    [route_prompt_node; clarify_loop_node; refine_prompt_node; run_claude_code_node];
    [route_prompt_node; clarify_loop_node; clarify_loop_node; refine_prompt_node;
     run_claude_code_node] ].

Definition interrupted_runs : list (list Node) :=
  [ [route_prompt_node; clarify_loop_node];
    [route_prompt_node; clarify_loop_node; clarify_loop_node] ].

(* ===================================================================== *)
(** ** Facts about the string operations                                  *)
(* ===================================================================== *)


Lemma app_empty_r (s : string) : s +:+ "" = s.
Proof. induction s as [|c s IH]; cbn; [reflexivity | now f_equal]. Qed.




















(* ===================================================================== *)
(** ** Routing                                                            *)
(* ===================================================================== *)






(** What [route_prompt] writes, in terms of [classify]. *)
Lemma route_prompt_eq (w : World) (state : AgentState) (c : Cursor) :
  let response := upper (strip (completions w (llm_calls c))) in
  let r := fst (classify response) in
  let fb := snd (classify response) in
  route_prompt w state c =
    (add_step
       ((if fb then fun s => add_step s "Routing fallback - defaulting to CLARIFY"
         else fun s => s)
          (set_route (Some r)
             (add_step (add_step state "Starting prompt routing analysis")
                       ("Routing analysis result: " +:+ response))))
       ("Route decision: " +:+ route_value r),
     {| llm_calls := S (llm_calls c); lines_read := lines_read c |}).
Proof.
  cbv zeta. unfold route_prompt, mbind, io_mbind, io_bind, ask_gpt4o.
  destruct (classify _) as [r []]; reflexivity.
Qed.



(** C8. Routing is a function of the classification text alone: two runs
    of the routing step that get the same reply from the completion
    service set the same [route], whatever their states and histories. *)
Theorem route_prompt_deterministic
    (w1 w2 : World) (state1 state2 : AgentState) (c1 c2 : Cursor) :
  completions w1 (llm_calls c1) = completions w2 (llm_calls c2) ->
  route (fst (route_prompt w1 state1 c1)) = route (fst (route_prompt w2 state2 c2)).
Proof.
  intros H. rewrite !route_prompt_eq. cbv zeta. rewrite H.
  destruct (classify _) as [r []]; reflexivity.
Qed.

Lemma route_prompt_deterministic_witness :
  let w1 := {| TESTING_MODE := false; completions := fun _ => "code";
               typed_lines := fun _ => "" |} in
  let w2 := {| TESTING_MODE := true; completions := fun _ => "code";
               typed_lines := fun _ => "x" |} in
  let c := {| llm_calls := 0; lines_read := 0 |} in
  route (fst (route_prompt w1 (create_agent_state "build it") c)) =
  route (fst (route_prompt w2 (create_agent_state "something else") c)).
Proof.
  cbv zeta. apply route_prompt_deterministic. reflexivity.
Defined.

(* ===================================================================== *)
(** ** Proof tools for the nodes                                          *)
(* ===================================================================== *)

(** From here on the string operations and the state updates stay folded
    under [simpl]. *)
#[local] Arguments startswith : simpl never.
#[local] Arguments contains : simpl never.
#[local] Arguments strip : simpl never.
#[local] Arguments drop : simpl never.
#[local] Arguments take : simpl never.
#[local] Arguments upper : simpl never.
#[local] Arguments truthy : simpl never.
#[local] Arguments Nat.leb : simpl never.
#[local] Arguments String.append : simpl never.
#[local] Arguments add_step : simpl never.
#[local] Arguments add_conversation : simpl never.
#[local] Arguments asked : simpl never.
#[local] Arguments answered : simpl never.
#[local] Arguments analysed : simpl never.

Ltac unfold_io :=
  unfold mbind, io_mbind, io_bind, ask_gpt4o, input, io_ret in *.

(* ===================================================================== *)
(** ** The completion gateway                                             *)
(* ===================================================================== *)

(** The two markers [clarify_loop] dispatches on are told apart by their
    first character, and the gateway's error text begins with neither. *)
Lemma markers_exclusive (reply : string) :
  startswith "CLARIFIED:" reply = true -> startswith "QUESTION:" reply = false.
Proof.
  destruct reply as [|[[] [] [] [] [] [] [] []] reply];
    simpl; intros H; try discriminate H; reflexivity.
Qed.

Lemma error_text_unmarked (text : string) :
  startswith "CLARIFIED:" ("Error calling GPT-4o: " +:+ text) = false /\
  startswith "QUESTION:" ("Error calling GPT-4o: " +:+ text) = false.
Proof. split; reflexivity. Qed.

(** C6. [call_gpt4o] does not raise on a failure of the external call:
    whenever building the client, the request or the reading of the
    response raises an [Exception] (network, authentication, a response
    without choices or without text), the call returns the string
    "Error calling GPT-4o: " followed by the exception text; when the
    service answers with text it returns that text stripped. *)
Theorem call_gpt4o_never_raises (service : ServiceOutcome) :
  (forall e, service = Raised e -> is_Exception e = true) ->
  exists text : string,
    call_gpt4o service = Returned text /\
    match service with
    | Returned (Some content :: _) => text = strip content
    | Returned (None :: _) =>
        text = "Error calling GPT-4o: 'NoneType' object has no attribute 'strip'"
    | Returned [] => text = "Error calling GPT-4o: list index out of range"
    | Raised e => text = "Error calling GPT-4o: " +:+ exn_text e
    end.
Proof.
  intros Hexn. unfold call_gpt4o, try_except_Exception, exc_bind.
  destruct service as [choices | e].
  - destruct choices as [| [content |] rest]; simpl; eauto.
  - rewrite (Hexn e eq_refl). eauto.
Qed.

Lemma call_gpt4o_never_raises_witness :
  exists text : string,
    call_gpt4o (Raised {| exn_text := "Connection error."; is_Exception := true |})
      = Returned text /\
    text = "Error calling GPT-4o: Connection error.".
Proof.
  destruct (call_gpt4o_never_raises
              (Raised {| exn_text := "Connection error."; is_Exception := true |}))
    as [text [H1 H2]].
  - intros e He. injection He as <-. reflexivity.
  - exists text. split; [exact H1 | exact H2].
Defined.

(* ===================================================================== *)
(** ** The clarification node                                             *)
(* ===================================================================== *)

(** The four ways through [clarify_loop], by what it reads. *)
Lemma clarify_loop_resolved (w : World) (state : AgentState) (c : Cursor) :
  startswith "CLARIFIED:" (completions w (llm_calls c)) = true ->
  clarify_loop w state c =
    (add_step
       (set_refined_prompt (strip (drop 10 (completions w (llm_calls c))))
          (set_clarified true (analysed state (completions w (llm_calls c)))))
       "Clarification completed",
     next_call c).
Proof. intros H. unfold clarify_loop. unfold_io. now rewrite H. Qed.

Lemma clarify_loop_unmarked (w : World) (state : AgentState) (c : Cursor) :
  startswith "CLARIFIED:" (completions w (llm_calls c)) = false ->
  startswith "QUESTION:" (completions w (llm_calls c)) = false ->
  clarify_loop w state c =
    (add_step
       (set_refined_prompt (user_input state)
          (set_clarified true (analysed state (completions w (llm_calls c)))))
       "Clarification fallback - proceeding with original input",
     next_call c).
Proof. intros H1 H2. unfold clarify_loop. unfold_io. now rewrite H1, H2. Qed.

Lemma clarify_loop_question (w : World) (state : AgentState) (c : Cursor) :
  startswith "CLARIFIED:" (completions w (llm_calls c)) = false ->
  startswith "QUESTION:" (completions w (llm_calls c)) = true ->
  clarify_loop w state c =
    let response := completions w (llm_calls c) in
    let user_response := user_response_at w (next_call c) in
    let c1 := cursor_after_response w (next_call c) in
    if truthy user_response then
      let state1 := answered (asked state response) user_response in
      let follow_up_response := completions w (llm_calls c1) in
      if startswith "CLARIFIED:" follow_up_response then
        (add_step
           (set_refined_prompt (strip (drop 10 follow_up_response))
              (set_clarified true state1))
           "Clarification completed after user response", next_call c1)
      else if (2 <=? List.length (clarification_questions state1))%nat then
        (add_step
           (set_refined_prompt (user_input state1 +:+ " - " +:+ user_response)
              (set_clarified true state1))
           "Maximum clarification rounds reached - proceeding", next_call c1)
      else (state1, next_call c1)
    else
      (add_step
         (set_refined_prompt (user_input (asked state response))
            (set_clarified true (asked state response)))
         "No clarification response - proceeding with original", c1).
Proof.
  intros H1 H2. cbv zeta. unfold clarify_loop. unfold_io.
  rewrite H1, H2.
  unfold user_response_at, cursor_after_response, next_call.
  destruct (TESTING_MODE w); simpl.
  - change (truthy simulated_response) with true. cbv iota beta.
    destruct (startswith "CLARIFIED:" (completions w (S (llm_calls c))));
      [reflexivity |].
    match goal with |- context [(2 <=? ?n)%nat] => destruct (2 <=? n)%nat end;
      reflexivity.
  - destruct (truthy (strip (typed_lines w (lines_read c)))); simpl;
      [| reflexivity].
    destruct (startswith "CLARIFIED:" (completions w (S (llm_calls c))));
      [reflexivity |].
    match goal with |- context [(2 <=? ?n)%nat] => destruct (2 <=? n)%nat end;
      reflexivity.
Qed.

(** What every execution of [clarify_loop] does to the fields the graph
    and the caller look at: it leaves the loop resolved, or it has asked
    the first question of the request. *)
Lemma clarify_loop_effect (w : World) (state : AgentState) (c : Cursor) :
  let state' := fst (clarify_loop w state c) in
  error_message state' = error_message state /\
  final_result state' = final_result state /\
  route state' = route state /\
  ((clarified state' = true /\
    List.length (clarification_questions state')
      <= S (List.length (clarification_questions state)))
   \/
   (clarified state' = clarified state /\
    List.length (clarification_questions state')
      = S (List.length (clarification_questions state)) /\
    S (List.length (clarification_questions state)) < 2)).
Proof.
  cbv zeta.
  assert (Hlen : forall q : string,
             List.length (clarification_questions state ++ [q])
             = S (List.length (clarification_questions state))).
  { intros q. rewrite length_app. simpl. lia. }
  assert (Hle : forall n : nat, n <= S n) by (intros; lia).
  destruct (startswith "CLARIFIED:" (completions w (llm_calls c))) eqn:E1.
  { rewrite clarify_loop_resolved by exact E1. simpl. repeat split; auto. }
  destruct (startswith "QUESTION:" (completions w (llm_calls c))) eqn:E2.
  2: { rewrite clarify_loop_unmarked by assumption. simpl. repeat split; auto. }
  rewrite clarify_loop_question by assumption. cbv zeta.
  set (u := user_response_at w (next_call c)).
  set (c1 := cursor_after_response w (next_call c)).
  destruct (truthy u).
  2: { simpl. rewrite Hlen. repeat split; auto. }
  destruct (startswith "CLARIFIED:" (completions w (llm_calls c1))).
  { simpl. rewrite Hlen. repeat split; auto. }
  destruct (2 <=? _)%nat eqn:E3.
  { simpl. rewrite Hlen. repeat split; auto. }
  apply Nat.leb_gt in E3. simpl in *. rewrite Hlen in *.
  repeat split; auto.
Qed.

Lemma graph_steps_S (w : World) (fuel : nat) (n : Node) (state : AgentState)
    (c : Cursor) :
  graph_steps w (S fuel) n state c =
    match next_node n (fst (run_node w n state c)) with
    | None => Returned [(n, fst (run_node w n state c))]
    | Some n' =>
        exc_bind (graph_steps w fuel n' (fst (run_node w n state c))
                              (snd (run_node w n state c)))
                 (fun rest => Returned ((n, fst (run_node w n state c)) :: rest))
    end.
Proof. simpl. now destruct (run_node w n state c). Qed.

#[local] Arguments graph_steps : simpl never.

Lemma graph_steps_refine (w : World) (fuel : nat) (state : AgentState) (c : Cursor) :
  graph_steps w (S (S fuel)) refine_prompt_node state c
  = Returned (refine_and_run w state c).
Proof.
  rewrite !graph_steps_S. unfold refine_and_run. simpl.
  now destruct (refine_prompt w state c).
Qed.

Lemma graph_steps_clarify (w : World) (fuel : nat) (state : AgentState) (c : Cursor) :
  clarified state = false ->
  clarification_questions state = [] ->
  graph_steps w (S (S (S (S fuel)))) clarify_loop_node state c
  = Returned (clarify_and_run w state c).
Proof.
  intros Hc Hq. rewrite graph_steps_S. unfold clarify_and_run.
  pose proof (clarify_loop_effect w state c) as (_ & _ & _ & H1).
  simpl run_node. destruct (clarify_loop w state c) as [state1 c1].
  simpl in *. destruct (clarified state1) eqn:E1.
  { now rewrite graph_steps_refine. }
  destruct H1 as [[H1 _] | (_ & Hlen1 & _)]; [discriminate |].
  rewrite graph_steps_S.
  pose proof (clarify_loop_effect w state1 c1) as (_ & _ & _ & H2).
  simpl run_node. destruct (clarify_loop w state1 c1) as [state2 c2].
  simpl in *. destruct H2 as [[H2 _] | (_ & _ & H2)].
  - rewrite H2, graph_steps_refine. reflexivity.
  - rewrite Hlen1, Hq in H2. simpl in H2. lia.
Qed.

(** With an [input()] that returns, the graph reaches [END] within five
    node executions. *)
Lemma graph_stream_returns (w : World) (initial_state : AgentState) :
  clarified initial_state = false ->
  clarification_questions initial_state = [] ->
  graph_stream w initial_state = Returned (run_chunks w initial_state).
Proof.
  intros Hc Hq. unfold graph_stream, recursion_limit, run_chunks.
  rewrite graph_steps_S. simpl run_node.
  pose proof (route_prompt_eq w initial_state {| llm_calls := 0; lines_read := 0 |}) as E.
  cbv zeta in E.
  destruct (route_prompt w initial_state _) as [state1 c1].
  injection E as E1 _.
  assert (Hc1 : clarified state1 = false).
  { rewrite E1. now destruct (snd (classify _)). }
  assert (Hq1 : clarification_questions state1 = []).
  { rewrite E1. now destruct (snd (classify _)). }
  assert (Hr : exists r, route state1 = Some r).
  { rewrite E1. destruct (snd (classify _)); simpl; eauto. }
  destruct Hr as [r Hr]. simpl fst. simpl snd. unfold next_node at 1. rewrite Hr.
  destruct r.
  - now rewrite graph_steps_clarify.
  - now rewrite graph_steps_refine.
  - rewrite graph_steps_S. simpl. reflexivity.
Qed.

Lemma replies_between_one (w : World) (c c' : Cursor) :
  llm_calls c' = S (llm_calls c) ->
  replies_between w c c' = [completions w (llm_calls c)].
Proof.
  intros H. unfold replies_between. rewrite H.
  replace (S (llm_calls c) - llm_calls c) with 1 by lia. reflexivity.
Qed.

Lemma replies_between_two (w : World) (c c' : Cursor) :
  llm_calls c' = S (S (llm_calls c)) ->
  replies_between w c c'
  = [completions w (llm_calls c); completions w (S (llm_calls c))].
Proof.
  intros H. unfold replies_between. rewrite H.
  replace (S (S (llm_calls c)) - llm_calls c) with 2 by lia. reflexivity.
Qed.

Lemma llm_calls_after_response (w : World) (c : Cursor) :
  llm_calls (cursor_after_response w c) = llm_calls c.
Proof. unfold cursor_after_response. now destruct (TESTING_MODE w). Qed.

(** C5. Whenever a reply that [clarify_loop] receives from the completion
    service, to its analysis request or to its follow-up request, begins
    with "CLARIFIED:", the node ends the clarification loop: [clarified]
    is true, [refined_prompt] is the rest of that reply with the white
    space around it stripped, and the graph moves on to refinement. *)
Theorem clarify_loop_resolved_marker
    (w : World) (state : AgentState) (c : Cursor) (reply : string) :
  In reply (replies_between w c (snd (clarify_loop w state c))) ->
  startswith "CLARIFIED:" reply = true ->
  clarified (fst (clarify_loop w state c)) = true /\
  refined_prompt (fst (clarify_loop w state c)) = strip (drop 10 reply) /\
  next_node clarify_loop_node (fst (clarify_loop w state c))
    = Some refine_prompt_node.
Proof.
  intros Hin Hm.
  destruct (startswith "CLARIFIED:" (completions w (llm_calls c))) eqn:E1.
  { rewrite clarify_loop_resolved in * by exact E1. simpl in Hin.
    rewrite replies_between_one in Hin by reflexivity.
    destruct Hin as [<- | []]. simpl. auto. }
  destruct (startswith "QUESTION:" (completions w (llm_calls c))) eqn:E2.
  2: { rewrite clarify_loop_unmarked in * by assumption. simpl in Hin.
       rewrite replies_between_one in Hin by reflexivity.
       destruct Hin as [<- | []]. congruence. }
  rewrite clarify_loop_question in * by assumption. cbv zeta in *.
  set (u := user_response_at w (next_call c)) in *.
  set (c1 := cursor_after_response w (next_call c)) in *.
  assert (Hc1 : llm_calls c1 = S (llm_calls c)).
  { unfold c1. now rewrite llm_calls_after_response. }
  destruct (truthy u).
  2: { simpl in Hin. rewrite replies_between_one in Hin by exact Hc1.
       destruct Hin as [<- | []]. congruence. }
  assert (Hin' : reply = completions w (llm_calls c1)).
  { assert (Hin2 : In reply (replies_between w c (next_call c1))).
    { destruct (startswith "CLARIFIED:" (completions w (llm_calls c1)));
        [exact Hin |].
      destruct (2 <=? _)%nat; exact Hin. }
    rewrite replies_between_two in Hin2 by (simpl; now rewrite Hc1).
    rewrite Hc1. destruct Hin2 as [<- | [<- | []]]; [congruence | reflexivity]. }
  subst reply. rewrite Hm. simpl. auto.
Qed.

Lemma clarify_loop_resolved_marker_witness :
  let w := {| TESTING_MODE := true;
              completions := fun n => match n with
                                      | 0 => "QUESTION: what kind of project?"
                                      | _ => "CLARIFIED: inventory web app"
                                      end;
              typed_lines := fun _ => "" |} in
  let c := {| llm_calls := 0; lines_read := 0 |} in
  let state := create_agent_state "I want to build something" in
  clarified (fst (clarify_loop w state c)) = true /\
  refined_prompt (fst (clarify_loop w state c)) = "inventory web app" /\
  next_node clarify_loop_node (fst (clarify_loop w state c))
    = Some refine_prompt_node.
Proof.
  cbv zeta.
  apply (clarify_loop_resolved_marker
           {| TESTING_MODE := true;
              completions := fun n => match n with
                                      | 0 => "QUESTION: what kind of project?"
                                      | _ => "CLARIFIED: inventory web app"
                                      end;
              typed_lines := fun _ => "" |}
           (create_agent_state "I want to build something")
           {| llm_calls := 0; lines_read := 0 |}
           "CLARIFIED: inventory web app").
  - vm_compute. right. left. reflexivity.
  - reflexivity.
Defined.

(** C9, as the code has it.  The fallback branch belongs to the reply to
    the node's analysis request: when that reply begins with neither
    "CLARIFIED:" nor "QUESTION:" -- in particular when it is the text the
    gateway returns on a failed call -- [clarify_loop] makes one gateway
    call, sets [clarified] to true and [refined_prompt] to the unchanged
    [user_input], and the graph leaves the loop for refinement.  The reply
    to the follow-up request, made after the user has answered a question,
    has no such branch: when it does not begin with "CLARIFIED:" and the
    question was the first of the request, the node returns with
    [clarified] and [refined_prompt] as it found them and the graph runs
    it again; when a question had been asked before, the node forces the
    exit.  The loop is bounded all the same: of two executions of the node
    in a row, one ends with [clarified] true. *)
Theorem clarify_loop_fallback (w : World) (state : AgentState) (c : Cursor) :
  let reply := completions w (llm_calls c) in
  let state' := fst (clarify_loop w state c) in
  ((startswith "CLARIFIED:" reply = false /\ startswith "QUESTION:" reply = false)
   \/ (exists e : PyExn,
          is_Exception e = true /\ call_gpt4o (Raised e) = Returned reply) ->
   clarified state' = true /\
   refined_prompt state' = user_input state /\
   user_input state' = user_input state /\
   processing_steps state' =
     processing_steps state
     ++ ["Starting clarification process";
         "Clarification analysis: " +:+ take 100 reply +:+ "...";
         "Clarification fallback - proceeding with original input"] /\
   snd (clarify_loop w state c) = next_call c /\
   next_node clarify_loop_node state' = Some refine_prompt_node)
  /\
  (startswith "QUESTION:" reply = true ->
   truthy (user_response_at w (next_call c)) = true ->
   startswith "CLARIFIED:"
     (completions w (llm_calls (cursor_after_response w (next_call c)))) = false ->
   (clarification_questions state = [] ->
    clarified state' = clarified state /\
    refined_prompt state' = refined_prompt state /\
    List.length (clarification_questions state') = 1 /\
    (clarified state = false ->
     next_node clarify_loop_node state' = Some clarify_loop_node)) /\
   (clarification_questions state <> [] ->
    clarified state' = true /\
    next_node clarify_loop_node state' = Some refine_prompt_node))
  /\
  (clarified state' = true \/
   clarified (fst (clarify_loop w state' (snd (clarify_loop w state c)))) = true).
Proof.
  cbv zeta. split; [| split].
  - intros H.
    assert (Hn : startswith "CLARIFIED:" (completions w (llm_calls c)) = false /\
                 startswith "QUESTION:" (completions w (llm_calls c)) = false).
    { destruct H as [H | (e & He & Hcall)]; [exact H |].
      unfold call_gpt4o, try_except_Exception, exc_bind in Hcall.
      rewrite He in Hcall. injection Hcall as <-. apply error_text_unmarked. }
    destruct Hn as [H1 H2]. rewrite clarify_loop_unmarked by assumption.
    unfold analysed, add_step. simpl. rewrite <- !app_assoc. simpl. repeat split.
  - intros E2 Hu Hf.
    assert (E1 : startswith "CLARIFIED:" (completions w (llm_calls c)) = false).
    { destruct (startswith "CLARIFIED:" (completions w (llm_calls c))) eqn:E;
        [| reflexivity].
      apply markers_exclusive in E. congruence. }
    rewrite clarify_loop_question by assumption. cbv zeta. rewrite Hu, Hf.
    assert (Hlen : List.length
                     (clarification_questions
                        (answered (asked state (completions w (llm_calls c)))
                                  (user_response_at w (next_call c))))
                   = S (List.length (clarification_questions state))).
    { unfold answered, asked, analysed, add_step, add_conversation.
      simpl. rewrite List.length_app. simpl. lia. }
    split.
    + intros Hq. rewrite Hq in Hlen.
      assert (Hle : (2 <=? List.length
                             (clarification_questions
                                (answered (asked state (completions w (llm_calls c)))
                                          (user_response_at w (next_call c)))))%nat
                    = false) by (rewrite Hlen; reflexivity).
      rewrite Hle. cbn [fst]. split; [reflexivity |]. split; [reflexivity |].
      split; [exact Hlen |].
      intros Hc. unfold next_node.
      change (clarified (answered (asked state (completions w (llm_calls c)))
                                  (user_response_at w (next_call c))))
        with (clarified state).
      now rewrite Hc.
    + intros Hq.
      assert (Hle : (2 <=? List.length
                             (clarification_questions
                                (answered (asked state (completions w (llm_calls c)))
                                          (user_response_at w (next_call c)))))%nat
                    = true).
      { rewrite Hlen. apply Nat.leb_le.
        destruct (clarification_questions state); [congruence | simpl; lia]. }
      rewrite Hle. split; reflexivity.
  - pose proof (clarify_loop_effect w state c) as (_ & _ & _ & H1).
    cbv zeta in H1.
    destruct H1 as [[H1 _] | (_ & Hlen1 & _)]; [now left | right].
    pose proof (clarify_loop_effect w (fst (clarify_loop w state c))
                  (snd (clarify_loop w state c))) as (_ & _ & _ & H2).
    cbv zeta in H2.
    destruct H2 as [[H2 _] | (_ & _ & H2)]; [exact H2 |].
    rewrite Hlen1 in H2. lia.
Qed.

Lemma clarify_loop_fallback_witness :
  let failing := {| TESTING_MODE := false;
                    completions := fun _ => "Error calling GPT-4o: Connection error.";
                    typed_lines := fun _ => "" |} in
  let asking := {| TESTING_MODE := false;
                   completions := fun _ => "QUESTION: What kind of project?";
                   typed_lines := fun _ => "a web app" |} in
  let c := {| llm_calls := 0; lines_read := 0 |} in
  let state := create_agent_state "I want to build something" in
  (clarified (fst (clarify_loop failing state c)) = true /\
   refined_prompt (fst (clarify_loop failing state c)) = "I want to build something" /\
   next_node clarify_loop_node (fst (clarify_loop failing state c))
     = Some refine_prompt_node) /\
  (clarified (fst (clarify_loop asking state c)) = false /\
   next_node clarify_loop_node (fst (clarify_loop asking state c))
     = Some clarify_loop_node).
Proof.
  cbv zeta. split.
  - destruct (clarify_loop_fallback
                {| TESTING_MODE := false;
                   completions := fun _ => "Error calling GPT-4o: Connection error.";
                   typed_lines := fun _ => "" |}
                (create_agent_state "I want to build something")
                {| llm_calls := 0; lines_read := 0 |})
      as (H & _ & _).
    destruct H as (H1 & H2 & _ & _ & _ & H3).
    + right. exists {| exn_text := "Connection error."; is_Exception := true |}.
      split; reflexivity.
    + split; [exact H1 | split; [exact H2 | exact H3]].
  - destruct (clarify_loop_fallback
                {| TESTING_MODE := false;
                   completions := fun _ => "QUESTION: What kind of project?";
                   typed_lines := fun _ => "a web app" |}
                (create_agent_state "I want to build something")
                {| llm_calls := 0; lines_read := 0 |})
      as (_ & H & _).
    destruct H as (H & _); [reflexivity .. |].
    destruct (H eq_refl) as (H1 & _ & _ & H2).
    split; [exact H1 | exact (H2 eq_refl)].
Defined.

(** C9 as stated fails for the follow-up reply.  The user has answered
    the first question and the follow-up call fails: the reply is the
    gateway's error text, which begins with neither marker, yet the node
    returns with [clarified] false and [refined_prompt] empty (not
    [user_input]), and the graph runs [clarify_loop] again. *)
Lemma clarify_loop_followup_unresolved :
  let w := {| TESTING_MODE := false;
              completions := fun n =>
                match n with
                | 0 => "QUESTION: What kind of project?"
                | _ => "Error calling GPT-4o: Connection error."
                end;
              typed_lines := fun _ => "a web app" |} in
  let c := {| llm_calls := 0; lines_read := 0 |} in
  let state := create_agent_state "I want to build something" in
  let state' := fst (clarify_loop w state c) in
  let follow_up := "Error calling GPT-4o: Connection error." in
  replies_between w c (snd (clarify_loop w state c))
    = ["QUESTION: What kind of project?"; follow_up] /\
  call_gpt4o (Raised {| exn_text := "Connection error."; is_Exception := true |})
    = Returned follow_up /\
  startswith "CLARIFIED:" follow_up = false /\
  startswith "QUESTION:" follow_up = false /\
  clarified state' = false /\
  refined_prompt state' = "" /\
  user_input state' = "I want to build something - a web app" /\
  refined_prompt state' <> user_input state' /\
  next_node clarify_loop_node state' = Some clarify_loop_node.
Proof.
  cbv zeta. repeat split; try reflexivity. discriminate.
Qed.

(* ===================================================================== *)
(** ** The bounded clarification dialogue                                 *)
(* ===================================================================== *)

(** The forced exit of [clarify_loop]: a question was asked, the user
    answered, the follow-up reply does not begin with "CLARIFIED:" and
    this was at least the second question.  [user_input] has by then been
    extended with the answer, and [refined_prompt] is built from that
    extended value and the answer again. *)
Lemma clarify_loop_forced (w : World) (state : AgentState) (c : Cursor) :
  startswith "QUESTION:" (completions w (llm_calls c)) = true ->
  truthy (user_response_at w (next_call c)) = true ->
  startswith "CLARIFIED:"
    (completions w (llm_calls (cursor_after_response w (next_call c)))) = false ->
  1 <= List.length (clarification_questions state) ->
  clarified (fst (clarify_loop w state c)) = true /\
  user_input (fst (clarify_loop w state c))
    = user_input state +:+ " - " +:+ user_response_at w (next_call c) /\
  refined_prompt (fst (clarify_loop w state c))
    = (user_input state +:+ " - " +:+ user_response_at w (next_call c))
        +:+ " - " +:+ user_response_at w (next_call c).
Proof.
  intros E2 Hu Hf Hlen.
  assert (E1 : startswith "CLARIFIED:" (completions w (llm_calls c)) = false).
  { destruct (startswith "CLARIFIED:" (completions w (llm_calls c))) eqn:E;
      [| reflexivity].
    apply markers_exclusive in E. congruence. }
  rewrite clarify_loop_question by assumption. cbv zeta. rewrite Hu, Hf.
  assert (Hq : (2 <=? List.length
                        (clarification_questions
                           (answered (asked state (completions w (llm_calls c)))
                                     (user_response_at w (next_call c)))))%nat
               = true).
  { apply Nat.leb_le. unfold answered, asked, analysed, add_step, add_conversation.
    simpl. rewrite length_app. simpl. lia. }
  rewrite Hq. simpl. repeat split.
Qed.

Lemma refine_and_run_frame (w : World) (state : AgentState) (c : Cursor) :
  Forall (fun p : Node * AgentState =>
            clarification_questions (snd p) = clarification_questions state /\
            error_message (snd p) = error_message state /\
            route (snd p) = route state)
         (refine_and_run w state c).
Proof.
  unfold refine_and_run, refine_prompt. unfold_io. simpl.
  repeat constructor.
Qed.

(** No request is asked more than two clarification questions: at every
    point of every run that starts from a fresh state,
    [clarification_questions] has at most two entries. *)
Lemma clarification_rounds_bounded (w : World) (initial_state : AgentState) :
  clarified initial_state = false ->
  clarification_questions initial_state = [] ->
  Forall (fun p : Node * AgentState =>
            List.length (clarification_questions (snd p)) <= 2)
         (run_chunks w initial_state).
Proof.
  intros Hc Hq. unfold run_chunks.
  pose proof (route_prompt_eq w initial_state {| llm_calls := 0; lines_read := 0 |}) as E.
  cbv zeta in E.
  destruct (route_prompt w initial_state _) as [state1 c1].
  injection E as E1 _.
  assert (Hc1 : clarified state1 = false).
  { rewrite E1. now destruct (snd (classify _)). }
  assert (Hq1 : clarification_questions state1 = []).
  { rewrite E1. now destruct (snd (classify _)). }
  assert (Hframe : forall st c0,
             List.length (clarification_questions st) <= 2 ->
             Forall (fun p : Node * AgentState =>
                       List.length (clarification_questions (snd p)) <= 2)
                    (refine_and_run w st c0)).
  { intros st c0 Hst. eapply List.Forall_impl; [| apply refine_and_run_frame].
    intros p (Hp & _). simpl. now rewrite Hp. }
  assert (Hclar : Forall (fun p : Node * AgentState =>
                            List.length (clarification_questions (snd p)) <= 2)
                         (clarify_and_run w state1 c1)).
  { unfold clarify_and_run.
    pose proof (clarify_loop_effect w state1 c1) as (_ & _ & _ & H1).
    destruct (clarify_loop w state1 c1) as [state2 c2]. simpl in H1.
    rewrite Hq1 in H1. simpl in H1.
    assert (Hl2 : List.length (clarification_questions state2) <= 1) by lia.
    destruct (clarified state2) eqn:E2.
    - constructor; [simpl; lia | apply Hframe; lia].
    - pose proof (clarify_loop_effect w state2 c2) as (_ & _ & _ & H2).
      destruct (clarify_loop w state2 c2) as [state3 c3]. simpl in H2.
      assert (Hl3 : List.length (clarification_questions state3) <= 2) by lia.
      constructor; [simpl; lia |]. constructor; [simpl; lia |]. now apply Hframe. }
  constructor; [simpl; rewrite Hq1; simpl; lia |].
  destruct (route state1) as [[] |]; try exact Hclar.
  - apply Hframe. rewrite Hq1. simpl. lia.
  - constructor; [| constructor]. unfold answer_with_llm. unfold_io. simpl.
    rewrite Hq1. simpl. lia.
Qed.

(** C2. A request whose dialogue exhausts the bound: "I want to build
    something", two questions, the answers "a web app" and "python", and
    no resolving reply.  The run asks two questions and no more, and after
    the second round [clarified] is forced to true; but [refined_prompt]
    carries the last answer twice: it is neither the original input
    followed by the last answer nor the input as extended by the two
    answers. *)
Theorem forced_prompt_repeats_last_response :
  let w := {| TESTING_MODE := false;
              completions := fun n =>
                match n with
                | 0 => "CLARIFY"
                | 1 => "QUESTION: What kind of project?"
                | 2 => "QUESTION: Which language?"
                | 3 => "QUESTION: Which language?"
                | 4 => "QUESTION: Which framework?"
                | _ => "Build it."
                end;
              typed_lines := fun n =>
                match n with 0 => "a web app" | _ => "python" end |} in
  let chunks := run_chunks w (initial_state_of [] "I want to build something") in
  graph_stream w (initial_state_of [] "I want to build something") = Returned chunks /\
  List.map fst chunks =
    [route_prompt_node; clarify_loop_node; clarify_loop_node;
     refine_prompt_node; run_claude_code_node] /\
  match nth_error chunks 2 with
  | Some (_, state) =>
      clarification_questions state = ["What kind of project?"; "Which language?"] /\
      clarified state = true /\
      user_input state = "I want to build something - a web app - python" /\
      refined_prompt state = "I want to build something - a web app - python - python" /\
      refined_prompt state <> "I want to build something - python" /\
      refined_prompt state <> user_input state
  | None => False
  end.
Proof.
  cbv zeta. split; [apply graph_stream_returns; reflexivity |].
  vm_compute. repeat split; discriminate.
Qed.

(* ===================================================================== *)
(** ** Terminal outcomes                                                  *)
(* ===================================================================== *)


Lemma last_cons_default {A : Type} (x : A) (l : list A) (d : A) :
  List.last (x :: l) d = List.last l x.
Proof.
  revert x d. induction l as [|y l IH]; intros x d; [reflexivity |].
  change (List.last (x :: y :: l) d) with (List.last (y :: l) d).
  rewrite (IH y d). symmetry. apply IH.
Qed.

Lemma final_state_of_cons (initial_state : AgentState) (p : Node * AgentState)
    (chunks : list (Node * AgentState)) :
  final_state_of initial_state (p :: chunks) = final_state_of (snd p) chunks.
Proof. unfold final_state_of. simpl List.map. apply last_cons_default. Qed.

(** Where a run ends: with the direct answer, or with the execution
    placeholder. *)
Lemma refine_and_run_final (w : World) (state0 state : AgentState) (c : Cursor) :
  let final := final_state_of state0 (refine_and_run w state c) in
  error_message final = error_message state /\
  route final = route state /\
  final_result final =
    Placeholder.placeholder_result (strip (completions w (llm_calls c))).
Proof.
  cbv zeta. unfold refine_and_run, refine_prompt. unfold_io.
  unfold final_state_of. simpl. repeat split.
Qed.

Lemma clarify_and_run_final (w : World) (state0 state : AgentState) (c : Cursor) :
  let final := final_state_of state0 (clarify_and_run w state c) in
  error_message final = error_message state /\
  route final = route state /\
  exists prompt, final_result final = Placeholder.placeholder_result prompt.
Proof.
  cbv zeta. unfold clarify_and_run.
  pose proof (clarify_loop_effect w state c) as (He1 & _ & Hr1 & _).
  destruct (clarify_loop w state c) as [state1 c1]. simpl in He1, Hr1.
  destruct (clarified state1).
  - rewrite final_state_of_cons.
    destruct (refine_and_run_final w (snd (clarify_loop_node, state1)) state1 c1)
      as (H1 & H2 & H3).
    rewrite H1, H2, H3. eauto.
  - pose proof (clarify_loop_effect w state1 c1) as (He2 & _ & Hr2 & _).
    destruct (clarify_loop w state1 c1) as [state2 c2]. simpl in He2, Hr2.
    rewrite !final_state_of_cons.
    destruct (refine_and_run_final w (snd (clarify_loop_node, state2)) state2 c2)
      as (H1 & H2 & H3).
    rewrite H1, H2, H3, He2, Hr2. eauto.
Qed.

Lemma run_chunks_final (w : World) (initial_state : AgentState) :
  let final := final_state_of initial_state (run_chunks w initial_state) in
  error_message final = error_message initial_state /\
  ((route final = Some ANSWER /\ final_result final = strip (completions w 1))
   \/ ((route final = Some CLARIFY \/ route final = Some CODE) /\
       exists prompt, final_result final = Placeholder.placeholder_result prompt)).
Proof.
  cbv zeta. unfold run_chunks.
  pose proof (route_prompt_eq w initial_state {| llm_calls := 0; lines_read := 0 |}) as E.
  cbv zeta in E.
  destruct (route_prompt w initial_state _) as [state1 c1].
  injection E as E1 Ec1.
  assert (He1 : error_message state1 = error_message initial_state).
  { rewrite E1. now destruct (snd (classify _)). }
  assert (Hr : exists r, route state1 = Some r).
  { rewrite E1. destruct (snd (classify _)); simpl; eauto. }
  destruct Hr as [r Hr]. rewrite Hr, final_state_of_cons. destruct r.
  - destruct (clarify_and_run_final w (snd (route_prompt_node, state1)) state1 c1)
      as (H1 & H2 & H3).
    rewrite H1, H2. split; [exact He1 |]. right. split; [now left | exact H3].
  - destruct (refine_and_run_final w (snd (route_prompt_node, state1)) state1 c1)
      as (H1 & H2 & H3).
    rewrite H1, H2, H3. split; [exact He1 |]. right. split; [now right | eauto].
  - unfold final_state_of, answer_with_llm. unfold_io. simpl.
    split; [exact He1 |]. left. split; [exact Hr |]. now rewrite Ec1.
Qed.



(* ===================================================================== *)
(** ** process_request and exceptions                                     *)
(* ===================================================================== *)

(** C10, as the code has it.  [process_request] lets no [Exception] reach
    its caller.  An exception raised while the graph is streamed makes it
    run the graph once more with [invoke]; when that run returns, the
    caller gets the success dictionary of its final state; when it raises
    as well, the caller gets the dictionary with [success] False, the text
    of that second exception under "error", an empty [final_result] and
    [route_taken] equal to "error", and the conversation memory is left as
    it was. *)
Theorem process_request_contains_exceptions
    (stream : AgentState -> Exc (list (Node * AgentState)))
    (invoke : AgentState -> Exc AgentState)
    (conversation_memory : list Turn) (request : string) :
  (forall e, stream (initial_state_of conversation_memory request) = Raised e ->
             is_Exception e = true) ->
  (forall e, invoke (initial_state_of conversation_memory request) = Raised e ->
             is_Exception e = true) ->
  exists d : ResultDict,
    fst (process_request stream invoke conversation_memory request) = Returned d /\
    match stream (initial_state_of conversation_memory request),
          invoke (initial_state_of conversation_memory request) with
    | Returned chunks, _ =>
        d = success_result
              (merge_updates (initial_state_of conversation_memory request) chunks)
    | Raised _, Returned final_state => d = success_result final_state
    | Raised _, Raised e =>
        success d = false /\
        res_error d = Some (exn_text e) /\
        res_final_result d = "" /\
        res_route_taken d = "error" /\
        snd (process_request stream invoke conversation_memory request)
          = conversation_memory
    end.
Proof.
  intros Hs Hi. unfold process_request, try_except_Exception, exc_bind.
  destruct (stream (initial_state_of conversation_memory request)) as [chunks | e1].
  - eexists. split; reflexivity.
  - rewrite (Hs e1 eq_refl).
    destruct (invoke (initial_state_of conversation_memory request)) as [final | e2].
    + eexists. split; reflexivity.
    + rewrite (Hi e2 eq_refl). eexists. split; [reflexivity |]. repeat split.
Qed.

Lemma process_request_contains_exceptions_witness :
  exists d : ResultDict,
    fst (process_request
           (fun _ => Raised {| exn_text := "stream broke"; is_Exception := true |})
           (fun _ => Raised {| exn_text := "invoke broke"; is_Exception := true |})
           [] "hello") = Returned d /\
    success d = false /\
    res_error d = Some "invoke broke" /\
    res_final_result d = "" /\
    res_route_taken d = "error".
Proof.
  destruct (process_request_contains_exceptions
              (fun _ => Raised {| exn_text := "stream broke"; is_Exception := true |})
              (fun _ => Raised {| exn_text := "invoke broke"; is_Exception := true |})
              [] "hello")
    as (d & Hd & H1 & H2 & H3 & H4 & _).
  - intros e He. injection He as <-. reflexivity.
  - intros e He. injection He as <-. reflexivity.
  - exists d. repeat split; assumption.
Defined.

(** C10 as stated fails: an exception raised during the streamed graph
    execution does not lead to the failure dictionary when the retry with
    [invoke] goes through; the caller then gets [success] True and no
    "error" key. *)
Lemma streaming_failure_is_retried :
  let w := {| TESTING_MODE := false;
              completions := fun n => match n with 0 => "ANSWER" | _ => "REST is ..." end;
              typed_lines := fun _ => "" |} in
  exists d : ResultDict,
    fst (process_request
           (fun _ => Raised {| exn_text := "stream broke"; is_Exception := true |})
           (graph_invoke w) [] "What is REST?") = Returned d /\
    success d = true /\
    res_error d = None /\
    res_final_result d = "REST is ..." /\
    res_route_taken d = "answer".
Proof.
  cbv zeta. eexists. split; [vm_compute; reflexivity |]. repeat split.
Qed.

(* ===================================================================== *)
(** ** The session manager                                                *)
(* ===================================================================== *)

(** C7. [remove_session] is idempotent: removing a session id a second
    time leaves [sessions] and [active_connections] as the first removal
    left them, and removing an id that neither map holds changes
    nothing.  The removal is a total function: [pop] is called with a
    default and has no failing case. *)
Theorem remove_session_idempotent (session_id : string) (m : SessionManager.t) :
  SessionManager.remove_session session_id
    (SessionManager.remove_session session_id m)
  = SessionManager.remove_session session_id m
  /\
  (SessionManager.sessions m !! session_id = None ->
   SessionManager.active_connections m !! session_id = None ->
   SessionManager.remove_session session_id m = m)
  /\
  SessionManager.get_session session_id
    (SessionManager.remove_session session_id m) = None
  /\
  SessionManager.get_connection session_id
    (SessionManager.remove_session session_id m) = None.
Proof.
  unfold SessionManager.remove_session, SessionManager.pop_or_None,
    SessionManager.get_session, SessionManager.get_connection.
  cbn [SessionManager.sessions SessionManager.active_connections].
  repeat split.
  - now rewrite !delete_delete_eq.
  - intros H1 H2. rewrite !delete_id by assumption. now destruct m.
  - apply lookup_delete_eq.
  - apply lookup_delete_eq.
Qed.

Lemma remove_session_idempotent_witness :
  SessionManager.remove_session "abc" SessionManager.init = SessionManager.init.
Proof.
  apply (remove_session_idempotent "abc" SessionManager.init); reflexivity.
Defined.

(* ===================================================================== *)
(** ** The streaming bridge                                               *)
(* ===================================================================== *)

(** What the relay sends for one line comes from the relay and is never an
    outcome message. *)
Lemma relay_sends (message : string) (route_sent : bool) :
  Forall (fun s => Bridge.from_queue s = true /\ Bridge.is_outcome (Bridge.wire s) = false)
         (fst (Bridge.relay message route_sent)).
Proof.
  unfold Bridge.relay.
  repeat match goal with
         | |- context [if ?b then _ else _] => destruct b
         end;
    simpl; repeat constructor.
Qed.

Lemma relay_all_app (a b : list string) (route_sent : bool) :
  Bridge.relay_all (a ++ b) route_sent
  = Bridge.relay_all a route_sent
    ++ Bridge.relay_all b (Bridge.flag_after a route_sent).
Proof.
  revert route_sent. induction a as [|x a IH]; intros rs; [reflexivity |].
  simpl. destruct (Bridge.relay x rs) as [out rs']. simpl.
  now rewrite IH, <- app_assoc.
Qed.

Lemma flag_after_app (a b : list string) (route_sent : bool) :
  Bridge.flag_after (a ++ b) route_sent
  = Bridge.flag_after b (Bridge.flag_after a route_sent).
Proof.
  revert route_sent. induction a as [|x a IH]; intros rs; [reflexivity |].
  simpl. apply IH.
Qed.

Lemma filter_relayed_id (l : list Bridge.Sent) :
  Forall (fun s => Bridge.from_queue s = true /\ Bridge.is_outcome (Bridge.wire s) = false) l ->
  List.filter Bridge.from_queue l = l.
Proof.
  induction 1 as [|s l [Hs _] _ IH]; [reflexivity |].
  simpl. now rewrite Hs, IH.
Qed.

Lemma drain_inv (budget : nat) (lines : list string) (l : Bridge.Loop) :
  bridge_inv lines l -> bridge_inv lines (Bridge.drain budget l).
Proof.
  revert l. induction budget as [|budget IH]; intros l H; [exact H |].
  simpl. destruct l as [queue sent0 rs taken0].
  destruct queue as [|message rest]; [exact H |].
  cbn [Bridge.step_queue Bridge.route_sent Bridge.sent Bridge.taken].
  pose proof (relay_sends message rs) as Hout.
  destruct (Bridge.relay message rs) as [out rs'] eqn:E. simpl in Hout.
  apply IH. destruct H as (done & Hl & Hlen & Hsent & Hrs & Hno).
  cbn [Bridge.step_queue Bridge.route_sent Bridge.sent Bridge.taken] in *.
  exists (done ++ [message]).
  cbn [Bridge.step_queue Bridge.route_sent Bridge.sent Bridge.taken].
  repeat split.
  - now rewrite <- app_assoc.
  - rewrite length_app. simpl. lia.
  - rewrite List.filter_app, Hsent, relay_all_app, <- Hrs.
    simpl. rewrite E, app_nil_r. f_equal. now apply filter_relayed_id.
  - rewrite flag_after_app, <- Hrs. simpl. now rewrite E.
  - apply Forall_app. split; [exact Hno |].
    eapply List.Forall_impl; [| exact Hout]. now intros s [_ Hs].
Qed.

Lemma on_event_inv (lines : list string) (l : Bridge.Loop) (e : Bridge.Event) :
  bridge_inv lines l ->
  bridge_inv (lines ++ Bridge.printed [e]) (Bridge.on_event l e).
Proof.
  intros H. destruct e as [line | heartbeat_due]; simpl.
  - destruct H as (done & Hl & Hlen & Hsent & Hrs & Hno).
    exists done. cbn [Bridge.step_queue Bridge.route_sent Bridge.sent Bridge.taken].
    repeat split; try assumption. rewrite Hl. now rewrite <- app_assoc.
  - rewrite app_nil_r. apply (drain_inv 5) in H.
    destruct heartbeat_due; [| exact H].
    destruct H as (done & Hl & Hlen & Hsent & Hrs & Hno).
    exists done. cbn [Bridge.step_queue Bridge.route_sent Bridge.sent Bridge.taken].
    repeat split; try assumption.
    + rewrite List.filter_app. simpl. now rewrite app_nil_r.
    + apply Forall_app. split; [exact Hno |]. now repeat constructor.
Qed.

Lemma monitor_from_inv (events : list Bridge.Event) (lines : list string)
    (l : Bridge.Loop) :
  bridge_inv lines l ->
  bridge_inv (lines ++ Bridge.printed events) (fold_left Bridge.on_event events l).
Proof.
  revert lines l. induction events as [|e events IH]; intros lines l H.
  - simpl. now rewrite app_nil_r.
  - simpl fold_left.
    replace (lines ++ Bridge.printed (e :: events))
      with ((lines ++ Bridge.printed [e]) ++ Bridge.printed events).
    + apply IH. now apply on_event_inv.
    + unfold Bridge.printed. simpl. now rewrite app_nil_r, <- app_assoc.
Qed.

Lemma monitor_inv (events : list Bridge.Event) :
  bridge_inv (Bridge.printed events) (Bridge.monitor events).
Proof.
  apply (monitor_from_inv events [] Bridge.start).
  exists []. repeat split. constructor.
Qed.




(** C4.  The claim fails on the code: the bridge reads [step_queue] only
    while the worker thread is alive, five lines a round, and does not
    read it once more after the thread has ended.  Here the engine serves
    "What is REST?" on the Answer route between two polls of the bridge;
    the lines are the ones [process_request] and [route_prompt] print for
    that run.  One round takes the first five; the line carrying the route
    decision, the seventh, is still on the queue when the thread is found
    dead.  The relay would have made a route_decision message of it; the
    client gets none from the relay, and the outcome message is sent all
    the same. *)
Theorem bridge_loses_unpolled_step :
  let lines :=
    [ "⚡ ACTION: Processing request: 'What is REST?...'";
      "================================================================================";
      "⚡ ACTION: Starting graph execution with real-time streaming...";
      "------------------------------------------------------------";
      "✅ RESULT: Routing completed - Direction: ANSWER";
      "⚡ ACTION: Executing node: route_prompt";
      "   📋 Route decision: answer";
      "✅ RESULT: Node route_prompt completed";
      "";
      "⚡ ACTION: Executing node: answer_with_llm";
      "   📋 Direct answer generation completed";
      "✅ RESULT: Node answer_with_llm completed";
      "";
      "------------------------------------------------------------";
      "✅ RESULT: Graph execution completed!";
      "================================================================================";
      "✅ RESULT: Request processed successfully via 'answer' route" ] in
  let events := List.map Bridge.Printed lines ++ [Bridge.Round false] in
  let worker :=
    Returned (success_result
                (set_final_result "REST is an architectural style."
                   (set_route (Some ANSWER) (create_agent_state "What is REST?")))) in
  Bridge.printed events = lines /\
  Bridge.relay_all lines false
    = [ {| Bridge.site := Bridge.relayed;
           Bridge.wire := {| Bridge.msg_type := "route_decision";
                             Bridge.msg_data := Bridge.Text "answer" |} |} ] /\
  Bridge.taken (Bridge.monitor events) = 5 /\
  Bridge.step_queue (Bridge.monitor events) = List.skipn 5 lines /\
  List.filter Bridge.from_queue (Bridge.serve_request events worker) = [] /\
  ~ every_step_delivered events worker /\
  List.map Bridge.wire (Bridge.serve_request events worker) =
    [ {| Bridge.msg_type := "processing_update";
         Bridge.msg_data := Bridge.Text "Starting to process your request..." |};
      {| Bridge.msg_type := "processing_step";
         Bridge.msg_data := Bridge.Text "Processing completed!" |};
      {| Bridge.msg_type := "route_decision";
         Bridge.msg_data := Bridge.Field "route" "answer" |};
      {| Bridge.msg_type := "route_decision";
         Bridge.msg_data := Bridge.Field "route" "answer" |};
      {| Bridge.msg_type := "final_result";
         Bridge.msg_data := Bridge.Field "result" "REST is an architectural style." |} ].
Proof.
  cbv zeta. unfold every_step_delivered.
  repeat split; try (vm_compute; reflexivity).
  vm_compute. discriminate.
Qed.

(* ===================================================================== *)
(** ** The specification's scenarios                                      *)
(* ===================================================================== *)

(** A question the classifier sends to Answer: one further gateway call,
    a non-empty result, no error. *)
Example scenario_direct_answer :
  let w := {| TESTING_MODE := false;
              completions := fun n =>
                match n with
                | 0 => "ANSWER"
                | _ => "REST exposes resources; GraphQL exposes a typed query graph."
                end;
              typed_lines := fun _ => "" |} in
  exists d,
    fst (agent_process_request w []
           "What is the difference between REST and GraphQL?") = Returned d /\
    res_route_taken d = "answer" /\
    res_final_result d
      = "REST exposes resources; GraphQL exposes a typed query graph." /\
    res_error_message d = Some "".
Proof. cbv zeta. eexists. split; [vm_compute; reflexivity |]. repeat split. Qed.

(** A vague request resolved after one question: one clarification round,
    and the clarification node leaves "inventory web app" in
    [refined_prompt] before refinement takes over. *)
Example scenario_one_clarification_round :
  let w := {| TESTING_MODE := true;
              completions := fun n =>
                match n with
                | 0 => "CLARIFY"
                | 1 => "QUESTION: what kind of project?"
                | 2 => "CLARIFIED: inventory web app"
                | _ => "Build an inventory web application."
                end;
              typed_lines := fun _ => "" |} in
  let chunks := run_chunks w (initial_state_of [] "I want to build something") in
  List.map fst chunks
    = [route_prompt_node; clarify_loop_node; refine_prompt_node;
       run_claude_code_node] /\
  match nth_error chunks 1 with
  | Some (_, state) =>
      clarified state = true /\
      clarification_questions state = ["what kind of project?"] /\
      refined_prompt state = "inventory web app" /\
      route state = Some CLARIFY
  | None => False
  end.
Proof. cbv zeta. vm_compute. repeat split. Qed.

(** An unrecognised classification: the route defaults to Clarify and the
    fallback note is in the step log. *)
Example scenario_unrecognised_classification :
  let w := {| TESTING_MODE := true;
              completions := fun _ => "I cannot tell.";
              typed_lines := fun _ => "" |} in
  let state := fst (route_prompt w (create_agent_state "hm")
                                 {| llm_calls := 0; lines_read := 0 |}) in
  route state = Some CLARIFY /\
  In "Routing fallback - defaulting to CLARIFY" (processing_steps state).
Proof. cbv zeta. vm_compute. split; [reflexivity | right; right; left; reflexivity]. Qed.

(* ===================================================================== *)
(** ** More of the engine: shape, cost and logs of a run                  *)
(* ===================================================================== *)

(** Every node appends at least one entry to [processing_steps] and none
    takes an entry out of [conversation_history]; the clarification node
    adds at most a question and an answer. *)
Lemma clarify_loop_logs (w : World) (state : AgentState) (c : Cursor) :
  (exists added, added <> [] /\
     processing_steps (fst (clarify_loop w state c)) = processing_steps state ++ added) /\
  (exists turns, List.length turns <= 2 /\
     conversation_history (fst (clarify_loop w state c))
       = conversation_history state ++ turns).
Proof.
  destruct (startswith "CLARIFIED:" (completions w (llm_calls c))) eqn:E1.
  { rewrite clarify_loop_resolved by exact E1.
    unfold analysed, add_step. simpl. split.
    - eexists. split; [| rewrite <- !app_assoc; reflexivity]. discriminate.
    - exists []. split; [simpl; lia | now rewrite app_nil_r]. }
  destruct (startswith "QUESTION:" (completions w (llm_calls c))) eqn:E2.
  2: { rewrite clarify_loop_unmarked by assumption.
       unfold analysed, add_step. simpl. split.
       - eexists. split; [| rewrite <- !app_assoc; reflexivity]. discriminate.
       - exists []. split; [simpl; lia | now rewrite app_nil_r]. }
  rewrite clarify_loop_question by assumption. cbv zeta.
  set (u := user_response_at w (next_call c)).
  set (c1 := cursor_after_response w (next_call c)).
  destruct (truthy u).
  2: { unfold asked, analysed, add_step, add_conversation. simpl. split.
       - eexists. split; [| rewrite <- !app_assoc; reflexivity]. discriminate.
       - eexists [_]. split; [simpl; lia | reflexivity]. }
  destruct (startswith "CLARIFIED:" (completions w (llm_calls c1))).
  { unfold answered, asked, analysed, add_step, add_conversation. simpl. split.
    - eexists. split; [| rewrite <- !app_assoc; reflexivity]. discriminate.
    - eexists [_; _]. split; [simpl; lia | now rewrite <- app_assoc]. }
  destruct (2 <=? _)%nat.
  { unfold answered, asked, analysed, add_step, add_conversation. simpl. split.
    - eexists. split; [| rewrite <- !app_assoc; reflexivity]. discriminate.
    - eexists [_; _]. split; [simpl; lia | now rewrite <- app_assoc]. }
  unfold answered, asked, analysed, add_step, add_conversation. simpl. split.
  - eexists. split; [| rewrite <- !app_assoc; reflexivity]. discriminate.
  - eexists [_; _]. split; [simpl; lia | now rewrite <- app_assoc].
Qed.

Lemma run_node_logs (w : World) (n : Node) (state : AgentState) (c : Cursor) :
  (exists added, added <> [] /\
     processing_steps (fst (run_node w n state c)) = processing_steps state ++ added) /\
  (exists turns,
     conversation_history (fst (run_node w n state c))
       = conversation_history state ++ turns).
Proof.
  destruct n; simpl run_node.
  - rewrite route_prompt_eq. cbv zeta. destruct (snd (classify _));
      unfold add_step; simpl; split.
    + eexists. split; [| rewrite <- !app_assoc; reflexivity]. discriminate.
    + exists []. now rewrite app_nil_r.
    + eexists. split; [| rewrite <- !app_assoc; reflexivity]. discriminate.
    + exists []. now rewrite app_nil_r.
  - destruct (clarify_loop_logs w state c) as [Hs (turns & _ & Ht)].
    split; [exact Hs | eauto].
  - unfold refine_prompt, add_step. unfold_io. simpl. split.
    + eexists. split; [| rewrite <- !app_assoc; reflexivity]. discriminate.
    + exists []. now rewrite app_nil_r.
  - unfold run_claude_code, add_step, io_ret. simpl. split.
    + eexists. split; [| rewrite <- !app_assoc; reflexivity]. discriminate.
    + exists []. now rewrite app_nil_r.
  - unfold answer_with_llm, add_step. unfold_io. simpl. split.
    + eexists. split; [| rewrite <- !app_assoc; reflexivity]. discriminate.
    + exists []. now rewrite app_nil_r.
Qed.

(** The step log is append-only: along any run of the graph, from any
    node and any state, each node leaves [processing_steps] equal to what
    it found with at least one entry appended, and
    [conversation_history] equal to what it found with zero or more turns
    appended. *)
Theorem processing_steps_append_only
    (w : World) (fuel : nat) (n : Node) (state : AgentState) (c : Cursor)
    (chunks : list (Node * AgentState)) :
  graph_steps w fuel n state c = Returned chunks ->
  strictly_grows (processing_steps state)
    (List.map (fun p => processing_steps (snd p)) chunks) /\
  grows (conversation_history state)
    (List.map (fun p => conversation_history (snd p)) chunks).
Proof.
  revert n state c chunks. induction fuel as [|fuel IH]; intros n state c chunks H.
  - discriminate H.
  - rewrite graph_steps_S in H.
    destruct (run_node_logs w n state c) as [Hs Ht].
    destruct (next_node n (fst (run_node w n state c))) as [n' |].
    + destruct (graph_steps w fuel n' _ _) as [rest | e] eqn:E; [| discriminate H].
      simpl in H. injection H as <-. apply IH in E as [E1 E2].
      simpl. auto.
    + injection H as <-. simpl. auto.
Qed.

Lemma processing_steps_append_only_witness :
  let w := {| TESTING_MODE := true;
              completions := fun n => match n with 0 => "CODE" | _ => "Build it." end;
              typed_lines := fun _ => "" |} in
  let state := initial_state_of [] "Build a scraper" in
  strictly_grows (processing_steps state)
    (List.map (fun p => processing_steps (snd p)) (run_chunks w state)) /\
  grows (conversation_history state)
    (List.map (fun p => conversation_history (snd p)) (run_chunks w state)).
Proof.
  cbv zeta.
  apply (processing_steps_append_only
           {| TESTING_MODE := true;
              completions := fun n => match n with 0 => "CODE" | _ => "Build it." end;
              typed_lines := fun _ => "" |}
           recursion_limit route_prompt_node
           (initial_state_of [] "Build a scraper")
           {| llm_calls := 0; lines_read := 0 |}).
  vm_compute. reflexivity.
Defined.

(** The routing step as the first chunk of a run. *)
Lemma route_prompt_frame (w : World) (state : AgentState) (c : Cursor) :
  let state1 := fst (route_prompt w state c) in
  clarified state1 = clarified state /\
  clarification_questions state1 = clarification_questions state /\
  conversation_history state1 = conversation_history state /\
  route state1 = Some (fst (classify (upper (strip (completions w (llm_calls c)))))) /\
  snd (route_prompt w state c) = next_call c.
Proof.
  cbv zeta. rewrite route_prompt_eq. cbv zeta.
  destruct (snd (classify _)); repeat split.
Qed.

(** What one execution of [clarify_loop] costs: one or two gateway calls
    and at most one read from the user, none in testing mode. *)
Lemma clarify_loop_cost (w : World) (state : AgentState) (c : Cursor) :
  let c' := snd (clarify_loop w state c) in
  S (llm_calls c) <= llm_calls c' <= S (S (llm_calls c)) /\
  lines_read c <= lines_read c' <= S (lines_read c) /\
  (TESTING_MODE w = true -> lines_read c' = lines_read c).
Proof.
  cbv zeta.
  destruct (startswith "CLARIFIED:" (completions w (llm_calls c))) eqn:E1.
  { rewrite clarify_loop_resolved by exact E1. simpl. repeat split; lia. }
  destruct (startswith "QUESTION:" (completions w (llm_calls c))) eqn:E2.
  2: { rewrite clarify_loop_unmarked by assumption. simpl. repeat split; lia. }
  rewrite clarify_loop_question by assumption. cbv zeta.
  set (u := user_response_at w (next_call c)).
  set (c1 := cursor_after_response w (next_call c)).
  assert (Hc1 : llm_calls c1 = S (llm_calls c) /\
                lines_read c <= lines_read c1 <= S (lines_read c) /\
                (TESTING_MODE w = true -> lines_read c1 = lines_read c)).
  { unfold c1, cursor_after_response. destruct (TESTING_MODE w); simpl;
      repeat split; try lia; discriminate. }
  destruct Hc1 as (H1 & H2 & H3).
  destruct (truthy u); [| simpl; repeat split; try lia; exact H3].
  destruct (startswith "CLARIFIED:" (completions w (llm_calls c1)));
    [simpl; repeat split; try lia; exact H3 |].
  destruct (2 <=? _)%nat; simpl; repeat split; try lia; exact H3.
Qed.

(** The conversation history through the named parts of a run. *)
Lemma refine_and_run_history (w : World) (state0 state : AgentState) (c : Cursor) :
  conversation_history (final_state_of state0 (refine_and_run w state c))
  = conversation_history state.
Proof.
  unfold refine_and_run, refine_prompt. unfold_io. unfold final_state_of. reflexivity.
Qed.

Lemma last_Forall {A : Type} (P : A -> Prop) (l : list A) (d : A) :
  l <> [] -> Forall P l -> P (List.last l d).
Proof.
  intros Hne H. induction H as [|x l Hx H IH]; [contradiction |].
  destruct l as [|y l]; [exact Hx |].
  change (List.last (x :: y :: l) d) with (List.last (y :: l) d).
  apply IH. discriminate.
Qed.

(* ===================================================================== *)
(** ** Runs that [input()] can interrupt                                  *)
(* ===================================================================== *)

(** [Raising.clarify_loop] against [clarify_loop]: the two agree unless
    the node calls [input()] and the call raises; the exception then
    leaves the node with the question recorded and nothing else done. *)
Lemma raising_clarify_loop_eq (w : World) (keyboard : Raising.Keyboard)
    (state : AgentState) (c : Cursor) :
  Raising.clarify_loop w keyboard state c =
    if reaches_input w c then
      match keyboard (lines_read c) with
      | Some e =>
          (Raising.Failed e (asked state (completions w (llm_calls c))),
           {| llm_calls := S (llm_calls c); lines_read := S (lines_read c) |})
      | None => (Raising.Done (fst (clarify_loop w state c)), snd (clarify_loop w state c))
      end
    else (Raising.Done (fst (clarify_loop w state c)), snd (clarify_loop w state c)).
Proof.
  unfold reaches_input, Raising.clarify_loop, clarify_loop, Raising.input.
  unfold_io. cbn [llm_calls lines_read].
  destruct (startswith "CLARIFIED:" (completions w (llm_calls c))) eqn:E1.
  { rewrite andb_false_r. reflexivity. }
  destruct (startswith "QUESTION:" (completions w (llm_calls c))) eqn:E2.
  2: { rewrite andb_false_r. reflexivity. }
  destruct (TESTING_MODE w); simpl.
  - change (truthy simulated_response) with true. cbv iota beta.
    destruct (startswith "CLARIFIED:" (completions w (S (llm_calls c))));
      [reflexivity |].
    match goal with |- context [(2 <=? ?n)%nat] => destruct (2 <=? n)%nat end;
      reflexivity.
  - destruct (keyboard (lines_read c)) as [e |]; [reflexivity |].
    destruct (truthy (strip (typed_lines w (lines_read c)))); simpl; [| reflexivity].
    destruct (startswith "CLARIFIED:" (completions w (S (llm_calls c))));
      [reflexivity |].
    match goal with |- context [(2 <=? ?n)%nat] => destruct (2 <=? n)%nat end;
      reflexivity.
Qed.

Lemma raising_graph_steps_S (w : World) (keyboard : Raising.Keyboard) (fuel : nat)
    (n : Node) (state : AgentState) (c : Cursor) :
  Raising.graph_steps w keyboard (S fuel) n state c =
    match Raising.run_node w keyboard n state c with
    | (Raising.Failed e dirty, c') => (Raising.Aborted [] n e dirty, c')
    | (Raising.Done state', c') =>
        match next_node n state' with
        | None => (Raising.Ended [(n, state')], c')
        | Some n' =>
            (Raising.with_chunk (n, state')
               (fst (Raising.graph_steps w keyboard fuel n' state' c')),
             snd (Raising.graph_steps w keyboard fuel n' state' c'))
        end
    end.
Proof.
  simpl. destruct (Raising.run_node w keyboard n state c) as [[state' | e dirty] c'];
    [| reflexivity].
  destruct (next_node n state'); [| reflexivity].
  now destruct (Raising.graph_steps w keyboard fuel n0 state' c').
Qed.

#[local] Arguments Raising.graph_steps : simpl never.

Lemma raising_graph_refine (w : World) (keyboard : Raising.Keyboard) (fuel : nat)
    (state : AgentState) (c : Cursor) :
  Raising.graph_steps w keyboard (S (S fuel)) refine_prompt_node state c
  = (Raising.Ended (refine_and_run w state c), next_call c).
Proof.
  rewrite !raising_graph_steps_S. unfold refine_and_run, refine_prompt.
  unfold_io. reflexivity.
Qed.

(** A state that holds a question is resolved by the next execution of
    [clarify_loop] that returns. *)
Lemma clarify_loop_second_round (w : World) (state : AgentState) (c : Cursor) :
  clarification_questions state <> [] ->
  clarified (fst (clarify_loop w state c)) = true.
Proof.
  intros Hq. pose proof (clarify_loop_effect w state c) as (_ & _ & _ & H).
  cbv zeta in H. destruct H as [[H _] | (_ & _ & H)]; [exact H |].
  destruct (clarification_questions state); [congruence | simpl in H; lia].
Qed.

Lemma clarify_loop_first_round (w : World) (state : AgentState) (c : Cursor) :
  clarified (fst (clarify_loop w state c)) = false ->
  clarification_questions state = [] /\
  List.length (clarification_questions (fst (clarify_loop w state c))) = 1.
Proof.
  intros Hc. pose proof (clarify_loop_effect w state c) as (_ & _ & _ & H).
  cbv zeta in H. destruct H as [[H _] | (_ & H1 & H2)]; [congruence |].
  destruct (clarification_questions state); [| simpl in H2; lia].
  split; [reflexivity | exact H1].
Qed.

Lemma raising_clarify_loop_done (w : World) (keyboard : Raising.Keyboard)
    (state state' : AgentState) (c c' : Cursor) :
  Raising.clarify_loop w keyboard state c = (Raising.Done state', c') ->
  state' = fst (clarify_loop w state c) /\ c' = snd (clarify_loop w state c).
Proof.
  rewrite raising_clarify_loop_eq.
  destruct (reaches_input w c); [destruct (keyboard (lines_read c)) |];
    intros H; try discriminate H; injection H as <- <-; split; reflexivity.
Qed.

Lemma raising_clarify_loop_failed (w : World) (keyboard : Raising.Keyboard)
    (state dirty : AgentState) (e : PyExn) (c c' : Cursor) :
  Raising.clarify_loop w keyboard state c = (Raising.Failed e dirty, c') ->
  TESTING_MODE w = false /\
  keyboard (lines_read c) = Some e /\
  dirty = asked state (completions w (llm_calls c)) /\
  c' = {| llm_calls := S (llm_calls c); lines_read := S (lines_read c) |}.
Proof.
  rewrite raising_clarify_loop_eq. unfold reaches_input.
  destruct (TESTING_MODE w); simpl; [discriminate |].
  destruct (negb _ && _); [| discriminate].
  destruct (keyboard (lines_read c)); [| discriminate].
  intros H. injection H as <- <- <-. repeat split.
Qed.

Lemma raising_graph_clarify (w : World) (keyboard : Raising.Keyboard) (fuel : nat)
    (state : AgentState) (c : Cursor) :
  Raising.graph_steps w keyboard (S (S (S (S fuel)))) clarify_loop_node state c
  = clarify_and_run_or_abort w keyboard state c.
Proof.
  rewrite raising_graph_steps_S. unfold clarify_and_run_or_abort.
  cbn [Raising.run_node].
  destruct (Raising.clarify_loop w keyboard state c) as [[state1 | e dirty] c1] eqn:E1;
    [| reflexivity].
  apply raising_clarify_loop_done in E1 as [Es1 Ec1].
  cbn [next_node]. destruct (clarified state1) eqn:Hc1.
  { rewrite raising_graph_refine. reflexivity. }
  rewrite raising_graph_steps_S. cbn [Raising.run_node].
  destruct (Raising.clarify_loop w keyboard state1 c1) as [[state2 | e dirty] c2] eqn:E2;
    [| reflexivity].
  apply raising_clarify_loop_done in E2 as [Es2 Ec2].
  assert (Hc2 : clarified state2 = true).
  { rewrite Es2. apply clarify_loop_second_round.
    rewrite Es1 in Hc1. apply clarify_loop_first_round in Hc1 as [_ Hlen].
    rewrite Es1. intros Hq. rewrite Hq in Hlen. discriminate Hlen. }
  cbn [next_node]. rewrite Hc2, raising_graph_refine. reflexivity.
Qed.

Lemma raising_graph_run (w : World) (keyboard : Raising.Keyboard)
    (state : AgentState) (c : Cursor) :
  Raising.graph_steps w keyboard recursion_limit route_prompt_node state c
  = run_or_abort w keyboard state c.
Proof.
  unfold recursion_limit, run_or_abort. rewrite raising_graph_steps_S.
  cbn [Raising.run_node].
  pose proof (route_prompt_frame w state c) as (_ & _ & _ & Hr & Hn).
  cbv zeta in Hr. destruct (route_prompt w state c) as [state1 c1].
  cbn [fst snd] in Hr, Hn. subst c1. cbn [next_node]. rewrite Hr.
  destruct (fst (classify _)).
  - rewrite raising_graph_clarify.
    now destruct (clarify_and_run_or_abort w keyboard state1 (next_call c)).
  - rewrite raising_graph_refine. reflexivity.
  - rewrite raising_graph_steps_S. cbn [Raising.run_node next_node].
    unfold answer_with_llm. unfold_io. reflexivity.
Qed.

(** What the exception leaves behind: the question, recorded. *)
Lemma asked_facts (state : AgentState) (response : string) :
  List.length (clarification_questions (asked state response))
    = S (List.length (clarification_questions state)) /\
  conversation_history (asked state response)
    = conversation_history state
      ++ [{| role := "assistant"; message := strip (drop 9 response) |}] /\
  route (asked state response) = route state.
Proof.
  unfold asked, analysed, add_step, add_conversation. simpl.
  rewrite List.length_app. simpl. repeat split. lia.
Qed.

Lemma rounds_allowed_cases (state : AgentState) :
  (clarification_questions state = [] /\ rounds_allowed state = 2)
  \/ (clarification_questions state <> [] /\ rounds_allowed state = 1).
Proof.
  unfold rounds_allowed. destruct (clarification_questions state);
    [left | right]; split; congruence.
Qed.

(** Everything the later statements need about the clarification part of
    a run, from any state: [r] is the number of executions of
    [clarify_loop] the state allows. *)
Lemma clarify_attempt_facts (w : World) (keyboard : Raising.Keyboard)
    (state : AgentState) (c : Cursor) :
  let L := List.length (clarification_questions state) in
  let r := rounds_allowed state in
  match clarify_and_run_or_abort w keyboard state c with
  | (Raising.Ended chunks, c') =>
      (List.map fst chunks = [clarify_loop_node; refine_prompt_node; run_claude_code_node]
       \/ (r = 2 /\
           List.map fst chunks
           = [clarify_loop_node; clarify_loop_node; refine_prompt_node;
              run_claude_code_node])) /\
      Forall (fun p : Node * AgentState =>
                List.length (clarification_questions (snd p)) <= L + r /\
                route (snd p) = route state) chunks /\
      (exists turns,
          conversation_history (final_state_of state chunks)
          = conversation_history state ++ turns /\
          List.length turns <= 2 * r) /\
      S (S (llm_calls c)) <= llm_calls c' <= llm_calls c + 2 * r + 1 /\
      lines_read c <= lines_read c' <= lines_read c + r /\
      (TESTING_MODE w = true -> lines_read c' = lines_read c)
  | (Raising.Aborted chunks n e dirty, c') =>
      n = clarify_loop_node /\
      (chunks = [] \/ (r = 2 /\ List.map fst chunks = [clarify_loop_node])) /\
      TESTING_MODE w = false /\
      (exists i, keyboard i = Some e) /\
      Forall (fun p : Node * AgentState =>
                List.length (clarification_questions (snd p)) <= L + r /\
                route (snd p) = route state) chunks /\
      1 <= List.length (clarification_questions dirty) <= L + r /\
      (exists turns,
          conversation_history dirty = conversation_history state ++ turns /\
          List.length turns <= 2 * r - 1) /\
      S (llm_calls c) <= llm_calls c' <= llm_calls c + 2 * r - 1 /\
      S (lines_read c) <= lines_read c' <= lines_read c + r
  end.
Proof.
  cbv zeta. unfold clarify_and_run_or_abort.
  assert (Hr : 1 <= rounds_allowed state <= 2)
    by (destruct (rounds_allowed_cases state) as [[_ ->] | [_ ->]]; lia).
  destruct (Raising.clarify_loop w keyboard state c) as [[state1 | e dirty] c1] eqn:E1.
  2: { apply raising_clarify_loop_failed in E1 as (Ht & Hk & -> & ->).
       destruct (asked_facts state (completions w (llm_calls c))) as (Hq & Hh & _).
       split; [reflexivity |]. split; [now left |]. split; [exact Ht |].
       split; [eauto |]. split; [constructor |]. split; [lia |].
       split; [eexists; split; [exact Hh | simpl; lia] |].
       simpl. lia. }
  apply raising_clarify_loop_done in E1 as [Es1 Ec1].
  pose proof (clarify_loop_effect w state c) as (_ & _ & Hroute1 & Heff1).
  pose proof (clarify_loop_cost w state c) as (Hcalls1 & Hreads1 & Htest1).
  destruct (clarify_loop_logs w state c) as (_ & t1 & Hlen1 & Hhist1).
  cbv zeta in *. rewrite <- Es1, <- ?Ec1 in *.
  assert (Hq1 : List.length (clarification_questions state1)
                <= S (List.length (clarification_questions state)))
    by (destruct Heff1 as [[_ H] | (_ & H & _)]; lia).
  pose proof (refine_and_run_frame w state1 c1) as Hframe1.
  destruct (clarified state1) eqn:Hc1.
  { split; [left; unfold refine_and_run; now destruct (refine_prompt w state1 c1) |].
    split.
    { constructor; [cbn [snd]; split; [lia | exact Hroute1] |].
      eapply List.Forall_impl; [| exact Hframe1].
      intros p (Hp & _ & Hp'). rewrite Hp, Hp'. split; [lia | exact Hroute1]. }
    split.
    { exists t1. rewrite final_state_of_cons, refine_and_run_history.
      split; [exact Hhist1 | lia]. }
    simpl. repeat split; try lia. exact Htest1. }
  assert (Hfirst : clarification_questions state = [] /\
                   List.length (clarification_questions state1) = 1).
  { rewrite Es1. apply clarify_loop_first_round. now rewrite <- Es1. }
  destruct Hfirst as [HL0 HL1].
  assert (Hr2 : rounds_allowed state = 2) by (unfold rounds_allowed; now rewrite HL0).
  rewrite HL0 in *. cbn [List.length] in *. rewrite Hr2 in *.
  destruct (Raising.clarify_loop w keyboard state1 c1) as [[state2 | e dirty] c2] eqn:E2.
  2: { apply raising_clarify_loop_failed in E2 as (Ht & Hk & -> & ->).
       destruct (asked_facts state1 (completions w (llm_calls c1))) as (Hq & Hh & _).
       split; [reflexivity |]. split; [right; split; reflexivity |].
       split; [exact Ht |]. split; [eauto |].
       split; [constructor; [cbn [snd]; split; [lia | exact Hroute1] | constructor] |].
       split; [lia |].
       split.
       { exists (t1 ++ [{| role := "assistant";
                           message := strip (drop 9 (completions w (llm_calls c1))) |}]).
         rewrite Hh, Hhist1, <- app_assoc. split; [reflexivity |].
         rewrite List.length_app. simpl. lia. }
       simpl. lia. }
  apply raising_clarify_loop_done in E2 as [Es2 Ec2].
  pose proof (clarify_loop_effect w state1 c1) as (_ & _ & Hroute2 & Heff2).
  pose proof (clarify_loop_cost w state1 c1) as (Hcalls2 & Hreads2 & Htest2).
  destruct (clarify_loop_logs w state1 c1) as (_ & t2 & Hlen2 & Hhist2).
  cbv zeta in *. rewrite <- Es2, <- ?Ec2 in *.
  assert (Hq2 : List.length (clarification_questions state2) <= 2)
    by (destruct Heff2 as [[_ H] | (_ & H & _)]; lia).
  pose proof (refine_and_run_frame w state2 c2) as Hframe2.
  split; [right; split; [reflexivity |];
          unfold refine_and_run; now destruct (refine_prompt w state2 c2) |].
  split.
  { constructor; [cbn [snd]; split; [lia | exact Hroute1] |].
    constructor; [cbn [snd]; split; [lia | congruence] |].
    eapply List.Forall_impl; [| exact Hframe2].
    intros p (Hp & _ & Hp'). rewrite Hp, Hp'. split; [lia | congruence]. }
  split.
  { exists (t1 ++ t2). rewrite !final_state_of_cons, refine_and_run_history.
    rewrite Hhist2, Hhist1, <- app_assoc. split; [reflexivity |].
    rewrite List.length_app. lia. }
  simpl. repeat split; try lia.
  intros Ht. rewrite (Htest2 Ht), (Htest1 Ht). reflexivity.
Qed.

(** The same for a whole run, routing included.  [R] is the route the
    first reply of the run is classified as. *)
Lemma attempt_facts (w : World) (keyboard : Raising.Keyboard)
    (state : AgentState) (c : Cursor) :
  let L := List.length (clarification_questions state) in
  let r := rounds_allowed state in
  let R := fst (classify (upper (strip (completions w (llm_calls c))))) in
  match run_or_abort w keyboard state c with
  | (Raising.Ended chunks, c') =>
      In (List.map fst chunks) complete_runs /\
      (r = 1 -> List.length chunks <= 4) /\
      chunks <> [] /\
      Forall (fun p : Node * AgentState =>
                List.length (clarification_questions (snd p)) <= L + r /\
                route (snd p) = Some R) chunks /\
      (exists turns,
          conversation_history (final_state_of state chunks)
          = conversation_history state ++ turns /\
          List.length turns <= 2 * r /\
          (R <> CLARIFY -> turns = [])) /\
      S (S (llm_calls c)) <= llm_calls c' <= llm_calls c + 2 * r + 2 /\
      lines_read c <= lines_read c' <= lines_read c + r /\
      (TESTING_MODE w = true -> lines_read c' = lines_read c) /\
      (R <> CLARIFY ->
       llm_calls c' = S (S (llm_calls c)) /\ lines_read c' = lines_read c)
  | (Raising.Aborted chunks n e dirty, c') =>
      n = clarify_loop_node /\
      In (List.map fst chunks ++ [n]) interrupted_runs /\
      (r = 1 -> List.length chunks = 1) /\
      TESTING_MODE w = false /\
      (exists i, keyboard i = Some e) /\
      Forall (fun p : Node * AgentState =>
                List.length (clarification_questions (snd p)) <= L + r /\
                route (snd p) = Some R) chunks /\
      1 <= List.length (clarification_questions dirty) <= L + r /\
      (exists turns,
          conversation_history dirty = conversation_history state ++ turns /\
          List.length turns <= 2 * r - 1) /\
      S (S (llm_calls c)) <= llm_calls c' <= llm_calls c + 2 * r /\
      S (lines_read c) <= lines_read c' <= lines_read c + r /\
      R = CLARIFY
  end.
Proof.
  cbv zeta. unfold run_or_abort.
  assert (Hr : 1 <= rounds_allowed state <= 2)
    by (destruct (rounds_allowed_cases state) as [[_ ->] | [_ ->]]; lia).
  pose proof (route_prompt_frame w state c) as (_ & Hq0 & Hh0 & Hroute & Hn).
  cbv zeta in *. destruct (route_prompt w state c) as [state1 c1].
  cbn [fst snd] in *. subst c1. rewrite Hroute.
  assert (Hra : rounds_allowed state1 = rounds_allowed state)
    by (unfold rounds_allowed; now rewrite Hq0).
  destruct (fst (classify (upper (strip (completions w (llm_calls c)))))) eqn:ER.
  - (* Clarify *)
    pose proof (clarify_attempt_facts w keyboard state1 (next_call c)) as H.
    cbv zeta in H. rewrite Hra, Hq0, Hh0, Hroute in H.
    destruct (clarify_and_run_or_abort w keyboard state1 (next_call c))
      as [[chunks | chunks n e dirty] c'].
    + destruct H as (Hshape & Hall & (turns & Hhist & Hlen) & Hcalls & Hreads & Htest).
      cbn [Raising.with_chunk].
      split.
      { rewrite List.map_cons. cbn [fst].
        destruct Hshape as [-> | [_ ->]]; simpl; auto. }
      split.
      { intros Hr1. destruct Hshape as [Hs | [Hs _]]; [| lia].
        apply (f_equal (@List.length Node)) in Hs. rewrite length_map in Hs.
        simpl in *. lia. }
      split; [discriminate |].
      split; [constructor; [cbn [snd]; split; [rewrite Hq0; lia | exact Hroute] | exact Hall] |].
      split.
      { exists turns. rewrite final_state_of_cons. cbn [snd].
        split; [exact Hhist |]. split; [exact Hlen | intros Hx; now exfalso]. }
      simpl in *. repeat split; try lia; try exact Htest; congruence.
    + destruct H as (-> & Hshape & Ht & Hk & Hall & Hq & Hhist & Hcalls & Hreads).
      cbn [Raising.with_chunk].
      split; [reflexivity |].
      split.
      { rewrite List.map_cons. cbn [fst].
        destruct Hshape as [-> | [_ ->]]; simpl; auto. }
      split.
      { intros Hr1. destruct Hshape as [-> | [Hs _]]; [reflexivity | lia]. }
      split; [exact Ht |]. split; [exact Hk |].
      split; [constructor; [cbn [snd]; split; [rewrite Hq0; lia | exact Hroute] | exact Hall] |].
      split; [exact Hq |]. split; [exact Hhist |].
      simpl in *. repeat split; lia.
  - (* Code *)
    pose proof (refine_and_run_frame w state1 (next_call c)) as Hframe.
    split.
    { rewrite List.map_cons. unfold refine_and_run.
      destruct (refine_prompt w state1 (next_call c)). simpl. auto. }
    split.
    { intros _. unfold refine_and_run.
      destruct (refine_prompt w state1 (next_call c)). simpl. lia. }
    split; [discriminate |].
    split.
    { constructor; [cbn [snd]; split; [rewrite Hq0; lia | exact Hroute] |].
      eapply List.Forall_impl; [| exact Hframe].
      intros p (Hp & _ & Hp'). rewrite Hp, Hp', Hq0. split; [lia | exact Hroute]. }
    split.
    { exists []. rewrite final_state_of_cons, refine_and_run_history, app_nil_r.
      split; [exact Hh0 |]. split; [simpl; lia | reflexivity]. }
    simpl. repeat split; lia.
  - (* Answer *)
    split; [simpl; auto |]. split; [intros _; simpl; lia |].
    split; [discriminate |].
    split.
    { constructor; [cbn [snd]; split; [rewrite Hq0; lia | exact Hroute] |].
      constructor; [| constructor]. unfold answer_with_llm. unfold_io.
      cbn [snd fst]. simpl. rewrite Hq0. split; [lia | exact Hroute]. }
    split.
    { exists []. unfold final_state_of, answer_with_llm. unfold_io. simpl.
      rewrite app_nil_r. split; [exact Hh0 |]. split; [lia | reflexivity]. }
    simpl. repeat split; lia.
Qed.

(** *** One request: the streamed run and the retry *)

Lemma left_behind_fields (initial_state dirty : AgentState) :
  clarification_questions (Raising.left_behind initial_state dirty)
    = clarification_questions dirty /\
  conversation_history (Raising.left_behind initial_state dirty)
    = conversation_history dirty /\
  rounds_allowed (Raising.left_behind initial_state dirty) = rounds_allowed dirty.
Proof. repeat split. Qed.

(** How [process_request] ends, by how its runs of the graph end. *)
Lemma raising_request_cases (w : World) (keyboard : Raising.Keyboard)
    (conversation_memory : list Turn) (request : string) :
  let s0 := initial_state_of conversation_memory request in
  let outcome := Raising.agent_process_request w keyboard conversation_memory request in
  match Raising.stream w keyboard s0 with
  | (Raising.Ended chunks, _) =>
      Raising.retried w keyboard s0 = false /\
      outcome = (Returned (success_result (final_state_of s0 chunks)),
                 conversation_history (final_state_of s0 chunks))
  | (Raising.Aborted _ _ e dirty, c) =>
      if is_Exception e then
        Raising.retried w keyboard s0 = true /\
        Raising.retry w keyboard s0
        = Raising.graph_steps w keyboard recursion_limit route_prompt_node
                              (Raising.left_behind s0 dirty) c /\
        match fst (Raising.retry w keyboard s0) with
        | Raising.Ended chunks =>
            outcome = (Returned (success_result (final_state_of s0 chunks)),
                       conversation_history (final_state_of s0 chunks))
        | Raising.Aborted _ _ e' _ =>
            outcome = if is_Exception e'
                      then (Returned (failure_result e'), conversation_memory)
                      else (Raised e', conversation_memory)
        end
      else
        Raising.retried w keyboard s0 = false /\
        outcome = (Raised e, conversation_memory)
  end.
Proof.
  cbv zeta. unfold Raising.agent_process_request, process_request, Raising.retried,
    Raising.retry.
  destruct (Raising.stream w keyboard (initial_state_of conversation_memory request))
    as [[chunks | chunks n e dirty] c] eqn:Es; cbn [fst Raising.chunks_of].
  - split; reflexivity.
  - unfold try_except_Exception, exc_bind. destruct (is_Exception e) eqn:He.
    + split; [reflexivity |]. split; [reflexivity |].
      destruct (Raising.graph_steps w keyboard recursion_limit route_prompt_node _ c)
        as [[chunks' | chunks' n' e' dirty'] c'];
        cbn [fst Raising.final_of Raising.chunks_of exc_bind].
      * reflexivity.
      * destruct (is_Exception e'); reflexivity.
    + rewrite He. split; reflexivity.
Qed.

Lemma initial_state_facts (conversation_memory : list Turn) (request : string) :
  clarification_questions (initial_state_of conversation_memory request) = [] /\
  rounds_allowed (initial_state_of conversation_memory request) = 2 /\
  conversation_history (initial_state_of conversation_memory request)
    = conversation_memory ++ [{| role := "user"; message := request |}].
Proof. repeat split. Qed.

Lemma rounds_allowed_asked (dirty : AgentState) :
  1 <= List.length (clarification_questions dirty) -> rounds_allowed dirty = 1.
Proof.
  unfold rounds_allowed. destruct (clarification_questions dirty); simpl; [lia | reflexivity].
Qed.

(** With a keyboard that never fails the run is the one of [graph_steps]. *)
Lemma raising_graph_steps_total (w : World) (keyboard : Raising.Keyboard) (fuel : nat) :
  (forall i, keyboard i = None) ->
  forall (n : Node) (state : AgentState) (c : Cursor) (chunks : list (Node * AgentState)),
    graph_steps w fuel n state c = Returned chunks ->
    fst (Raising.graph_steps w keyboard fuel n state c) = Raising.Ended chunks.
Proof.
  intros Hk. induction fuel as [|fuel IH]; intros n state c chunks H; [discriminate H |].
  rewrite graph_steps_S in H. rewrite raising_graph_steps_S.
  assert (Hnode : Raising.run_node w keyboard n state c
                  = (Raising.Done (fst (run_node w n state c)), snd (run_node w n state c))).
  { destruct n; cbn [Raising.run_node run_node].
    - now destruct (route_prompt w state c).
    - rewrite raising_clarify_loop_eq, Hk. now destruct (reaches_input w c).
    - now destruct (refine_prompt w state c).
    - reflexivity.
    - now destruct (answer_with_llm w state c). }
  rewrite Hnode.
  destruct (next_node n (fst (run_node w n state c))) as [n' |].
  - destruct (graph_steps w fuel n' _ _) as [rest | e] eqn:E; [| discriminate H].
    simpl in H. injection H as <-. cbn [fst]. now rewrite (IH _ _ _ _ E).
  - injection H as <-. reflexivity.
Qed.

(** A run of the graph, as [process_request] makes them: the routing node
    first, then one of four continuations to [END], unless [input()]
    raises inside [clarify_loop]; the run then stops there, in its first
    or its second execution of that node.  It never ends with a
    [GraphRecursionError].  One request makes one run, or two when the
    first is interrupted by an [Exception], and starts at most seven
    node executions in all.  When [input()] never raises, the one run is
    the run of [graph_stream]. *)
Theorem graph_run_shape (w : World) (keyboard : Raising.Keyboard)
    (conversation_memory : list Turn) (request : string) :
  let s0 := initial_state_of conversation_memory request in
  let runs := Raising.attempts w keyboard s0 in
  Forall (fun run =>
            match run with
            | Raising.Ended _ => In (Raising.executed run) complete_runs
            | Raising.Aborted _ failed_node e _ =>
                In (Raising.executed run) interrupted_runs /\
                failed_node = clarify_loop_node /\
                TESTING_MODE w = false /\
                exists i, keyboard i = Some e
            end) runs /\
  List.length runs <= 2 /\
  List.length (flat_map Raising.executed runs) <= 7 /\
  ((forall i, keyboard i = None) ->
   exists chunks, runs = [Raising.Ended chunks] /\ graph_stream w s0 = Returned chunks).
Proof.
  cbv zeta. unfold Raising.attempts.
  pose proof (raising_request_cases w keyboard conversation_memory request) as Hcases.
  cbv zeta in Hcases.
  pose proof (attempt_facts w keyboard (initial_state_of conversation_memory request)
                {| llm_calls := 0; lines_read := 0 |}) as H1.
  cbv zeta in H1. rewrite <- raising_graph_run in H1.
  fold (Raising.stream w keyboard (initial_state_of conversation_memory request)) in H1.
  destruct (Raising.stream w keyboard (initial_state_of conversation_memory request))
    as [[chunks | chunks n e dirty] c] eqn:Es.
  - destruct Hcases as [-> _]. destruct H1 as (Hshape & _).
    cbn [fst]. split; [constructor; [exact Hshape | constructor] |].
    split; [simpl; lia |]. split.
    { cbn [flat_map Raising.executed]. rewrite app_nil_r.
      destruct Hshape as [<- | [<- | [<- | [<- | []]]]]; simpl; lia. }
    intros Hk. exists chunks. split; [reflexivity |].
    unfold Raising.stream in Es.
    destruct (graph_stream w (initial_state_of conversation_memory request))
      as [chunks0 | e0] eqn:E0.
    + unfold graph_stream in E0.
      apply (raising_graph_steps_total w keyboard _ Hk) in E0.
      rewrite Es in E0. cbn [fst] in E0. injection E0 as <-. reflexivity.
    + rewrite graph_stream_returns in E0 by reflexivity. discriminate E0.
  - destruct H1 as (-> & Hshape & _ & Ht & Hk & _ & Hq & _).
    cbn [fst].
    assert (Hfirst : (fun run =>
              match run with
              | Raising.Ended _ => In (Raising.executed run) complete_runs
              | Raising.Aborted _ failed_node e _ =>
                  In (Raising.executed run) interrupted_runs /\
                  failed_node = clarify_loop_node /\
                  TESTING_MODE w = false /\
                  exists i, keyboard i = Some e
              end) (Raising.Aborted chunks clarify_loop_node e dirty))
      by (cbn [Raising.executed]; auto).
    assert (Hlen1 : List.length (List.map fst chunks ++ [clarify_loop_node]) <= 3).
    { destruct Hshape as [<- | [<- | []]]; simpl; lia. }
    destruct (is_Exception e).
    + destruct Hcases as (-> & Hretry & _).
      pose proof (attempt_facts w keyboard
                    (Raising.left_behind (initial_state_of conversation_memory request) dirty)
                    c) as H2.
      cbv zeta in H2. rewrite <- raising_graph_run, <- Hretry in H2.
      destruct (left_behind_fields (initial_state_of conversation_memory request) dirty)
        as (_ & _ & Hra).
      rewrite Hra, (rounds_allowed_asked dirty) in H2 by lia.
      destruct (Raising.retry w keyboard (initial_state_of conversation_memory request))
        as [[chunks' | chunks' n' e' dirty'] c'].
      * destruct H2 as (Hshape2 & Hlen2 & _). cbn [fst].
        split; [constructor; [exact Hfirst | constructor; [exact Hshape2 | constructor]] |].
        split; [simpl; lia |]. split.
        { cbn [flat_map]. rewrite app_nil_r, List.length_app.
          specialize (Hlen2 eq_refl). cbn [Raising.executed].
          rewrite (length_map fst chunks'). lia. }
        intros Hk'. destruct Hk as [i Hi]. rewrite Hk' in Hi. discriminate Hi.
      * destruct H2 as (-> & Hshape2 & Hlen2 & Ht2 & Hk2 & _). cbn [fst].
        split.
        { constructor; [exact Hfirst |]. constructor; [| constructor].
          cbn [Raising.executed]. auto. }
        split; [simpl; lia |]. split.
        { cbn [flat_map]. rewrite app_nil_r, List.length_app.
          specialize (Hlen2 eq_refl). cbn [Raising.executed].
          rewrite (List.length_app (List.map fst chunks')), (length_map fst chunks').
          simpl. lia. }
        intros Hk'. destruct Hk as [i Hi]. rewrite Hk' in Hi. discriminate Hi.
    + destruct Hcases as [-> _].
      split; [constructor; [exact Hfirst | constructor] |].
      split; [simpl; lia |]. split.
      { cbn [flat_map Raising.executed]. rewrite app_nil_r. lia. }
      intros Hk'. destruct Hk as [i Hi]. rewrite Hk' in Hi. discriminate Hi.
Qed.

Lemma final_state_of_default (a b : AgentState) (chunks : list (Node * AgentState)) :
  chunks <> [] -> final_state_of a chunks = final_state_of b chunks.
Proof.
  destruct chunks as [|p chunks]; [congruence |]. intros _.
  now rewrite !final_state_of_cons.
Qed.

Lemma final_state_of_Forall (P : AgentState -> Prop) (d : AgentState)
    (chunks : list (Node * AgentState)) :
  chunks <> [] -> Forall (fun p => P (snd p)) chunks -> P (final_state_of d chunks).
Proof.
  intros Hne H. unfold final_state_of. apply last_Forall.
  - destruct chunks; [congruence | discriminate].
  - apply List.Forall_map. exact H.
Qed.

(** Sets up the facts about the two runs of a request: [H1] about the
    streamed run, [Hcases] about how [process_request] ends. *)
Ltac request_runs w keyboard conversation_memory request H1 Hcases :=
  pose proof (raising_request_cases w keyboard conversation_memory request) as Hcases;
  pose proof (attempt_facts w keyboard (initial_state_of conversation_memory request)
                {| llm_calls := 0; lines_read := 0 |}) as H1;
  cbv zeta in Hcases, H1;
  rewrite <- raising_graph_run in H1;
  fold (Raising.stream w keyboard (initial_state_of conversation_memory request)) in H1;
  destruct (initial_state_facts conversation_memory request) as (HL0 & Hr0 & Hh0);
  rewrite HL0, Hr0, ?Hh0 in H1; cbn [List.length llm_calls lines_read] in H1.

(** ... and [H2] about the retry that follows a streamed run interrupted
    with [dirty] left behind at cursor [c]. *)
Ltac retry_run w keyboard conversation_memory request dirty c Hq Hretry H2 :=
  pose proof (attempt_facts w keyboard
                (Raising.left_behind (initial_state_of conversation_memory request) dirty)
                c) as H2;
  cbv zeta in H2;
  rewrite <- raising_graph_run, <- Hretry in H2;
  destruct (left_behind_fields (initial_state_of conversation_memory request) dirty)
    as (HqL & HhL & HrL);
  rewrite HrL, HqL, ?HhL, (rounds_allowed_asked dirty) in H2 by lia.

(** A request is asked at most three clarification questions, and at most
    two unless [input()] raised and the graph was run again: the retry
    finds the questions of the interrupted run in the state and can add
    one. *)
Theorem questions_per_request (w : World) (keyboard : Raising.Keyboard)
    (conversation_memory : list Turn) (request : string) :
  let s0 := initial_state_of conversation_memory request in
  Forall (fun run =>
            Forall (fun state => List.length (clarification_questions state) <= 3)
                   (Raising.states run))
         (Raising.attempts w keyboard s0) /\
  (Raising.retried w keyboard s0 = false ->
   Forall (fun run =>
             Forall (fun state => List.length (clarification_questions state) <= 2)
                    (Raising.states run))
          (Raising.attempts w keyboard s0)).
Proof.
  cbv zeta. unfold Raising.attempts.
  request_runs w keyboard conversation_memory request H1 Hcases.
  assert (Hmap : forall (b : nat) (chunks : list (Node * AgentState)) (R : RouteType) (b0 : nat),
             b0 <= b ->
             Forall (fun p : Node * AgentState =>
                       List.length (clarification_questions (snd p)) <= b0 /\
                       route (snd p) = Some R) chunks ->
             Forall (fun state => List.length (clarification_questions state) <= b)
                    (List.map snd chunks)).
  { intros b chunks R b0 Hb H. apply List.Forall_map.
    eapply List.Forall_impl; [| exact H]. intros p [Hp _]. simpl. lia. }
  destruct (Raising.stream w keyboard (initial_state_of conversation_memory request))
    as [[chunks | chunks n e dirty] c] eqn:Es.
  - destruct Hcases as [-> _]. destruct H1 as (_ & _ & _ & Hall & _). cbn [fst].
    split; [| intros _]; (constructor; [| constructor]);
      cbn [Raising.states]; eapply Hmap; try exact Hall; lia.
  - destruct H1 as (-> & _ & _ & _ & _ & Hall & Hq & _). cbn [fst].
    assert (Hs1 : forall b, 2 <= b ->
               Forall (fun state => List.length (clarification_questions state) <= b)
                      (Raising.states (Raising.Aborted chunks clarify_loop_node e dirty))).
    { intros b Hb. cbn [Raising.states]. apply Forall_app. split.
      - eapply Hmap; [| exact Hall]. lia.
      - constructor; [lia | constructor]. }
    destruct (is_Exception e).
    + destruct Hcases as (-> & Hretry & _).
      retry_run w keyboard conversation_memory request dirty c Hq Hretry H2.
      split; [| discriminate].
      constructor; [apply Hs1; lia |]. constructor; [| constructor].
      destruct (Raising.retry w keyboard (initial_state_of conversation_memory request))
        as [[chunks' | chunks' n' e' dirty'] c']; cbn [fst Raising.states].
      * destruct H2 as (_ & _ & _ & Hall2 & _). eapply Hmap; [| exact Hall2]. lia.
      * destruct H2 as (_ & _ & _ & _ & _ & Hall2 & Hq2 & _).
        apply Forall_app. split.
        -- eapply Hmap; [| exact Hall2]. lia.
        -- constructor; [lia | constructor].
    + destruct Hcases as [-> _].
      split; [| intros _]; (constructor; [| constructor]); apply Hs1; lia.
Qed.

(** The cost of a request: at least two and at most eight calls to the
    completion gateway and at most three calls of [input()]; at most six
    and two when the graph is run once; no [input()] at all, and no
    second run, in testing mode; exactly two gateway calls, no [input()]
    and no second run when the first reply is not classified as
    Clarify. *)
Theorem request_cost (w : World) (keyboard : Raising.Keyboard)
    (conversation_memory : list Turn) (request : string) :
  let s0 := initial_state_of conversation_memory request in
  let c_end := Raising.request_cursor w keyboard s0 in
  2 <= llm_calls c_end <= 8 /\
  lines_read c_end <= 3 /\
  (Raising.retried w keyboard s0 = false ->
   llm_calls c_end <= 6 /\ lines_read c_end <= 2) /\
  (TESTING_MODE w = true ->
   Raising.retried w keyboard s0 = false /\ lines_read c_end = 0) /\
  (fst (classify (upper (strip (completions w 0)))) <> CLARIFY ->
   Raising.retried w keyboard s0 = false /\
   llm_calls c_end = 2 /\ lines_read c_end = 0).
Proof.
  cbv zeta. unfold Raising.request_cursor.
  request_runs w keyboard conversation_memory request H1 Hcases.
  destruct (Raising.stream w keyboard (initial_state_of conversation_memory request))
    as [[chunks | chunks n e dirty] c] eqn:Es.
  - destruct Hcases as [-> _].
    destruct H1 as (_ & _ & _ & _ & _ & Hcalls & Hreads & Htest & Hroute).
    cbn [snd]. split; [lia |]. split; [lia |]. split; [intros _; lia |].
    split.
    + intros Ht. specialize (Htest Ht). split; [reflexivity | lia].
    + intros HR. destruct (Hroute HR) as [H H']. split; [reflexivity | lia].
  - destruct H1 as (-> & _ & _ & Ht & _ & _ & Hq & _ & Hcalls & Hreads & HR).
    assert (Htest : TESTING_MODE w = true -> False) by (rewrite Ht; discriminate).
    destruct (is_Exception e).
    + destruct Hcases as (-> & Hretry & _).
      retry_run w keyboard conversation_memory request dirty c Hq Hretry H2.
      destruct (Raising.retry w keyboard (initial_state_of conversation_memory request))
        as [[chunks' | chunks' n' e' dirty'] c']; cbn [snd].
      * destruct H2 as (_ & _ & _ & _ & _ & Hcalls2 & Hreads2 & _).
        split; [lia |]. split; [lia |]. split; [discriminate |].
        split; intros Hx; congruence.
      * destruct H2 as (_ & _ & _ & _ & _ & _ & _ & _ & Hcalls2 & Hreads2 & _).
        split; [lia |]. split; [lia |]. split; [discriminate |].
        split; intros Hx; congruence.
    + destruct Hcases as [-> _]. cbn [snd].
      split; [lia |]. split; [lia |]. split; [intros _; lia |].
      split; intros Hx; congruence.
Qed.

Lemma success_route_taken (final : AgentState) (R : RouteType) :
  route final = Some R ->
  res_route_taken (success_result final) = route_value R /\
  res_route_taken (success_result final) <> "unknown" /\
  (res_route_taken (success_result final) <> "clarify" -> R <> CLARIFY).
Proof.
  intros H. unfold success_result. cbn [res_route_taken]. rewrite H.
  destruct R; simpl; (split; [reflexivity |]); (split; [discriminate |]);
    intros Hx; try discriminate; exfalso; now apply Hx.
Qed.

(** What a request leaves in the conversation memory.  When
    [process_request] returns a success dictionary, the memory is the one
    it found, then the user's request, then the turns of the clarification
    dialogue: at most four when the graph ran once, at most five when
    [input()] raised and the graph ran again, the turns of the
    interrupted run included.  When the graph ran once on the Answer or
    Code route the request is all that is added: the answer produced is
    not recorded.  When both runs fail, or the exception is not an
    [Exception], the memory is left as it was, without the request. *)
Theorem memory_after_request (w : World) (keyboard : Raising.Keyboard)
    (conversation_memory : list Turn) (request : string) :
  let s0 := initial_state_of conversation_memory request in
  let outcome := Raising.agent_process_request w keyboard conversation_memory request in
  match fst outcome with
  | Returned d =>
      if success d then
        exists turns : list Turn,
          snd outcome
            = conversation_memory ++ {| role := "user"; message := request |} :: turns /\
          res_conversation_history d = Some (snd outcome) /\
          List.length turns <= 5 /\
          (Raising.retried w keyboard s0 = false ->
           List.length turns <= 4 /\
           (res_route_taken d <> "clarify" -> turns = []))
      else snd outcome = conversation_memory
  | Raised _ => snd outcome = conversation_memory
  end.
Proof.
  cbv zeta.
  request_runs w keyboard conversation_memory request H1 Hcases.
  destruct (Raising.stream w keyboard (initial_state_of conversation_memory request))
    as [[chunks | chunks n e dirty] c] eqn:Es.
  - destruct Hcases as [Hre ->].
    destruct H1 as (_ & _ & Hne & Hall & (turns & Hhist & Hlen & Hnone) & _).
    cbn [fst snd success_result success res_conversation_history].
    exists turns. rewrite Hhist, <- app_assoc. split; [reflexivity |].
    split; [reflexivity |]. split; [lia |]. intros _. split; [lia |].
    intros Hroute. apply Hnone.
    assert (Hfinal : route (final_state_of (initial_state_of conversation_memory request)
                              chunks)
                     = Some (fst (classify (upper (strip (completions w 0)))))).
    { apply (final_state_of_Forall (fun s => route s = Some _)); [exact Hne |].
      eapply List.Forall_impl; [| exact Hall]. now intros p [_ Hp]. }
    destruct (success_route_taken _ _ Hfinal) as (_ & _ & H). now apply H.
  - destruct H1 as (-> & _ & _ & _ & _ & _ & Hq & (turns1 & Hhist1 & Hlen1) & _).
    destruct (is_Exception e).
    + destruct Hcases as (Hre & Hretry & Hout).
      retry_run w keyboard conversation_memory request dirty c Hq Hretry H2.
      destruct (Raising.retry w keyboard (initial_state_of conversation_memory request))
        as [[chunks' | chunks' n' e' dirty'] c']; cbn [fst] in Hout; rewrite Hout.
      * destruct H2 as (_ & _ & Hne & _ & (turns2 & Hhist2 & Hlen2 & _) & _).
        cbn [fst snd success_result success res_conversation_history].
        rewrite (final_state_of_default
                   (initial_state_of conversation_memory request)
                   (Raising.left_behind (initial_state_of conversation_memory request) dirty))
          by exact Hne.
        exists (turns1 ++ turns2). rewrite Hhist2, Hhist1, <- !app_assoc.
        split; [reflexivity |]. split; [reflexivity |].
        split; [rewrite List.length_app; lia |].
        rewrite Hre. discriminate.
      * destruct (is_Exception e'); reflexivity.
    + destruct Hcases as [_ ->]. reflexivity.
Qed.

(** The route a request reports is the classification of the first reply
    of the run that reached [END]: reply 0 when the graph ran once, the
    first reply after the interruption when it ran again, whatever the
    interrupted run had decided.  Every state of that run carries the
    route from the routing node on, and it is never "unknown".  When both
    runs fail the route reported is "error". *)
Theorem route_taken_of_ending_run (w : World) (keyboard : Raising.Keyboard)
    (conversation_memory : list Turn) (request : string) :
  let s0 := initial_state_of conversation_memory request in
  let outcome := Raising.agent_process_request w keyboard conversation_memory request in
  let first_call :=
    if Raising.retried w keyboard s0
    then llm_calls (snd (Raising.stream w keyboard s0))
    else 0 in
  let decided := fst (classify (upper (strip (completions w first_call)))) in
  match fst outcome with
  | Returned d =>
      if success d then
        res_route_taken d = route_value decided /\
        res_route_taken d <> "unknown" /\
        exists chunks : list (Node * AgentState),
          List.last (Raising.attempts w keyboard s0) (Raising.Ended [])
            = Raising.Ended chunks /\
          Forall (fun p : Node * AgentState => route (snd p) = Some decided) chunks
      else
        res_route_taken d = "error" /\ Raising.retried w keyboard s0 = true
  | Raised e => is_Exception e = false
  end.
Proof.
  cbv zeta. unfold Raising.attempts.
  request_runs w keyboard conversation_memory request H1 Hcases.
  destruct (Raising.stream w keyboard (initial_state_of conversation_memory request))
    as [[chunks | chunks n e dirty] c] eqn:Es.
  - destruct Hcases as [-> ->].
    destruct H1 as (_ & _ & Hne & Hall & _).
    assert (Hroutes : Forall (fun p : Node * AgentState =>
                route (snd p) = Some (fst (classify (upper (strip (completions w 0))))))
              chunks)
      by (eapply List.Forall_impl; [| exact Hall]; now intros p [_ Hp]).
    assert (Hfinal : route (final_state_of (initial_state_of conversation_memory request)
                              chunks)
                     = Some (fst (classify (upper (strip (completions w 0))))))
      by (apply (final_state_of_Forall (fun s => route s = Some _)); assumption).
    destruct (success_route_taken _ _ Hfinal) as (Hr1 & Hr2 & _).
    cbn [fst success_result success]. split; [exact Hr1 |]. split; [exact Hr2 |].
    exists chunks. split; [reflexivity | exact Hroutes].
  - destruct H1 as (-> & _ & _ & _ & _ & _ & Hq & _).
    destruct (is_Exception e) eqn:He.
    + destruct Hcases as (-> & Hretry & Hout).
      retry_run w keyboard conversation_memory request dirty c Hq Hretry H2.
      cbn [snd].
      destruct (Raising.retry w keyboard (initial_state_of conversation_memory request))
        as [[chunks' | chunks' n' e' dirty'] c']; cbn [fst] in Hout; rewrite Hout.
      * destruct H2 as (_ & _ & Hne & Hall & _).
        assert (Hroutes : Forall (fun p : Node * AgentState =>
                    route (snd p)
                    = Some (fst (classify (upper (strip (completions w (llm_calls c)))))))
                  chunks')
          by (eapply List.Forall_impl; [| exact Hall]; now intros p [_ Hp]).
        assert (Hfinal : route (final_state_of
                                  (initial_state_of conversation_memory request) chunks')
                         = Some (fst (classify (upper (strip (completions w (llm_calls c)))))))
          by (apply (final_state_of_Forall (fun s => route s = Some _)); assumption).
        destruct (success_route_taken _ _ Hfinal) as (Hr1 & Hr2 & _).
        cbn [fst success_result success]. split; [exact Hr1 |]. split; [exact Hr2 |].
        exists chunks'. split; [reflexivity | exact Hroutes].
      * destruct (is_Exception e') eqn:He'; cbn [fst].
        -- cbn [failure_result success res_route_taken]. split; reflexivity.
        -- exact He'.
    + destruct Hcases as [_ ->]. exact He.
Qed.

(** A request whose second question meets a closed input: Ctrl-D at the
    prompt raises [EOFError], the graph is run again, asks a third
    question and reads the answer.  Three questions, eight gateway calls,
    three calls of [input()], five dialogue turns in the memory, and the
    route of the second classification. *)
Example interrupted_request :
  let w := {| TESTING_MODE := false;
              completions := fun n =>
                match n with
                | 0 => "CLARIFY"
                | 1 => "QUESTION: What kind of project?"
                | 2 => "QUESTION: Tell me more."
                | 3 => "QUESTION: Which language?"
                | 4 => "This needs CLARIFY again"
                | 5 => "QUESTION: Which framework?"
                | 6 => "QUESTION: Anything else?"
                | _ => "Build a flask web app."
                end;
              typed_lines := fun n =>
                match n with 0 => "a web app" | _ => "flask" end |} in
  let keyboard := fun n => match n with 1 => Some Raising.EOFError | _ => None end in
  let s0 := initial_state_of [] "I want to build something" in
  let outcome := Raising.agent_process_request w keyboard [] "I want to build something" in
  List.map Raising.executed (Raising.attempts w keyboard s0)
    = [ [route_prompt_node; clarify_loop_node; clarify_loop_node];
        [route_prompt_node; clarify_loop_node; refine_prompt_node; run_claude_code_node] ] /\
  List.map (fun run =>
              List.map (fun state => List.length (clarification_questions state))
                       (Raising.states run))
           (Raising.attempts w keyboard s0)
    = [ [0; 1; 2]; [2; 3; 3; 3] ] /\
  Raising.request_cursor w keyboard s0 = {| llm_calls := 8; lines_read := 3 |} /\
  snd outcome
    = [ {| role := "user"; message := "I want to build something" |};
        {| role := "assistant"; message := "What kind of project?" |};
        {| role := "user"; message := "a web app" |};
        {| role := "assistant"; message := "Which language?" |};
        {| role := "assistant"; message := "Which framework?" |};
        {| role := "user"; message := "flask" |} ] /\
  exists d, fst outcome = Returned d /\ success d = true /\
            res_route_taken d = "clarify" /\
            res_refined_prompt d = Some "Build a flask web app.".
Proof.
  cbv zeta. repeat split; try (vm_compute; reflexivity).
  eexists. split; [vm_compute; reflexivity |]. repeat split.
Qed.




(** A blank answer to a clarification question: outside testing mode,
    when the analysis reply asks a question and the line the user types
    is empty or white space only, [clarify_loop] makes no second gateway
    call and proceeds with the request as it stood.  The question is
    recorded, in [clarification_questions] and as an assistant turn;
    [clarification_responses] and [user_input] are unchanged;
    [clarified] is true and [refined_prompt] is [user_input]. *)
Theorem clarify_loop_blank_response (w : World) (state : AgentState) (c : Cursor) :
  TESTING_MODE w = false ->
  startswith "QUESTION:" (completions w (llm_calls c)) = true ->
  strip (typed_lines w (lines_read c)) = "" ->
  let state' := fst (clarify_loop w state c) in
  let question := strip (drop 9 (completions w (llm_calls c))) in
  clarified state' = true /\
  refined_prompt state' = user_input state /\
  user_input state' = user_input state /\
  clarification_questions state' = clarification_questions state ++ [question] /\
  clarification_responses state' = clarification_responses state /\
  conversation_history state'
    = conversation_history state ++ [{| role := "assistant"; message := question |}] /\
  snd (clarify_loop w state c)
    = {| llm_calls := S (llm_calls c); lines_read := S (lines_read c) |}.
Proof.
  intros Ht Hq Hblank.
  assert (E1 : startswith "CLARIFIED:" (completions w (llm_calls c)) = false).
  { destruct (startswith "CLARIFIED:" (completions w (llm_calls c))) eqn:E;
      [| reflexivity].
    apply markers_exclusive in E. congruence. }
  cbv zeta. rewrite clarify_loop_question by assumption. cbv zeta.
  unfold user_response_at, cursor_after_response. rewrite Ht.
  cbn [next_call lines_read llm_calls]. rewrite Hblank.
  change (truthy "") with false. cbv iota.
  unfold asked, analysed, add_step, add_conversation. simpl. repeat split.
Qed.

Lemma clarify_loop_blank_response_witness :
  let w := {| TESTING_MODE := false;
              completions := fun _ => "QUESTION: What kind of project?";
              typed_lines := fun _ => "   " |} in
  let state' := fst (clarify_loop w (create_agent_state "I need an app")
                                  {| llm_calls := 0; lines_read := 0 |}) in
  clarified state' = true /\
  refined_prompt state' = "I need an app" /\
  clarification_questions state' = ["What kind of project?"] /\
  clarification_responses state' = [].
Proof.
  cbv zeta.
  destruct (clarify_loop_blank_response
              {| TESTING_MODE := false;
                 completions := fun _ => "QUESTION: What kind of project?";
                 typed_lines := fun _ => "   " |}
              (create_agent_state "I need an app")
              {| llm_calls := 0; lines_read := 0 |})
    as (H1 & H2 & _ & H4 & H5 & _); [reflexivity | reflexivity | reflexivity |].
  repeat split; assumption.
Defined.

(* ===================================================================== *)
(** ** More of the session manager                                        *)
(* ===================================================================== *)

(** A created session can be looked up: [create_session] returns the id
    it was given, [get_session] then yields a session with an empty
    conversation memory and a message count of zero, [get_connection] the
    websocket; every other id is answered as before. *)
Theorem create_session_registers (session_id other : string) (now : Z)
    (websocket : SessionManager.WebSocket) (m : SessionManager.t) :
  let m' := snd (SessionManager.create_session session_id now websocket m) in
  fst (SessionManager.create_session session_id now websocket m) = session_id /\
  SessionManager.get_session session_id m'
    = Some {| SessionManager.agent_memory := [];
              SessionManager.created_at := now;
              SessionManager.message_count := 0 |} /\
  SessionManager.get_connection session_id m' = Some websocket /\
  (other <> session_id ->
   SessionManager.get_session other m' = SessionManager.get_session other m /\
   SessionManager.get_connection other m' = SessionManager.get_connection other m).
Proof.
  cbv zeta. unfold SessionManager.create_session, SessionManager.get_session,
    SessionManager.get_connection. simpl.
  rewrite !lookup_insert_eq. repeat split; intros;
    now rewrite lookup_insert_ne by congruence.
Qed.

Lemma create_session_registers_witness :
  SessionManager.get_session "b"
    (snd (SessionManager.create_session "a" 7 1 SessionManager.init))
  = SessionManager.get_session "b" SessionManager.init.
Proof.
  apply (create_session_registers "a" "b" 7 1 SessionManager.init). discriminate.
Defined.

(** Removing a session touches no other: for every other id
    [get_session] and [get_connection] answer as before. *)
Theorem remove_session_isolated (session_id other : string) (m : SessionManager.t) :
  other <> session_id ->
  SessionManager.get_session other (SessionManager.remove_session session_id m)
    = SessionManager.get_session other m /\
  SessionManager.get_connection other (SessionManager.remove_session session_id m)
    = SessionManager.get_connection other m.
Proof.
  intros Hne. unfold SessionManager.remove_session, SessionManager.pop_or_None,
    SessionManager.get_session, SessionManager.get_connection. simpl.
  split; now rewrite lookup_delete_ne by congruence.
Qed.

Lemma remove_session_isolated_witness :
  let m := snd (SessionManager.create_session "a" 7 1 SessionManager.init) in
  SessionManager.get_session "a" (SessionManager.remove_session "b" m)
    = SessionManager.get_session "a" m.
Proof.
  cbv zeta.
  apply (remove_session_isolated "b" "a"
           (snd (SessionManager.create_session "a" 7 1 SessionManager.init))).
  discriminate.
Defined.

Lemma removed_session_gone (session_id : string) (m : SessionManager.t) :
  SessionManager.get_session session_id
    (SessionManager.remove_session session_id m) = None /\
  SessionManager.get_connection session_id
    (SessionManager.remove_session session_id m) = None.
Proof.
  unfold SessionManager.remove_session, SessionManager.pop_or_None,
    SessionManager.get_session, SessionManager.get_connection. simpl.
  split; apply lookup_delete_eq.
Qed.

Lemma create_remove_fresh (session_id : string) (now : Z)
    (websocket : SessionManager.WebSocket) (m : SessionManager.t) :
  SessionManager.sessions m !! session_id = None ->
  SessionManager.active_connections m !! session_id = None ->
  SessionManager.remove_session session_id
    (snd (SessionManager.create_session session_id now websocket m)) = m.
Proof.
  intros H1 H2. unfold SessionManager.remove_session, SessionManager.pop_or_None,
    SessionManager.create_session. simpl.
  rewrite !delete_insert_eq, !delete_id by assumption. now destruct m.
Qed.

(** Creating a session under an id the manager does not hold and removing
    it again gives back the manager as it was, and the count of active
    sessions with it. *)
Theorem create_then_remove_restores (session_id : string) (now : Z)
    (websocket : SessionManager.WebSocket) (m : SessionManager.t) :
  SessionManager.get_session session_id m = None ->
  SessionManager.get_connection session_id m = None ->
  SessionManager.remove_session session_id
    (snd (SessionManager.create_session session_id now websocket m)) = m /\
  health_check
    (SessionManager.remove_session session_id
       (snd (SessionManager.create_session session_id now websocket m)))
  = health_check m.
Proof.
  intros H1 H2. now rewrite create_remove_fresh.
Qed.

Lemma create_then_remove_restores_witness :
  SessionManager.remove_session "a"
    (snd (SessionManager.create_session "a" 7 1 SessionManager.init))
  = SessionManager.init.
Proof.
  apply (create_then_remove_restores "a" 7 1 SessionManager.init); reflexivity.
Defined.

(** The two maps of the session manager always hold the same ids, so a
    session has a connection exactly when it is known, and the count
    [health_check] reports moves by one with each session created under a
    new id and each known session removed, and not at all when the id
    removed is unknown. *)
Theorem sessions_and_connections_agree (m : SessionManager.t) :
  reachable m ->
  dom (SessionManager.sessions m) = dom (SessionManager.active_connections m) /\
  (forall session_id,
      is_Some (SessionManager.get_session session_id m)
      <-> is_Some (SessionManager.get_connection session_id m)) /\
  (forall session_id now websocket,
      SessionManager.get_session session_id m = None ->
      health_check (snd (SessionManager.create_session session_id now websocket m))
      = S (health_check m)) /\
  (forall session_id,
      is_Some (SessionManager.get_session session_id m) ->
      S (health_check (SessionManager.remove_session session_id m)) = health_check m) /\
  (forall session_id,
      SessionManager.get_session session_id m = None ->
      health_check (SessionManager.remove_session session_id m) = health_check m).
Proof.
  intros Hr.
  assert (Hdom : dom (SessionManager.sessions m)
                 = dom (SessionManager.active_connections m)).
  { induction Hr as [| sid now ws m Hr IH | sid m Hr IH].
    - reflexivity.
    - unfold SessionManager.create_session. simpl.
      now rewrite !dom_insert_L, IH.
    - unfold SessionManager.remove_session, SessionManager.pop_or_None. simpl.
      now rewrite !dom_delete_L, IH. }
  split; [exact Hdom |].
  unfold SessionManager.get_session, SessionManager.get_connection, health_check.
  repeat split.
  - intros H. apply elem_of_dom. rewrite <- Hdom. now apply elem_of_dom.
  - intros H. apply elem_of_dom. rewrite Hdom. now apply elem_of_dom.
  - intros sid now ws H. unfold SessionManager.create_session. simpl.
    now apply map_size_insert_None.
  - intros sid H. unfold SessionManager.remove_session, SessionManager.pop_or_None.
    simpl. rewrite map_size_delete_Some by exact H.
    destruct H as [s Hs].
    assert (Hpos : size (SessionManager.sessions m) <> 0).
    { intros Hz. apply map_size_empty_inv in Hz. rewrite Hz in Hs.
      now rewrite lookup_empty in Hs. }
    lia.
  - intros sid H. unfold SessionManager.remove_session, SessionManager.pop_or_None.
    simpl. now apply map_size_delete_None.
Qed.

Lemma sessions_and_connections_agree_witness :
  let m := snd (SessionManager.create_session "a" 7 1 SessionManager.init) in
  dom (SessionManager.sessions m) = dom (SessionManager.active_connections m) /\
  health_check (SessionManager.remove_session "a" m) = 0.
Proof.
  cbv zeta.
  destruct (sessions_and_connections_agree
              (snd (SessionManager.create_session "a" 7 1 SessionManager.init)))
    as (H1 & _ & _ & H4 & _).
  - apply reachable_create, reachable_init.
  - split; [exact H1 |].
    assert (H : S (health_check
                     (SessionManager.remove_session "a"
                        (snd (SessionManager.create_session "a" 7 1 SessionManager.init))))
                = health_check
                    (snd (SessionManager.create_session "a" 7 1 SessionManager.init))).
    { apply H4. unfold SessionManager.get_session, SessionManager.create_session.
      simpl. rewrite lookup_insert_eq. eauto. }
    assert (H0 : health_check
                   (snd (SessionManager.create_session "a" 7 1 SessionManager.init)) = 1).
    { unfold health_check, SessionManager.create_session. simpl.
      rewrite map_size_insert_None by apply lookup_empty.
      now rewrite map_size_empty. }
    lia.
Defined.

(* ===================================================================== *)
(** ** The websocket endpoint                                             *)
(* ===================================================================== *)

(** As written, [websocket_endpoint] serves no message: after the
    session_created message it calls [set_execution_modes(http=True)],
    and [http] is not a parameter of that function, so the call raises
    [TypeError] before the receive loop is entered.  The [finally] clause
    removes the session just created: it cannot be looked up afterwards,
    and when its id was new the manager is as it was before the
    connection. *)
Theorem websocket_endpoint_never_serves (session_id : string) (now : Z)
    (websocket : SessionManager.WebSocket)
    (receive_loop : SessionManager.t -> list Bridge.Message * SessionManager.t)
    (m : SessionManager.t) :
  exists m' : SessionManager.t,
    websocket_endpoint (Returned tt) session_id now websocket receive_loop m
    = ([{| Bridge.msg_type := "session_created";
           Bridge.msg_data := Bridge.Field "session_id" session_id |}],
       Raised (TypeError
                 "set_execution_modes() got an unexpected keyword argument 'http'"),
       m') /\
    SessionManager.get_session session_id m' = None /\
    SessionManager.get_connection session_id m' = None /\
    (SessionManager.get_session session_id m = None ->
     SessionManager.get_connection session_id m = None ->
     m' = m).
Proof.
  eexists. split; [reflexivity |].
  destruct (removed_session_gone session_id
              (snd (SessionManager.create_session session_id now websocket m)))
    as (H1 & H2).
  split; [exact H1 |]. split; [exact H2 |].
  intros Hs Hc. now apply create_remove_fresh.
Qed.

(* ===================================================================== *)
(** ** The environment check and the construction of the gateway          *)
(* ===================================================================== *)

Lemma length_stars (n : nat) : String.length (RunServer.stars n) = n.
Proof. induction n as [|n IH]; simpl; [reflexivity | now rewrite IH]. Qed.

Lemma length_app_s (a b : string) :
  String.length (a +:+ b) = String.length a + String.length b.
Proof.
  induction a as [|c a IH]; [reflexivity |].
  change (String c a +:+ b) with (String c (a +:+ b)). simpl. now rewrite IH.
Qed.

Lemma length_drop_s (n : nat) (s : string) :
  String.length (drop n s) = String.length s - n.
Proof.
  revert s. induction n as [|n IH]; intros s.
  - change (drop 0 s) with s. lia.
  - destruct s as [|c s]; [reflexivity |].
    change (drop (S n) (String c s)) with (drop n s). simpl. apply IH.
Qed.

Lemma take_drop_s (n : nat) (s : string) : take n s +:+ drop n s = s.
Proof.
  revert s. induction n as [|n IH]; intros s; [reflexivity |].
  destruct s as [|c s]; [reflexivity |].
  change (take (S n) (String c s)) with (String c (take n s)).
  change (drop (S n) (String c s)) with (drop n s).
  change (String c (take n s) +:+ drop n s) with (String c (take n s +:+ drop n s)).
  now rewrite IH.
Qed.

Lemma length_take_s (n : nat) (s : string) :
  n <= String.length s -> String.length (take n s) = n.
Proof.
  revert s. induction n as [|n IH]; intros s H; [reflexivity |].
  destruct s as [|c s]; [simpl in H; lia |].
  change (take (S n) (String c s)) with (String c (take n s)).
  simpl in *. rewrite IH; lia.
Qed.

(** How [check_environment] shows a key: as many characters as the key
    has, all but the last four replaced by stars.  A key of four
    characters or fewer is shown as it is. *)
Theorem masked_key (value : string) :
  String.length (RunServer.masked value) = String.length value /\
  (String.length value <= 4 -> RunServer.masked value = value) /\
  (4 <= String.length value ->
   exists hidden shown,
     value = hidden +:+ shown /\
     String.length shown = 4 /\
     RunServer.masked value = RunServer.stars (String.length hidden) +:+ shown).
Proof.
  unfold RunServer.masked. repeat split.
  - rewrite length_app_s, length_stars, length_drop_s. lia.
  - intros H. replace (String.length value - 4) with 0 by lia. reflexivity.
  - intros H.
    exists (take (String.length value - 4) value),
           (drop (String.length value - 4) value).
    split; [now rewrite take_drop_s |].
    split; [rewrite length_drop_s; lia |].
    now rewrite length_take_s by lia.
Qed.

Lemma masked_key_witness :
  RunServer.masked "key" = "key" /\
  exists hidden shown,
    "sk-abcdef1234" = hidden +:+ shown /\
    String.length shown = 4 /\
    RunServer.masked "sk-abcdef1234" = RunServer.stars (String.length hidden) +:+ shown.
Proof.
  split.
  - apply (masked_key "key"). simpl. lia.
  - apply (masked_key "sk-abcdef1234"). simpl. lia.
Defined.

(** [check_environment] passes exactly when OPENAI_API_KEY is set to a
    non-empty value, and that is exactly when [LLMManager()] gets past its
    own check: after a passed check the construction succeeds whenever the
    chat client can be built, after a failed one it raises [ValueError]
    whatever else holds. *)
Theorem check_environment_guards_gateway (getenv : Environ) :
  (snd (RunServer.check_environment getenv) = true ->
   exists key,
     getenv "OPENAI_API_KEY" = Some key /\ key <> "" /\
     LLMManager_init getenv (Returned tt)
     = Returned {| openai_api_key := key;
                   anthropic_api_key := getenv "ANTHROPIC_API_KEY" |}) /\
  (snd (RunServer.check_environment getenv) = false ->
   forall chat_model,
     LLMManager_init getenv chat_model
     = Raised (ValueError "OPENAI_API_KEY environment variable not set")) /\
  List.length (fst (RunServer.check_environment getenv)) = 4.
Proof.
  unfold RunServer.check_environment, RunServer.required_env_vars,
    RunServer.is_set, LLMManager_init.
  cbn [List.filter].
  destruct (getenv "OPENAI_API_KEY") as [[|c key] |]; cbn; repeat split;
    try discriminate; intros; try reflexivity.
  exists (String c key). repeat split. discriminate.
Qed.

Lemma check_environment_guards_gateway_witness :
  exists key,
    key <> "" /\
    LLMManager_init
      (fun var => if String.eqb var "OPENAI_API_KEY" then Some "sk-abcdef1234" else None)
      (Returned tt)
    = Returned {| openai_api_key := key; anthropic_api_key := None |}.
Proof.
  destruct (check_environment_guards_gateway
              (fun var => if String.eqb var "OPENAI_API_KEY"
                          then Some "sk-abcdef1234" else None))
    as (H & _).
  destruct (H eq_refl) as (key & _ & Hne & Hinit).
  exists key. split; [exact Hne | exact Hinit].
Defined.

(* ===================================================================== *)
(** ** More of the streaming bridge                                       *)
(* ===================================================================== *)

Lemma endpoint_sends_nothing_relayed (result : Bridge.Outcome) :
  List.filter Bridge.from_queue (Bridge.send_outcome result) = [].
Proof.
  unfold Bridge.send_outcome.
  destruct (truthy (Bridge.out_route_taken result));
    destruct (Bridge.out_success result);
    repeat match goal with
           | |- context [if ?b then _ else _] => destruct b
           end;
    reflexivity.
Qed.

Lemma bridge_relayed_part (events : list Bridge.Event) (worker : Exc ResultDict) :
  exists (note : Bridge.Sent) (result : Bridge.Outcome),
    Bridge.from_queue note = false /\
    Bridge.process_request_with_streaming events worker
    = (Bridge.sent (Bridge.monitor events) ++ [note], result).
Proof.
  unfold Bridge.process_request_with_streaming.
  destruct worker as [d | e]; [| destruct (is_Exception e)];
    eexists; eexists; (split; [| reflexivity]); reflexivity.
Qed.

(** Seen from the relay, what a request puts on the socket is what the
    loop sent. *)
Lemma serve_request_relayed (events : list Bridge.Event) (worker : Exc ResultDict) :
  List.filter Bridge.from_queue (Bridge.serve_request events worker)
  = List.filter Bridge.from_queue (Bridge.sent (Bridge.monitor events)).
Proof.
  destruct (bridge_relayed_part events worker) as (note & result & Hn & Hs).
  unfold Bridge.serve_request. rewrite Hs. cbv beta iota.
  rewrite !List.filter_app, (endpoint_sends_nothing_relayed result).
  simpl. rewrite Hn. now rewrite !app_nil_r.
Qed.



Lemma relay_at_most_one (message : string) (route_sent : bool) :
  List.length (fst (Bridge.relay message route_sent)) <= 1.
Proof.
  unfold Bridge.relay.
  repeat match goal with
         | |- context [if ?b then _ else _] => destruct b
         end;
    simpl; lia.
Qed.

Lemma relay_all_length (lines : list string) (route_sent : bool) :
  List.length (Bridge.relay_all lines route_sent) <= List.length lines.
Proof.
  revert route_sent. induction lines as [|x lines IH]; intros rs; [simpl; lia |].
  simpl. pose proof (relay_at_most_one x rs) as H1.
  destruct (Bridge.relay x rs) as [out rs']. simpl in H1.
  rewrite length_app. specialize (IH rs'). lia.
Qed.

Lemma drain_taken (budget : nat) (l : Bridge.Loop) :
  Bridge.taken (Bridge.drain budget l) <= Bridge.taken l + budget.
Proof.
  revert l. induction budget as [|budget IH]; intros l; [simpl; lia |].
  simpl. destruct (Bridge.step_queue l) as [|message rest]; [lia |].
  destruct (Bridge.relay message (Bridge.route_sent l)) as [out rs'].
  etransitivity; [apply IH |]. simpl. lia.
Qed.

#[local] Arguments Bridge.drain : simpl never.

Lemma monitor_taken (events : list Bridge.Event) (l : Bridge.Loop) :
  Bridge.taken (fold_left Bridge.on_event events l)
  <= Bridge.taken l + 5 * rounds events.
Proof.
  revert l. induction events as [|e events IH]; intros l; [simpl; lia |].
  simpl fold_left. etransitivity; [apply IH |].
  destruct e as [line | hb].
  - change (rounds (Bridge.Printed line :: events)) with (rounds events).
    simpl. lia.
  - change (rounds (Bridge.Round hb :: events)) with (S (rounds events)).
    pose proof (drain_taken 5 l) as H.
    destruct hb; simpl; lia.
Qed.

(** The bridge takes at most five lines off the queue each time round its
    loop: a run in which it went round [r] times has taken at most [5 r]
    lines and relayed at most [5 r] messages, however many lines the
    worker printed. *)
Theorem relay_bounded_by_rounds (events : list Bridge.Event) (worker : Exc ResultDict) :
  Bridge.taken (Bridge.monitor events) <= 5 * rounds events /\
  List.length (List.filter Bridge.from_queue (Bridge.serve_request events worker))
    <= 5 * rounds events.
Proof.
  pose proof (monitor_taken events Bridge.start) as Ht. simpl in Ht.
  split; [exact Ht |].
  rewrite serve_request_relayed.
  destruct (monitor_inv events) as (done & _ & Hlen & Hsent & _).
  rewrite Hsent. pose proof (relay_all_length done false) as Hl.
  unfold Bridge.monitor in *. lia.
Qed.

(** The relay's [route_sent] flag. *)
Lemma relay_route_flag (message : string) (route_sent : bool) :
  (route_sent = true ->
   snd (Bridge.relay message route_sent) = true /\
   List.filter is_route_decision (fst (Bridge.relay message route_sent)) = []) /\
  (route_sent = false ->
   (snd (Bridge.relay message route_sent) = false /\
    List.filter is_route_decision (fst (Bridge.relay message route_sent)) = [])
   \/
   (snd (Bridge.relay message route_sent) = true /\
    List.length (List.filter is_route_decision (fst (Bridge.relay message route_sent)))
    = 1)).
Proof.
  unfold Bridge.relay. split; intros ->; cbn [negb]; cbv iota;
    repeat match goal with
           | |- context [if ?b then _ else _] => destruct b
           end;
    first [ split; reflexivity
          | left; split; reflexivity
          | right; split; reflexivity ].
Qed.

Lemma relay_all_route_once (lines : list string) (route_sent : bool) :
  List.length (List.filter is_route_decision (Bridge.relay_all lines route_sent))
  <= (if route_sent then 0 else 1).
Proof.
  revert route_sent. induction lines as [|x lines IH]; intros rs.
  - simpl. destruct rs; lia.
  - simpl. destruct (relay_route_flag x rs) as [Ht Hf].
    destruct (Bridge.relay x rs) as [out rs']. simpl in Ht, Hf.
    rewrite List.filter_app, length_app. specialize (IH rs').
    destruct rs.
    + destruct (Ht eq_refl) as [-> ->]. simpl in *. lia.
    + destruct (Hf eq_refl) as [[-> ->] | [-> Hone]]; simpl in *; lia.
Qed.

(** The route is relayed once: whatever the worker prints, at most one of
    the messages relayed from its lines is a route_decision. *)
Theorem relay_sends_route_once (events : list Bridge.Event) (worker : Exc ResultDict) :
  List.length
    (List.filter is_route_decision
       (List.filter Bridge.from_queue (Bridge.serve_request events worker))) <= 1.
Proof.
  rewrite serve_request_relayed.
  destruct (monitor_inv events) as (done & _ & _ & Hsent & _).
  rewrite Hsent. apply (relay_all_route_once done false).
Qed.

(** The endpoint's own route messages: for a result that names a route,
    [websocket_endpoint] sends the route_decision message twice when the
    request succeeded and once when it failed. *)
Theorem endpoint_repeats_route_on_success (result : Bridge.Outcome) :
  truthy (Bridge.out_route_taken result) = true ->
  List.filter is_route_decision (Bridge.send_outcome result)
  = repeat (Bridge.endpoint_msg "route_decision"
              (Bridge.Field "route" (Bridge.out_route_taken result)))
           (if Bridge.out_success result then 2 else 1).
Proof.
  intros Hr. unfold Bridge.send_outcome. rewrite Hr.
  destruct (Bridge.out_success result);
    repeat match goal with
           | |- context [if ?b then _ else _] => destruct b
           end;
    reflexivity.
Qed.

Lemma endpoint_repeats_route_on_success_witness :
  List.length
    (List.filter is_route_decision
       (Bridge.send_outcome
          {| Bridge.out_success := true; Bridge.out_final_result := "done";
             Bridge.out_route_taken := "answer"; Bridge.out_error := None;
             Bridge.out_clarification_question := None |})) = 2.
Proof.
  rewrite (endpoint_repeats_route_on_success
             {| Bridge.out_success := true; Bridge.out_final_result := "done";
                Bridge.out_route_taken := "answer"; Bridge.out_error := None;
                Bridge.out_clarification_question := None |});
    reflexivity.
Defined.

(** A run that ends with an exception: whether [agent.process_request]
    raised in the worker thread or the thread died without a result, the
    client gets what was relayed so far, then a step message "Error: ..."
    with the text, the route "error" once, and one error message with the
    same text. *)
Theorem failed_run_reports_error (events : list Bridge.Event) (e : PyExn) :
  let text := if is_Exception e then exn_text e
              else "No result received from processing thread" in
  List.map Bridge.wire (Bridge.serve_request events (Raised e)) =
    [{| Bridge.msg_type := "processing_update";
        Bridge.msg_data := Bridge.Text "Starting to process your request..." |}]
    ++ List.map Bridge.wire (Bridge.sent (Bridge.monitor events))
    ++ [ {| Bridge.msg_type := "processing_step";
            Bridge.msg_data := Bridge.Text ("Error: " +:+ text) |};
         {| Bridge.msg_type := "route_decision";
            Bridge.msg_data := Bridge.Field "route" "error" |};
         {| Bridge.msg_type := "error";
            Bridge.msg_data := Bridge.Field "error" text |} ].
Proof.
  cbv zeta. unfold Bridge.serve_request, Bridge.process_request_with_streaming.
  destruct (is_Exception e); simpl;
    rewrite !List.map_app, <- app_assoc; reflexivity.
Qed.

Lemma contains_nonempty (needle s : string) :
  needle <> "" -> contains needle s = true -> s <> "".
Proof.
  intros Hn H ->. destruct needle; [now apply Hn | discriminate H].
Qed.

(** Which outcome message closes a successful request is decided by the
    text of [final_result] alone: when it begins with
    "I need more information:", or holds a question mark together with
    "Could you please", "What kind of", "more details" or
    "please provide" (the last two in any letter case), the client gets
    clarification_needed carrying that text (less the
    "I need more information: " head), and final_result otherwise.  An
    answer that merely contains such a phrase is therefore delivered as a
    clarification request. *)
Theorem outcome_message_follows_indicators (d : ResultDict) :
  success d = true ->
  exists route_msgs : list Bridge.Sent,
    Forall (fun s => is_route_decision s = true) route_msgs /\
    Bridge.send_outcome (Bridge.detect_clarification (Bridge.outcome_of d))
    = route_msgs ++
      [ if reads_as_question (res_final_result d)
        then Bridge.endpoint_msg "clarification_needed"
               (Bridge.Field "question"
                  (if startswith "I need more information:" (res_final_result d)
                   then replace "I need more information: " "" (res_final_result d)
                   else res_final_result d))
        else Bridge.endpoint_msg "final_result"
               (Bridge.Field "result" (res_final_result d)) ].
Proof.
  intros Hs.
  unfold Bridge.detect_clarification, Bridge.outcome_of, reads_as_question.
  cbn [Bridge.out_final_result Bridge.out_clarification_question existsb].
  set (fr := res_final_result d).
  set (b1 := startswith "I need more information:" fr).
  set (b2 := contains "Could you please" fr).
  set (b3 := contains "What kind of" fr).
  set (b4 := contains "more details" (lower fr)).
  set (b5 := contains "please provide" (lower fr)).
  set (q := contains Bridge.qmark fr).
  assert (Hq : q = true -> fr <> "").
  { apply contains_nonempty. discriminate. }
  assert (Hroute : forall o, Bridge.out_success o = true ->
             exists route_msgs,
               Forall (fun s => is_route_decision s = true) route_msgs /\
               forall tail,
                 ((if truthy (Bridge.out_route_taken o)
                   then [Bridge.endpoint_msg "route_decision"
                           (Bridge.Field "route" (Bridge.out_route_taken o))]
                   else [])
                  ++ (if truthy (Bridge.out_route_taken o)
                      then [Bridge.endpoint_msg "route_decision"
                              (Bridge.Field "route" (Bridge.out_route_taken o))]
                      else [])
                  ++ tail) = route_msgs ++ tail).
  { intros o _. destruct (truthy (Bridge.out_route_taken o)).
    - exists [Bridge.endpoint_msg "route_decision"
                (Bridge.Field "route" (Bridge.out_route_taken o));
              Bridge.endpoint_msg "route_decision"
                (Bridge.Field "route" (Bridge.out_route_taken o))].
      split; [repeat constructor | reflexivity].
    - exists []. split; [constructor | reflexivity]. }
  unfold Bridge.send_outcome.
  destruct b1 eqn:E1, b2 eqn:E2, b3 eqn:E3, b4 eqn:E4, b5 eqn:E5, q eqn:Eq;
    cbn [orb andb];
    cbn [Bridge.out_success Bridge.out_final_result Bridge.out_route_taken
         Bridge.out_clarification_question Bridge.out_error];
    rewrite ?Hs; fold fr; fold b1 b2 b3 b4 q; rewrite ?E1, ?E2, ?E3, ?E4, ?Eq;
    cbn [orb andb];
    try (destruct (replace "I need more information: " "" fr) eqn:Er);
    try (destruct fr as [|c0 fr0] eqn:Efr; [exfalso; now apply Hq |]);
    match goal with
    | |- exists _, _ /\ ?l ++ ?l' ++ ?tail = _ =>
        destruct (Hroute {| Bridge.out_success := true;
                            Bridge.out_final_result := "";
                            Bridge.out_route_taken := res_route_taken d;
                            Bridge.out_error := None;
                            Bridge.out_clarification_question := None |} eq_refl)
          as (route_msgs & Hall & Heq);
        exists route_msgs; split; [exact Hall | apply Heq]
    end.
Qed.

Lemma outcome_message_follows_indicators_witness :
  let d := success_result
             (set_final_result "What kind of API is REST? An architectural style."
                (set_route (Some ANSWER) (create_agent_state "What is REST?"))) in
  exists route_msgs : list Bridge.Sent,
    Bridge.send_outcome (Bridge.detect_clarification (Bridge.outcome_of d))
    = route_msgs ++
      [Bridge.endpoint_msg "clarification_needed"
         (Bridge.Field "question" "What kind of API is REST? An architectural style.")].
Proof.
  cbv zeta.
  destruct (outcome_message_follows_indicators
              (success_result
                 (set_final_result "What kind of API is REST? An architectural style."
                    (set_route (Some ANSWER) (create_agent_state "What is REST?")))))
    as (route_msgs & _ & H); [reflexivity |].
  exists route_msgs. exact H.
Defined.

(* ===================================================================== *)
(** ** Result dictionary, memory display, demo report, test harness       *)
(* ===================================================================== *)

(** A request that the agent's own graph serves always comes back as a
    success dictionary built from the state the run ended in. *)
Lemma agent_process_request_eq (w : World) (conversation_memory : list Turn)
    (request : string) :
  agent_process_request w conversation_memory request
  = let initial_state := initial_state_of conversation_memory request in
    let final := final_state_of initial_state (run_chunks w initial_state) in
    (Returned (success_result final), conversation_history final).
Proof.
  unfold agent_process_request, process_request.
  rewrite graph_stream_returns by reflexivity. reflexivity.
Qed.




(** *** show_memory *)

Lemma last_entries_app {A : Type} (k : nat) (older recent : list A) :
  List.length recent = k -> last_entries k (older ++ recent) = recent.
Proof.
  intros <-. unfold last_entries. rewrite length_app.
  replace (List.length older + List.length recent - List.length recent)
    with (List.length older + 0) by lia.
  rewrite skipn_app, Nat.add_0_r, skipn_all.
  replace (List.length older - List.length older) with 0 by lia. reflexivity.
Qed.

Lemma length_enumerate {A : Type} (i : nat) (l : list A) :
  List.length (enumerate i l) = List.length l.
Proof. revert i. induction l; intros i; simpl; auto. Qed.

(** The memory display shows a window: the five most recent turns,
    numbered from 1 whatever their place in the memory, under a header
    with the size of the memory.  Of the older turns only the number is
    printed, so two memories of the same size that end with the same five
    turns are displayed alike; the display is never longer than seven
    lines. *)
Theorem show_memory_window (older older' recent : list Turn) :
  List.length recent = 5 ->
  List.length older = List.length older' ->
  show_memory (older ++ recent) = show_memory (older' ++ recent) /\
  List.length (show_memory (older ++ recent)) <= 7 /\
  List.map memory_line (enumerate 1 recent)
    = List.firstn 5 (List.tl (show_memory (older ++ recent))).
Proof.
  intros Hrecent Holder.
  assert (Hshape : forall old : list Turn,
             show_memory (old ++ recent)
             = ("🧠 Conversation memory (" +:+ decimal (List.length old + 5)
                  +:+ " entries):")
               :: List.map memory_line (enumerate 1 recent)
               ++ (if (5 <? List.length old + 5)%nat
                   then ["  ... and " +:+ decimal (List.length old + 5 - 5)
                           +:+ " more entries"]
                   else [])).
  { intros old. unfold show_memory.
    rewrite last_entries_app by exact Hrecent.
    rewrite length_app, Hrecent.
    destruct (old ++ recent) eqn:E; [| reflexivity].
    apply (f_equal (@List.length Turn)) in E. rewrite length_app, Hrecent in E.
    simpl in E. lia. }
  rewrite !Hshape, Holder. split; [reflexivity |]. split.
  - simpl List.length. rewrite length_app, length_map, length_enumerate, Hrecent.
    destruct (5 <? _)%nat; simpl; lia.
  - simpl List.tl. rewrite firstn_app.
    rewrite length_map, length_enumerate, Hrecent. simpl (5 - 5).
    rewrite firstn_O, app_nil_r. symmetry. apply firstn_all2.
    rewrite length_map, length_enumerate, Hrecent. lia.
Qed.

Lemma show_memory_window_witness :
  let turn := fun m => {| role := "user"; message := m |} in
  let recent := [turn "b"; turn "c"; turn "d"; turn "e"; turn "f"] in
  show_memory ([turn "a"] ++ recent) = show_memory ([turn "z"] ++ recent) /\
  List.length (show_memory ([turn "a"] ++ recent)) <= 7 /\
  List.map memory_line (enumerate 1 recent)
    = List.firstn 5 (List.tl (show_memory ([turn "a"] ++ recent))).
Proof.
  cbv zeta.
  apply (show_memory_window [{| role := "user"; message := "a" |}]
                            [{| role := "user"; message := "z" |}]);
    reflexivity.
Defined.

(** *** demo_claude_code.py *)


(** A request that [process_request] could not serve comes back with
    [success] false and no [error_message] key; the demo looks only at
    that key, and reports the failure as "Success: 0 characters
    generated" without a preview. *)
Theorem demo_reports_failure_as_success
    (stream : AgentState -> Exc (list (Node * AgentState)))
    (invoke : AgentState -> Exc AgentState)
    (conversation_memory : list Turn) (prompt : string) (d : ResultDict) :
  fst (process_request stream invoke conversation_memory prompt) = Returned d ->
  success d = false ->
  demo_report d = demo_success 0 None.
Proof.
  unfold process_request. intros H Hs.
  destruct (try_except_Exception _ _) as [final | e].
  - cbn [fst] in H. injection H as <-. discriminate Hs.
  - destruct (is_Exception e); cbn [fst] in H; [| discriminate H].
    injection H as <-. reflexivity.
Qed.

Lemma demo_reports_failure_as_success_witness :
  demo_report (failure_result (ValueError "boom")) = demo_success 0 None.
Proof.
  apply (demo_reports_failure_as_success
           (fun _ => Raised (ValueError "boom"))
           (fun _ => Raised (ValueError "boom")) [] "hello");
    reflexivity.
Defined.

(** *** The test harness of main *)

Lemma filter_partition_length {A : Type} (p q : A -> bool) (l : list A) :
  (forall x, p x && q x = false) ->
  List.length (List.filter p l) + List.length (List.filter q l)
  + List.length (List.filter (fun x => negb (p x) && negb (q x)) l)
  = List.length l.
Proof.
  intros Hpq. induction l as [|x l IH]; [reflexivity |].
  simpl. specialize (Hpq x).
  destruct (p x), (q x); simpl in *; try discriminate; lia.
Qed.

Lemma failed_tests_eq (results : list TestResult) :
  failed_tests (summary results) = count (fun r => negb (tr_success r)) results.
Proof.
  unfold summary, count. cbn [failed_tests].
  pose proof (filter_partition_length
                (fun r => tr_success r && route_match r)
                (fun r => tr_success r && negb (route_match r)) results) as H.
  rewrite (List.filter_ext
             (fun x => negb (tr_success x && route_match x)
                       && negb (tr_success x && negb (route_match x)))
             (fun r => negb (tr_success r))) in H
    by (intros r; destruct (tr_success r), (route_match r); reflexivity).
  specialize (H ltac:(intros x; cbv beta; destruct (tr_success x), (route_match x); reflexivity)).
  lia.
Qed.

Lemma count_unsuccessful_zero (results : list TestResult) :
  Forall (fun r => tr_success r = true) results ->
  count (fun r => negb (tr_success r)) results = 0%Z.
Proof.
  unfold count. intros H. induction H as [|r l Hr _ IH]; [reflexivity |].
  simpl. rewrite Hr. simpl. exact IH.
Qed.

(** The summary's "Failed" count, computed as total minus passed minus
    partial, is the number of tests whose run did not succeed: a test
    that succeeded on another route than the expected one is counted as
    partial, never as failed.  The "Failed Tests" block is printed only
    when that count is positive, and then lists the unsuccessful tests
    and the wrong-route tests alike. *)
Theorem summary_failed_counts_unsuccessful (results : list TestResult) :
  failed_tests (summary results) = count (fun r => negb (tr_success r)) results /\
  (0 <= failed_tests (summary results))%Z /\
  (failed_tests (summary results) = 0%Z <->
   Forall (fun r => tr_success r = true) results) /\
  (forall r, In r (listed_as_failed results) <->
     (0 < failed_tests (summary results))%Z /\ In r results /\
     (tr_success r = false \/ route_match r = false)).
Proof.
  pose proof (failed_tests_eq results) as Hf.
  split; [exact Hf |]. split; [rewrite Hf; unfold count; lia |]. split.
  - rewrite Hf. split.
    + unfold count. intros H. assert (H' : List.filter (fun r => negb (tr_success r)) results = []).
      { destruct (List.filter _ results); [reflexivity | simpl in H; lia]. }
      apply List.Forall_forall. intros r Hr.
      destruct (tr_success r) eqn:E; [reflexivity |].
      assert (Hin : In r (List.filter (fun r => negb (tr_success r)) results)).
      { apply List.filter_In. split; [exact Hr |]. now rewrite E. }
      rewrite H' in Hin. destruct Hin.
    + apply count_unsuccessful_zero.
  - intros r. unfold listed_as_failed.
    destruct (0 <? failed_tests (summary results))%Z eqn:E.
    + apply Z.ltb_lt in E. rewrite List.filter_In. split.
      * intros [Hin Hr]. split; [exact E |]. split; [exact Hin |].
        destruct (tr_success r), (route_match r); simpl in Hr; auto; discriminate.
      * intros (_ & Hin & Hr). split; [exact Hin |].
        destruct Hr as [-> | ->]; [reflexivity | apply orb_true_r].
    + apply Z.ltb_ge in E. split; [intros [] | intros (H & _); lia].
Qed.

Lemma run_test_cases_agent (worlds : nat -> World) (cases : list TestCase) :
  forall (i : nat) (conversation_memory : list Turn),
  exists results : list TestResult,
    run_test_cases (fun i => agent_process_request (worlds i)) i cases
                   conversation_memory = Returned results /\
    List.map test_case results = List.map tc_name cases /\
    Forall (fun r => tr_success r = true /\ tr_error r = None /\
                     (actual_route r = "answer" \/ actual_route r = "code"
                      \/ actual_route r = "clarify")) results.
Proof.
  induction cases as [|tc rest IH]; intros i conversation_memory.
  - exists []. repeat split. constructor.
  - cbn [run_test_cases]. rewrite agent_process_request_eq. cbv zeta.
    set (final := final_state_of _ _).
    destruct (IH (S i) (conversation_history final)) as (results & Hrun & Hnames & Hall).
    rewrite Hrun. cbn [analyse exc_bind].
    eexists. split; [reflexivity |]. split; [simpl; now rewrite Hnames |].
    constructor; [| exact Hall].
    cbn [tr_success tr_error actual_route success_result success res_error
         res_route_taken].
    split; [reflexivity |]. split; [reflexivity |].
    pose proof (run_chunks_final (worlds i)
                  (initial_state_of conversation_memory (tc_input tc))) as (_ & Hf).
    cbv zeta in Hf. fold final in Hf.
    destruct Hf as [(Hr & _) | ([Hr | Hr] & _)]; rewrite Hr; simpl; auto.
Qed.

(** Run against the engine, the test harness cannot report a failure:
    whatever the completion service answers, every test case gets a
    result with [success] true and no error, the [except] branch is never
    taken, "Failed" is 0 and the "Failed Tests" block is not printed: a
    test can only pass or be partial. *)
Theorem test_run_never_fails (worlds : nat -> World) (cases : list TestCase)
    (conversation_memory : list Turn) :
  exists results : list TestResult,
    run_test_cases (fun i => agent_process_request (worlds i)) 1 cases
                   conversation_memory = Returned results /\
    List.map test_case results = List.map tc_name cases /\
    Forall (fun r => tr_success r = true /\ tr_error r = None) results /\
    failed_tests (summary results) = 0%Z /\
    (passed_tests (summary results) + partial_tests (summary results)
     = Z.of_nat (List.length cases))%Z /\
    listed_as_failed results = [].
Proof.
  destruct (run_test_cases_agent worlds cases 1 conversation_memory)
    as (results & Hrun & Hnames & Hall).
  exists results. split; [exact Hrun |]. split; [exact Hnames |].
  assert (Hs : Forall (fun r => tr_success r = true) results).
  { eapply List.Forall_impl; [| exact Hall]. now intros r (H & _). }
  assert (Hlen : List.length results = List.length cases).
  { rewrite <- (length_map test_case results), Hnames. apply length_map. }
  assert (Hf : failed_tests (summary results) = 0%Z)
    by (rewrite failed_tests_eq; now apply count_unsuccessful_zero).
  split.
  { eapply List.Forall_impl; [| exact Hall]. now intros r (H & H' & _). }
  split; [exact Hf |]. split.
  - unfold summary in *. cbn [failed_tests passed_tests partial_tests] in *. lia.
  - unfold listed_as_failed. now rewrite Hf.
Qed.
